(** * Enhanced Session Checker v3.0: a shallow embedding

    The development follows the JavaScript sources of the checker:
    the v3 script (classes [CookieIntelligenceSystem], [T1CookieInjector],
    [SessionAnalyzer], [EnhancedSessionChecker]) and the utility
    [isCookieExpired] of [session_checker_improved.js].

    Conventions of the embedding.
    - A JavaScript string is a [string]; a character is a UTF-16 code unit
      below 256, so inputs with code units from 256 on are outside the model.
    - A JavaScript number that the code only produces from [parseInt],
      [Date.now] and integer arithmetic is a [JS.Num]: [NaN] or an integer.
      Doubles are exact on integers below 2^53, and the comparisons the code
      makes against the clock are monotone under rounding, so nothing is lost.
    - Numbers that go through a true division ([confidence], [successRate])
      are IEEE-754 binary64 values of [PrimFloat].
    - Effects (the clock, the file system, the browser driver, exceptions)
      are threaded through the state-and-exception monad [M]. *)

From Stdlib Require Import String Ascii List ZArith Lia Bool Arith DecimalString.
From Stdlib Require Import Floats.PrimFloat Numbers.Cyclic.Int63.Uint63.
From Stdlib Require Import Sorted Permutation.
Import ListNotations.

Set Implicit Arguments.

(* ================================================================== *)
(** * Part I. Definitions                                               *)
(* ================================================================== *)

(** ** JavaScript primitives used by the sources *)
Module JS.

Definition TAB : ascii := ascii_of_nat 9.
Definition LF : ascii := ascii_of_nat 10.

(** WhiteSpace and LineTerminator code units below 256. *)
Definition isWhiteSpace (c : ascii) : bool :=
  let n := nat_of_ascii c in
  ((9 <=? n) && (n <=? 13)) || (n =? 32) || (n =? 160).

(** [\w] of a regular expression without the [u] or [i] flag. *)
Definition isWordChar (c : ascii) : bool :=
  let n := nat_of_ascii c in
  ((48 <=? n) && (n <=? 57)) || ((65 <=? n) && (n <=? 90))
  || ((97 <=? n) && (n <=? 122)) || (n =? 95).

(** The character class [[\w.-]]. *)
Definition isWordDotDash (c : ascii) : bool :=
  isWordChar c || (nat_of_ascii c =? 46) || (nat_of_ascii c =? 45).

Definition lowerChar (c : ascii) : ascii :=
  let n := nat_of_ascii c in
  if ((65 <=? n) && (n <=? 90))
     || ((192 <=? n) && (n <=? 222) && negb (n =? 215))
  then ascii_of_nat (n + 32) else c.

(** [String.prototype.toLowerCase]. *)
Fixpoint toLowerCase (s : string) : string :=
  match s with
  | EmptyString => EmptyString
  | String c s' => String (lowerChar c) (toLowerCase s')
  end.

(** [s.startsWith(p)]. *)
Definition startsWith (s p : string) : bool := String.prefix p s.

(** [s.includes(p)]. *)
Fixpoint includes (s p : string) : bool :=
  match s with
  | EmptyString => String.prefix p EmptyString
  | String _ s' => String.prefix p s || includes s' p
  end.

(** [s.split(sep)] for a one-character separator. *)
Fixpoint split (sep : ascii) (s : string) : list string :=
  match s with
  | EmptyString => [EmptyString]
  | String c s' =>
      if Ascii.eqb c sep then EmptyString :: split sep s'
      else match split sep s' with
           | [] => [String c EmptyString]
           | h :: t => String c h :: t
           end
  end.

Fixpoint trimStart (s : string) : string :=
  match s with
  | EmptyString => EmptyString
  | String c s' => if isWhiteSpace c then trimStart s' else s
  end.

Fixpoint rev_append (s acc : string) : string :=
  match s with
  | EmptyString => acc
  | String c s' => rev_append s' (String c acc)
  end.

Definition reverse (s : string) : string := rev_append s EmptyString.

Definition trimEnd (s : string) : string := reverse (trimStart (reverse s)).

(** [s.trim()]. *)
Definition trim (s : string) : string := trimEnd (trimStart s).

(** ToBoolean of a string: the empty string is the only falsy one. *)
Definition truthy (s : string) : bool :=
  match s with EmptyString => false | String _ _ => true end.

(** [parts[i]]. Past the end JavaScript gives [undefined]; the sources read
    such a field only in [parts[1] || ""] and [parseInt(parts[2]) || 1],
    where [undefined] and the empty string give the same result. *)
Definition at_ (parts : list string) (i : nat) : string := nth i parts EmptyString.

(** Numbers: [NaN] or an integer. *)
Inductive Num : Type :=
| NaN : Num
| Int : Z -> Num.

(** [a > b], [a < b], [a === b], [a !== b]: every comparison with [NaN] but
    [!==] is false. *)
Definition gt (a b : Num) : bool :=
  match a, b with Int x, Int y => (y <? x)%Z | _, _ => false end.

Definition lt (a b : Num) : bool :=
  match a, b with Int x, Int y => (x <? y)%Z | _, _ => false end.

Definition strictEq (a b : Num) : bool :=
  match a, b with Int x, Int y => (x =? y)%Z | _, _ => false end.

Definition strictNeq (a b : Num) : bool := negb (strictEq a b).

Definition digitVal (c : ascii) : option Z :=
  let n := nat_of_ascii c in
  if (48 <=? n) && (n <=? 57) then Some (Z.of_nat (n - 48))
  else if (97 <=? n) && (n <=? 122) then Some (Z.of_nat (n - 87))
  else if (65 <=? n) && (n <=? 90) then Some (Z.of_nat (n - 55))
  else None.

(** The longest prefix of digits of radix [R], as a value; [None] when the
    prefix is empty. *)
Fixpoint digits (R : Z) (s : string) (acc : option Z) : option Z :=
  match s with
  | EmptyString => acc
  | String c s' =>
      match digitVal c with
      | Some d =>
          if (d <? R)%Z
          then digits R s' (Some (match acc with
                                  | Some a => a * R + d
                                  | None => d
                                  end))%Z
          else acc
      | None => acc
      end
  end.

Definition dropPrefix2 (s : string) : string :=
  match s with
  | String _ (String _ r) => r
  | _ => s
  end.

(** [parseInt(str, radix)]; [radix = 0] stands for an absent radix. *)
Definition parseInt (str : string) (radix : Z) : Num :=
  let s0 := trimStart str in
  let '(sign, s1) :=
    match s0 with
    | String c r =>
        if (nat_of_ascii c =? 45) then ((-1)%Z, r)
        else if (nat_of_ascii c =? 43) then (1%Z, r)
        else (1%Z, s0)
    | EmptyString => (1%Z, s0)
    end in
  if negb (radix =? 0)%Z && ((radix <? 2)%Z || (36 <? radix)%Z) then NaN
  else
    let stripPrefix := (radix =? 0)%Z || (radix =? 16)%Z in
    let R0 := if (radix =? 0)%Z then 10%Z else radix in
    let '(R, s2) :=
      if stripPrefix && (String.prefix "0x" s1 || String.prefix "0X" s1)
      then (16%Z, dropPrefix2 s1) else (R0, s1) in
    match digits R s2 None with
    | None => NaN
    | Some v => Int (sign * v)
    end.

(** A [Map] with string keys, in insertion order. *)
Definition Map (V : Type) : Type := list (string * V).

Fixpoint get {V} (m : Map V) (k : string) : option V :=
  match m with
  | [] => None
  | (k', v) :: m' => if String.eqb k' k then Some v else get m' k
  end.

Definition has {V} (m : Map V) (k : string) : bool :=
  match get m k with Some _ => true | None => false end.

Fixpoint set {V} (m : Map V) (k : string) (v : V) : Map V :=
  match m with
  | [] => [(k, v)]
  | (k', v') :: m' =>
      if String.eqb k' k then (k', v) :: m' else (k', v') :: set m' k v
  end.

Definition keys {V} (m : Map V) : list string := map fst m.

(** [m.get(k) || []]. *)
Definition getOrEmpty {V} (m : Map (list V)) (k : string) : list V :=
  match get m k with Some l => l | None => [] end.

(** [if (!m.has(k)) m.set(k, [])]. *)
Definition ensure {V} (m : Map (list V)) (k : string) : Map (list V) :=
  if has m k then m else set m k [].

(** [m.get(k).push(x)] for a key that is present. *)
Definition push {V} (m : Map (list V)) (k : string) (x : V) : Map (list V) :=
  match get m k with
  | Some l => set m k (l ++ [x])
  | None => m
  end.

End JS.

(** ** CONFIG *)
Module CONFIG.

Definition t_minus_1_delay : Z := 2000.
Definition injection_delay : Z := 500.
Definition navigation_delay : Z := 1000.
Definition analysis_delay : Z := 3000.

Definition loginKeywords : list string :=
  ["sign in"; "log in"; "login"; "password"; "forgot password";
   "enter your password"; "authentication"; "two-factor"; "2fa";
   "create account"; "register"; "signin"; "sign up"]%string.

Definition loggedInKeywords : list string :=
  ["dashboard"; "profile"; "settings"; "account"; "logout"; "sign out";
   "welcome"; "my account"; "notifications"; "messages"; "balance";
   "transaction"; "statement"; "portfolio"; "investment"; "inbox";
   "compose"; "upload"; "post"; "timeline"; "feed"]%string.

Definition highValueDomains : list string :=
  ["vancity.com"; "td.com"; "rbc.com"; "bmo.com"; "scotiabank.com";
   "americanexpress.com"; "capitalone.com"; "visa.com"; "mastercard.com";
   "gmail.com"; "google.com"; "outlook.com"; "hotmail.com";
   "linkedin.com"; "facebook.com"; "twitter.com"; "x.com";
   "paypal.com"; "amazon.com"; "walmart.com"; "costco.ca"]%string.

End CONFIG.

(** ** Data model *)

Record CookieGroup : Type := mkCookieGroup {
  cg_source : string;
  cg_cookies : list string;
  cg_timestamp : Z
}.

Record HistoryEntry : Type := mkHistoryEntry {
  he_url : string;
  he_title : string;
  he_visitCount : Z
}.

Record PasswordEntry : Type := mkPasswordEntry {
  pe_url : string;
  pe_username : string;
  pe_hasPassword : bool
}.

Record AutofillEntry : Type := mkAutofillEntry {
  ae_fieldName : string;
  ae_fieldValue : string;
  ae_url : string
}.

(** [{ source, entries, timestamp }]. *)
Record Group (E : Type) : Type := mkGroup {
  g_source : string;
  g_entries : list E;
  g_timestamp : Z
}.

Record DiscoveredData : Type := mkDiscovered {
  cookies : JS.Map (list CookieGroup);
  history : JS.Map (list (Group HistoryEntry));
  passwords : JS.Map (list (Group PasswordEntry));
  autofills : JS.Map (list (Group AutofillEntry))
}.

Record Stats : Type := mkStats {
  validCookies : nat;
  expiredCookies : nat
}.

Record Analysis : Type := mkAnalysis {
  hasCookies : bool;
  hasHistory : bool;
  hasPasswords : bool;
  hasAutofills : bool;
  totalCookies : nat;
  totalHistoryEntries : nat;
  totalPasswords : nat;
  totalAutofills : nat;
  authenticatedEndpoints : list HistoryEntry;
  highValue : bool;
  crossReferenceScore : Z
}.

Record DomainData : Type := mkDomainData {
  dd_domain : string;
  dd_cookies : list CookieGroup;
  dd_history : list (Group HistoryEntry);
  dd_passwords : list (Group PasswordEntry);
  dd_autofills : list (Group AutofillEntry);
  analysis : Analysis
}.

(** A cookie as handed to [page.setCookie]; [pc_expires = None] is
    [undefined]. *)
Record PuppeteerCookie : Type := mkPuppeteerCookie {
  pc_name : string;
  pc_value : string;
  pc_domain : string;
  pc_path : string;
  pc_expires : option Z;
  pc_httpOnly : bool;
  pc_secure : bool
}.

Record Indicators : Type := mkIndicators {
  hasLogoutButton : bool;
  hasWelcomeMessage : bool;
  hasPersonalInfo : bool;
  hasAuthenticatedContent : bool
}.

Record Detection : Type := mkDetection {
  loggedInScore : nat;
  loginScore : nat;
  confidence : float;
  isLoggedIn : bool;
  status : string;
  indicators : Indicators
}.

Record SessionAnalysis : Type := mkSessionAnalysis {
  sa_domain : string;
  sa_testUrl : string;
  sa_actualUrl : string;
  sa_title : string;
  sa_redirected : bool;
  sa_timestamp : Z;
  detection : Detection;
  sa_htmlLength : nat;
  sa_titleLength : nat;
  sa_analysisTime : Z
}.

Record InjectionResult : Type := mkInjectionResult {
  ir_domain : string;
  ir_cookieCount : nat;
  ir_injectionTime : Z;
  ir_timestamp : Z
}.

(** An entry of [results]: the merged record of a completed test, or the
    record the [catch] clause builds, the only one with a top-level
    [status] (always ["ERROR"]). *)
Inductive TestResult : Type :=
| Tested : InjectionResult -> SessionAnalysis -> string -> TestResult
| Errored : string -> string -> Z -> TestResult.

Record InjectionStats : Type := mkInjectionStats {
  totalDomains : nat;
  successfulInjections : nat;
  failedInjections : nat;
  averageInjectionTime : float
}.

(** The objects the program mutates: they keep what was written to them
    when an exception unwinds. *)
Record Heap : Type := mkHeap {
  discoveredData : DiscoveredData;
  stats : Stats;
  injectionStats : InjectionStats;
  analysisResults : list SessionAnalysis;
  results : list TestResult
}.

Definition emptyDiscovered : DiscoveredData := mkDiscovered [] [] [] [].

Definition emptyHeap : Heap :=
  mkHeap emptyDiscovered (mkStats 0 0) (mkInjectionStats 0 0 0 0%float) [] [].

(** ** The world: clock, file system, browser driver, trace *)

(** What one interaction with the outside costs and answers: the time it
    takes, whether it throws, and the text it returns. *)
Record Step : Type := mkStep {
  lag : N;
  failure : option string;
  payload : string
}.

Inductive Event : Type :=
| EvNewPage : Event
| EvSetCookie : nat -> Event
| EvInjectionComplete : Event
| EvGoto : string -> Event
| EvContent : Event
| EvTitle : Event
| EvUrl : Event
| EvWriteFile : string -> Event
| EvScreenshot : string -> Event
| EvPageClose : Event.

(** The file system ([files]: content and modification time) is not
    changed by anyone else while the program runs. *)
Record World : Type := mkWorld {
  oracle : nat -> Step;
  files : string -> option (string * Z);
  now_ms : Z;
  ticks : nat;
  trace : list (Z * Event);
  heap : Heap
}.

Inductive Res (A : Type) : Type :=
| Ok : A -> Res A
| Throw : string -> Res A.
Arguments Ok {A} _.
Arguments Throw {A} _.

Definition M (A : Type) : Type := World -> Res A * World.

Definition ret {A} (a : A) : M A := fun w => (Ok a, w).

Definition bind {A B} (c : M A) (k : A -> M B) : M B :=
  fun w => match c w with
           | (Ok a, w') => k a w'
           | (Throw e, w') => (Throw e, w')
           end.

Definition throw {A} (msg : string) : M A := fun w => (Throw msg, w).

(** [try { c } catch (error) { h(error.message) }]. *)
Definition tryCatch {A} (c : M A) (h : string -> M A) : M A :=
  fun w => match c w with
           | (Ok a, w') => (Ok a, w')
           | (Throw e, w') => h e w'
           end.

Notation "x <- c ;; k" := (bind c (fun x => k))
  (at level 61, c at next level, right associativity).
Notation "c ;;; k" := (bind c (fun _ => k))
  (at level 61, right associativity).

Definition modifyHeap (f : Heap -> Heap) : M unit :=
  fun w => (Ok tt, mkWorld (oracle w) (files w) (now_ms w) (ticks w) (trace w) (f (heap w))).

(** One interaction: time moves on by the step's lag. *)
Definition tick : M Step :=
  fun w =>
    let s := oracle w (ticks w) in
    (Ok s, mkWorld (oracle w) (files w) (now_ms w + Z.of_N (lag s)) (S (ticks w))
                   (trace w) (heap w)).

(** [Date.now()]. *)
Definition Date_now : M Z :=
  tick ;;; fun w => (Ok (now_ms w), w).

(** [Math.floor(Date.now() / 1000)]. *)
Definition nowSeconds : M Z :=
  t <- Date_now ;; ret (t / 1000)%Z.

(** [await new Promise(resolve => setTimeout(resolve, ms))]: the timer
    fires after [ms] at the earliest. *)
Definition sleep (ms : Z) : M unit :=
  fun w =>
    let s := oracle w (ticks w) in
    (Ok tt, mkWorld (oracle w) (files w) (now_ms w + ms + Z.of_N (lag s)) (S (ticks w))
                    (trace w) (heap w)).

(** Record an event at the current time. *)
Definition emit (e : Event) : M unit :=
  fun w => (Ok tt, mkWorld (oracle w) (files w) (now_ms w) (ticks w)
                           ((now_ms w, e) :: trace w) (heap w)).

(** A call that leaves the program (browser driver, file write): issued
    now, it takes the step's lag and throws or answers as the step says. *)
Definition driver (e : Event) : M string :=
  emit e ;;;
  s <- tick ;;
  match failure s with
  | Some msg => throw msg
  | None => ret (payload s)
  end.

(** [fs.readFileSync(path, "utf-8")]. *)
Definition readFileSync (path : string) : M string :=
  fun w => match files w path with
           | Some (content, _) => (Ok content, w)
           | None => (Throw ("ENOENT: no such file or directory, open " ++ path)%string, w)
           end.

(** [fs.statSync(path).mtime], as epoch milliseconds. *)
Definition statSync_mtime (path : string) : M Z :=
  fun w => match files w path with
           | Some (_, mtime) => (Ok mtime, w)
           | None => (Throw ("ENOENT: no such file or directory, stat " ++ path)%string, w)
           end.

(** [for (const x of xs) { body }] over the loop's local variables. *)
Fixpoint forOf {A S} (xs : list A) (body : A -> S -> M S) (s : S) : M S :=
  match xs with
  | [] => ret s
  | x :: xs' => s' <- body x s ;; forOf xs' body s'
  end.

(** [for (const x of xs) { body }] with no local variable carried over. *)
Fixpoint forEach {A} (xs : list A) (body : A -> M unit) : M unit :=
  match xs with
  | [] => ret tt
  | x :: xs' => body x ;;; forEach xs' body
  end.

(** Updates of one component of the heap. *)
Definition onDiscovered (f : DiscoveredData -> DiscoveredData) (h : Heap) : Heap :=
  mkHeap (f (discoveredData h)) (stats h) (injectionStats h) (analysisResults h) (results h).

Definition onStats (f : Stats -> Stats) (h : Heap) : Heap :=
  mkHeap (discoveredData h) (f (stats h)) (injectionStats h) (analysisResults h) (results h).

Definition onInjectionStats (f : InjectionStats -> InjectionStats) (h : Heap) : Heap :=
  mkHeap (discoveredData h) (stats h) (f (injectionStats h)) (analysisResults h) (results h).

Definition pushAnalysis (a : SessionAnalysis) (h : Heap) : Heap :=
  mkHeap (discoveredData h) (stats h) (injectionStats h) (analysisResults h ++ [a]) (results h).

Definition pushResult (r : TestResult) (h : Heap) : Heap :=
  mkHeap (discoveredData h) (stats h) (injectionStats h) (analysisResults h) (results h ++ [r]).

Definition onCookies (f : JS.Map (list CookieGroup) -> JS.Map (list CookieGroup))
  : Heap -> Heap :=
  onDiscovered (fun d => mkDiscovered (f (cookies d)) (history d) (passwords d) (autofills d)).

Definition onHistory (f : JS.Map (list (Group HistoryEntry)) -> JS.Map (list (Group HistoryEntry)))
  : Heap -> Heap :=
  onDiscovered (fun d => mkDiscovered (cookies d) (f (history d)) (passwords d) (autofills d)).

Definition onPasswords (f : JS.Map (list (Group PasswordEntry)) -> JS.Map (list (Group PasswordEntry)))
  : Heap -> Heap :=
  onDiscovered (fun d => mkDiscovered (cookies d) (history d) (f (passwords d)) (autofills d)).

Definition onAutofills (f : JS.Map (list (Group AutofillEntry)) -> JS.Map (list (Group AutofillEntry)))
  : Heap -> Heap :=
  onDiscovered (fun d => mkDiscovered (cookies d) (history d) (passwords d) (f (autofills d))).

(** ** The cookie validity filter *)

(** [content.split("\n").filter(line => line.trim() && !line.startsWith("#"))] *)
Definition cookieLines (content : string) : list string :=
  filter (fun line => JS.truthy (JS.trim line) && negb (JS.startsWith line "#"))
         (JS.split JS.LF content).

(** [expiry > now || expiry === 0]. *)
Definition expiryValid (expiry : JS.Num) (now : Z) : bool :=
  JS.gt expiry (JS.Int now) || JS.strictEq expiry (JS.Int 0).

(** [isCookieExpired] of [session_checker_improved.js]: [parseInt] without a
    radix, and the clock read only when [expiry !== 0] holds. *)
Definition isCookieExpired (cookieLine : string) : M bool :=
  let parts := JS.split JS.TAB cookieLine in
  if length parts <? 7 then ret true
  else
    let expiry := JS.parseInt (JS.at_ parts 4) 0 in
    if JS.strictNeq expiry (JS.Int 0)
    then now <- nowSeconds ;; ret (JS.lt expiry (JS.Int now))
    else ret false.

(** ** CookieIntelligenceSystem *)

(** [s.replace(/^[^\w.-]/, "")]. *)
Definition replaceLeadingOther (s : string) : string :=
  match s with
  | String c r => if JS.isWordDotDash c then s else r
  | EmptyString => s
  end.

(** [s.replace(/^www[^\w.-]/, "")]. *)
Definition replaceLeadingWww (s : string) : string :=
  match s with
  | String c1 (String c2 (String c3 (String c r))) =>
      if Ascii.eqb c1 "w" && Ascii.eqb c2 "w" && Ascii.eqb c3 "w"
         && negb (JS.isWordDotDash c)
      then r else s
  | _ => s
  end.

(** The key under which [processCookieFile] files a cookie line. *)
Definition cookieDomain (parts : list string) : string :=
  replaceLeadingOther (JS.at_ parts 0).

(** The local variables of the loop of [processCookieFile]:
    [domainCookies], [validCount], [expiredCount]. *)
Definition CookieAcc : Type := (JS.Map (list string) * nat * nat)%type.

(** The [try] block of the loop of [processCookieFile]; the clock is read
    inside the loop, once per line. *)
Definition cookieLineTry (line : string) (acc : CookieAcc) : M CookieAcc :=
  let '(domainCookies, validCount, expiredCount) := acc in
  let parts := JS.split JS.TAB line in
  if 7 <=? length parts then
    let domain := cookieDomain parts in
    let expiry := JS.parseInt (JS.at_ parts 4) 10 in
    now <- nowSeconds ;;
    let domainCookies1 := JS.ensure domainCookies domain in
    let isValid := expiryValid expiry now in
    if isValid
    then ret (JS.push domainCookies1 domain line, S validCount, expiredCount)
    else ret (domainCookies1, validCount, S expiredCount)
  else ret acc.

Definition processCookieLine (line : string) (acc : CookieAcc) : M CookieAcc :=
  tryCatch (cookieLineTry line acc) (fun _ => ret acc).

(** The loop that stores the groups of one file in the main structure;
    [on] selects the map of the kind. *)
Definition storeGroups {G L} (on : (JS.Map (list G) -> JS.Map (list G)) -> Heap -> Heap)
    (mk : L -> Z -> G) (filePath : string) (fileMap : JS.Map L) : M unit :=
  forEach fileMap
    (fun kv =>
       let '(domain, items) := kv in
       modifyHeap (on (fun m => JS.ensure m domain)) ;;;
       mtime <- statSync_mtime filePath ;;
       modifyHeap (on (fun m => JS.push m domain (mk items mtime)))).

Definition processCookieFile (filePath relativePath : string) : M unit :=
  content <- readFileSync filePath ;;
  let lines := cookieLines content in
  acc <- forOf lines processCookieLine ([], 0, 0) ;;
  let '(domainCookies, validCount, expiredCount) := acc in
  storeGroups onCookies (mkCookieGroup relativePath) filePath domainCookies ;;;
  modifyHeap (onStats (fun st => mkStats (validCookies st + validCount)
                                         (expiredCookies st + expiredCount))).

(** [content.split("\n").filter(line => line.trim())]. *)
Definition nonBlankLines (content : string) : list string :=
  filter (fun line => JS.truthy (JS.trim line)) (JS.split JS.LF content).

(** [parseInt(parts[2]) || 1]. *)
Definition visitCountOf (field : string) : Z :=
  match JS.parseInt field 0 with
  | JS.Int z => if (z =? 0)%Z then 1%Z else z
  | JS.NaN => 1%Z
  end.

Definition mkHistory (parts : list string) (url : string) : HistoryEntry :=
  mkHistoryEntry url (JS.at_ parts 1) (visitCountOf (JS.at_ parts 2)).

Definition mkPassword (parts : list string) (url : string) : PasswordEntry :=
  mkPasswordEntry url (JS.at_ parts 1) (0 <? String.length (JS.at_ parts 2)).

Definition mkAutofill (parts : list string) (url : string) : AutofillEntry :=
  mkAutofillEntry (JS.at_ parts 0) (JS.at_ parts 1) url.

Section UrlKinds.

(** [new URL(url).hostname] of the runtime; [None] when the constructor
    throws. *)
Variable URL_hostname : string -> option string.

(** The key under which the URL-bearing kinds file a record. *)
Definition urlDomain (url : string) : option string :=
  match URL_hostname url with
  | Some h => Some (replaceLeadingWww h)
  | None => None
  end.

(** One line of a URL-bearing file: [minParts] fields at least, the URL in
    field [urlAt], the record built by [mk]. A throwing [new URL] is caught
    and the line skipped. *)
Definition processUrlLine {E} (minParts urlAt : nat) (mk : list string -> string -> E)
    (line : string) (acc : JS.Map (list E) * nat) : JS.Map (list E) * nat :=
  let '(domainMap, count) := acc in
  let parts := JS.split JS.TAB line in
  if minParts <=? length parts then
    let url := JS.at_ parts urlAt in
    if JS.startsWith url "http" then
      match urlDomain url with
      | Some domain =>
          (JS.push (JS.ensure domainMap domain) domain (mk parts url), S count)
      | None => acc
      end
    else acc
  else acc.

Definition processUrlFile {E}
    (on : (JS.Map (list (Group E)) -> JS.Map (list (Group E))) -> Heap -> Heap)
    (minParts urlAt : nat) (mk : list string -> string -> E)
    (filePath relativePath : string) : M unit :=
  content <- readFileSync filePath ;;
  let lines := nonBlankLines content in
  let '(domainMap, _) :=
    fold_left (fun acc line => processUrlLine minParts urlAt mk line acc) lines ([], 0) in
  storeGroups on (mkGroup relativePath) filePath domainMap.

Definition processHistoryFile := processUrlFile onHistory 1 0 mkHistory.
Definition processPasswordFile := processUrlFile onPasswords 3 0 mkPassword.
Definition processAutofillFile := processUrlFile onAutofills 3 2 mkAutofill.

End UrlKinds.

Definition authPatterns : list string :=
  ["/dashboard"; "/profile"; "/account"; "/settings"; "/my-account";
   "/home"; "/feed"; "/inbox"; "/messages"; "/notifications";
   "/balance"; "/transactions"; "/statements"; "/portfolio";
   "/admin"; "/user"; "/member"; "/secure"; "/private"]%string.

(** [authPatterns.some(pattern => url.toLowerCase().includes(pattern))]. *)
Definition isAuthenticatedUrl (url : string) : bool :=
  existsb (fun pattern => JS.includes (JS.toLowerCase url) pattern) authPatterns.

(** [new Set([...])] as its elements in insertion order. *)
Definition newSet (l : list string) : list string :=
  fold_left (fun seen x => if existsb (String.eqb x) seen then seen else seen ++ [x]) l [].

(** [xs.sort((a, b) => b.visitCount - a.visitCount)]: the sort is stable. *)
Fixpoint insertByVisits (x : HistoryEntry) (l : list HistoryEntry) : list HistoryEntry :=
  match l with
  | [] => [x]
  | y :: l' =>
      if (he_visitCount x <? he_visitCount y)%Z
      then y :: insertByVisits x l'
      else x :: y :: l'
  end.

Definition sortByVisitsDesc (l : list HistoryEntry) : list HistoryEntry :=
  fold_right insertByVisits [] l.

(** [groups.reduce((sum, g) => sum + g.entries.length, 0)]. *)
Definition totalOf {G} (len : G -> nat) (groups : list G) : nat :=
  fold_left (fun sum g => sum + len g) groups 0.

(** The entries of the history groups that [isAuthenticatedUrl] accepts, in
    order. *)
Definition authenticatedUrls (groups : list (Group HistoryEntry)) : list HistoryEntry :=
  flat_map (fun historyGroup => filter (fun entry => isAuthenticatedUrl (he_url entry))
                                       (g_entries historyGroup)) groups.

(** The six [if (...) score += w] statements and the cap. *)
Definition scoreOf (hasC hasH hasP hasA high : bool) (endpoints : nat) : Z :=
  let score := 0%Z in
  let score := if hasC then (score + 40)%Z else score in
  let score := if hasH then (score + 20)%Z else score in
  let score := if hasP then (score + 25)%Z else score in
  let score := if hasA then (score + 15)%Z else score in
  let score := if high then (score + 20)%Z else score in
  let score := if 0 <? endpoints then (score + 30)%Z else score in
  Z.min score 100.

(** The body of the loop of [analyzeDiscoveredData] for one domain. *)
Definition analyzeDomain (d : DiscoveredData) (domain : string) : DomainData :=
  let cs := JS.getOrEmpty (cookies d) domain in
  let hs := JS.getOrEmpty (history d) domain in
  let ps := JS.getOrEmpty (passwords d) domain in
  let fs := JS.getOrEmpty (autofills d) domain in
  let hasC := JS.has (cookies d) domain in
  let hasH := JS.has (history d) domain in
  let hasP := JS.has (passwords d) domain in
  let hasA := JS.has (autofills d) domain in
  let high := existsb (String.eqb domain) CONFIG.highValueDomains in
  let totalC := if 0 <? length cs then totalOf (fun c => length (cg_cookies c)) cs else 0 in
  let totalH := if 0 <? length hs then totalOf (fun h => length (g_entries h)) hs else 0 in
  let endpoints :=
    if 0 <? length hs then firstn 5 (sortByVisitsDesc (authenticatedUrls hs)) else [] in
  let totalP := if 0 <? length ps then totalOf (fun p => length (g_entries p)) ps else 0 in
  let totalA := if 0 <? length fs then totalOf (fun a => length (g_entries a)) fs else 0 in
  mkDomainData domain cs hs ps fs
    (mkAnalysis hasC hasH hasP hasA totalC totalH totalP totalA endpoints high
       (scoreOf hasC hasH hasP hasA high (length endpoints))).

(** The domains of all four maps, each once. *)
Definition allDomains (d : DiscoveredData) : list string :=
  newSet (JS.keys (cookies d) ++ JS.keys (history d)
          ++ JS.keys (passwords d) ++ JS.keys (autofills d)).

(** [analyzeDiscoveredData]: the map [crossReferencedData]. *)
Definition analyzeDiscoveredData (d : DiscoveredData) : JS.Map DomainData :=
  fold_left (fun crossReferencedData domain =>
               JS.set crossReferencedData domain (analyzeDomain d domain))
            (allDomains d) [].

(** ** T1CookieInjector *)

(** The body of the loop of [readAndValidateCookies]; [now] was read before
    the loop. *)
Definition validateLine (now : Z) (line : string) (puppeteerCookies : list PuppeteerCookie)
  : list PuppeteerCookie :=
  let parts := JS.split JS.TAB line in
  if 7 <=? length parts then
    let cookieDomain := JS.at_ parts 0 in
    let expiry := JS.parseInt (JS.at_ parts 4) 10 in
    if expiryValid expiry now then
      puppeteerCookies ++
        [mkPuppeteerCookie (JS.at_ parts 5) (JS.at_ parts 6) cookieDomain (JS.at_ parts 2)
           (match expiry with
            | JS.Int z => if (0 <? z)%Z then Some z else None
            | JS.NaN => None
            end)
           (String.eqb (JS.at_ parts 1) "TRUE") (String.eqb (JS.at_ parts 3) "TRUE")]
    else puppeteerCookies
  else puppeteerCookies.

Definition readAndValidateCookies (cookiePath _domain : string) : M (list PuppeteerCookie) :=
  content <- readFileSync cookiePath ;;
  let lines := cookieLines content in
  now <- nowSeconds ;;
  ret (fold_left (fun acc line => validateLine now line acc) lines []).

Definition Z2F (z : Z) : float := PrimFloat.of_uint63 (Uint63.of_Z z).

Definition N2F (n : nat) : float := Z2F (Z.of_nat n).

Definition recordInjection (injectionTime : Z) (s : InjectionStats) : InjectionStats :=
  let total := S (totalDomains s) in
  mkInjectionStats total (S (successfulInjections s)) (failedInjections s)
    ((averageInjectionTime s * N2F (total - 1) + Z2F injectionTime) / N2F total)%float.

Definition injectCookiesWithT1Timing (cookiePath domain : string) : M InjectionResult :=
  startTime <- Date_now ;;
  sleep CONFIG.t_minus_1_delay ;;;
  cookies <- readAndValidateCookies cookiePath domain ;;
  if length cookies =? 0
  then throw ("No valid cookies found for " ++ domain)%string
  else
    driver (EvSetCookie (length cookies)) ;;;
    sleep CONFIG.injection_delay ;;;
    emit EvInjectionComplete ;;;
    sleep CONFIG.navigation_delay ;;;
    endTime <- Date_now ;;
    let injectionTime := (endTime - startTime)%Z in
    modifyHeap (onInjectionStats (recordInjection injectionTime)) ;;;
    timestamp <- Date_now ;;
    ret (mkInjectionResult domain (length cookies) injectionTime timestamp).

(** ** SessionAnalyzer *)

Definition two52 : float := 4503599627370496%float.

(** The largest integer not above [x], for [0 <= x < 2^52]: adding and
    subtracting [2^52] rounds to the nearest integer. *)
Definition floorSmall (x : float) : float :=
  let r := ((x + two52) - two52)%float in
  if (x <? r)%float then (r - 1)%float else r.

(** [Math.round]: the nearest integer, a tie going up. *)
Definition Math_round (x : float) : float :=
  if PrimFloat.is_nan x then x
  else if (two52 <=? PrimFloat.abs x)%float then x
  else if (0 <=? x)%float then
    let f := floorSmall x in
    if (f =? x)%float then x
    else if (0.5 <=? x - f)%float then (f + 1)%float else f
  else
    let y := (- x)%float in
    let f := floorSmall y in
    if (f =? y)%float then x
    else if (0.5 <? y - f)%float then (- (f + 1))%float else (- f)%float.

(** [htmlLower.includes(k) || titleLower.includes(k) || urlLower.includes(k)] *)
Definition keywordHit (htmlLower titleLower urlLower keyword : string) : bool :=
  JS.includes htmlLower keyword || JS.includes titleLower keyword
  || JS.includes urlLower keyword.

(** The number of keywords of a list that hit. *)
Definition countHits (htmlLower titleLower urlLower : string) (keywords : list string) : nat :=
  fold_left (fun score keyword =>
               if keywordHit htmlLower titleLower urlLower keyword then S score else score)
            keywords 0.

(** [Math.round((loggedInScore / (loggedInScore + loginScore + 0.1)) * 100)] *)
Definition confidenceOf (loggedInScore loginScore : nat) : float :=
  let totalIndicators := (N2F (loggedInScore + loginScore) + 0x1.999999999999ap-4)%float in
  Math_round ((N2F loggedInScore / totalIndicators) * 100)%float.

Definition performDetectionAnalysis (html title url : string) : Detection :=
  let htmlLower := JS.toLowerCase html in
  let titleLower := JS.toLowerCase title in
  let urlLower := JS.toLowerCase url in
  let loggedInScore := countHits htmlLower titleLower urlLower CONFIG.loggedInKeywords in
  let loginScore := countHits htmlLower titleLower urlLower CONFIG.loginKeywords in
  let hasLogoutButton := JS.includes htmlLower "logout" || JS.includes htmlLower "sign out" in
  let hasWelcomeMessage := JS.includes htmlLower "welcome" || JS.includes htmlLower "hello" in
  let hasPersonalInfo := JS.includes htmlLower "profile" || JS.includes htmlLower "account" in
  let hasAuthenticatedContent :=
    JS.includes htmlLower "dashboard" || JS.includes htmlLower "inbox" in
  let loggedInScore := if hasLogoutButton then loggedInScore + 3 else loggedInScore in
  let loggedInScore := if hasWelcomeMessage then loggedInScore + 2 else loggedInScore in
  let loggedInScore := if hasPersonalInfo then loggedInScore + 2 else loggedInScore in
  let loggedInScore := if hasAuthenticatedContent then loggedInScore + 3 else loggedInScore in
  let confidence := confidenceOf loggedInScore loginScore in
  let isLoggedIn := (60 <=? confidence)%float in
  mkDetection loggedInScore loginScore confidence isLoggedIn
    (if isLoggedIn then "LOGGED_IN" else "NOT_LOGGED_IN")
    (mkIndicators hasLogoutButton hasWelcomeMessage hasPersonalInfo hasAuthenticatedContent).

(** [title.substring(0, 100)]. *)
Definition substring0 (n : nat) (s : string) : string := String.substring 0 n s.

Definition analyzeSession (domain testUrl : string) : M SessionAnalysis :=
  startTime <- Date_now ;;
  sleep CONFIG.analysis_delay ;;;
  tryCatch
    (html <- driver EvContent ;;
     title <- driver EvTitle ;;
     url <- driver EvUrl ;;
     timestamp <- Date_now ;;
     let d := performDetectionAnalysis html title url in
     endTime <- Date_now ;;
     let analysis :=
       mkSessionAnalysis domain testUrl url (substring0 100 title)
         (negb (String.eqb url testUrl)) timestamp d
         (String.length html) (String.length title) (endTime - startTime)%Z in
     modifyHeap (pushAnalysis analysis) ;;;
     ret analysis)
    (fun msg => throw msg).

(** ** EnhancedSessionChecker *)

Fixpoint takeWhile (f : ascii -> bool) (s : string) : string :=
  match s with
  | EmptyString => EmptyString
  | String c s' => if f c then String c (takeWhile f s') else EmptyString
  end.

(** The rest of a match of [:[^\w.-][^\w.-][^\s)]+] at the head of [s],
    after [scheme]. *)
Definition matchAfterScheme (scheme s : string) : option string :=
  match s with
  | String c0 (String a (String b r)) =>
      if Ascii.eqb c0 ":" && negb (JS.isWordDotDash a) && negb (JS.isWordDotDash b) then
        let body := takeWhile (fun c => negb (JS.isWhiteSpace c) && negb (Ascii.eqb c ")")) r in
        if JS.truthy body
        then Some (scheme ++ String c0 (String a (String b body)))%string
        else None
      else None
  | _ => None
  end.

(** A match of [/https?:[^\w.-][^\w.-][^\s)]+/] at the head of [s]. *)
Definition matchUrlHere (s : string) : option string :=
  match s with
  | String h (String t1 (String t2 (String p r))) =>
      if Ascii.eqb h "h" && Ascii.eqb t1 "t" && Ascii.eqb t2 "t" && Ascii.eqb p "p" then
        match r with
        | String c r' =>
            if Ascii.eqb c "s" then
              match matchAfterScheme "https" r' with
              | Some m => Some m
              | None => matchAfterScheme "http" r
              end
            else matchAfterScheme "http" r
        | EmptyString => None
        end
      else None
  | _ => None
  end.

(** [line.match(/https?:[^\w.-][^\w.-][^\s)]+/)]: the leftmost match. *)
Fixpoint matchUrl (s : string) : option string :=
  match matchUrlHere s with
  | Some m => Some m
  | None => match s with
            | EmptyString => None
            | String _ s' => matchUrl s'
            end
  end.

(** The first header line [# - ...http...] that carries a match. *)
Fixpoint headerEndpoint (lines : list string) : option string :=
  match lines with
  | [] => None
  | line :: rest =>
      if JS.startsWith line "# - " && JS.includes line "http" then
        match matchUrl line with
        | Some url => Some url
        | None => headerEndpoint rest
        end
      else headerEndpoint rest
  end.

Definition fallbackUrl (domain : string) : string :=
  let domainLower := JS.toLowerCase domain in
  if JS.includes domainLower "vancity" then "https://banking.vancity.com/"
  else if JS.includes domainLower "americanexpress" then "https://global.americanexpress.com/myca/"
  else if JS.includes domainLower "capitalone" then "https://myaccounts.capitalone.com/"
  else if JS.includes domainLower "td.com" then "https://easyweb.td.com/"
  else if JS.includes domainLower "rbc"
  then "https://www1.royalbank.com/cgi-bin/rbaccess/rbunxcgi?F6=1&F7=IB&F21=IB&F22=1&REQUEST=ClientSignin"
  else if JS.includes domainLower "bmo" then "https://www1.bmo.com/banking/digital/login"
  else if JS.includes domainLower "gmail" || JS.includes domainLower "google"
  then "https://mail.google.com/"
  else if JS.includes domainLower "linkedin" then "https://www.linkedin.com/feed/"
  else if JS.includes domainLower "facebook" then "https://www.facebook.com/"
  else if JS.includes domainLower "amazon" then "https://www.amazon.com/your-account"
  else if JS.includes domainLower "walmart" then "https://www.walmart.ca/account"
  else ("https://" ++ replaceLeadingOther domain ++ "/")%string.

Definition determineTestUrl (cookieFilePath domain : string) : M string :=
  content <- readFileSync cookieFilePath ;;
  let lines := JS.split JS.LF content in
  match headerEndpoint lines with
  | Some url => ret url
  | None => ret (fallbackUrl domain)
  end.

(** [s.replace(/[^[^\w.-][^\w.-]-]/g, "_")]: a character outside
    [[ ^ \w . -], one outside [\w . -], a dash and a closing bracket. *)
Fixpoint safeDomainOf (s : string) : string :=
  match s with
  | EmptyString => EmptyString
  | String c1 t =>
      match t with
      | String c2 (String c3 (String c4 r)) =>
          if negb (JS.isWordDotDash c1) && negb (Ascii.eqb c1 "[") && negb (Ascii.eqb c1 "^")
             && negb (JS.isWordDotDash c2) && Ascii.eqb c3 "-" && Ascii.eqb c4 "]"
          then String "_" (safeDomainOf r)
          else String c1 (safeDomainOf t)
      | _ => String c1 (safeDomainOf t)
      end
  end.

Definition resultDomain (r : TestResult) : string :=
  match r with
  | Tested _ an _ => sa_domain an
  | Errored domain _ _ => domain
  end.

Definition saveVerifiedSession (result : TestResult) (originalCookiePath : string) : M unit :=
  let safeDomain := safeDomainOf (resultDomain result) in
  _ <- readFileSync originalCookiePath ;;
  driver (EvWriteFile ("verified_sessions/" ++ safeDomain ++ ".txt")%string) ;;;
  driver (EvWriteFile ("verified_sessions/" ++ safeDomain ++ "_result.json")%string) ;;;
  ret tt.

Record CookieFile : Type := mkCookieFile {
  cf_file : string;
  cf_path : string
}.

Fixpoint replaceAllChar (a b : ascii) (s : string) : string :=
  match s with
  | EmptyString => EmptyString
  | String c s' => String (if Ascii.eqb c a then b else c) (replaceAllChar a b s')
  end.

(** [s.charCodeAt(i)] for an index inside [s]. *)
Definition charCodeAt (s : string) (i : nat) : ascii :=
  match String.get i s with
  | Some c => c
  | None => Ascii.zero
  end.

(** [s.slice(start, end)] for indices inside [s]. *)
Definition slice (s : string) (start end_ : Z) : string :=
  if (end_ <=? start)%Z then EmptyString
  else String.substring (Z.to_nat start) (Z.to_nat (end_ - start)) s.

(** The loop of [basename] of Node's posix [path] module for a suffix that
    is not longer than the path, from the index [n - 1] down, over its
    variables [matchedSlash], [extIdx], [end] and [firstNonSlashEnd] ([-1]
    for "not set"); the result is [start], [end] and [firstNonSlashEnd] as the
    loop leaves them. *)
Fixpoint basenameSuffixLoop (path suffix : string) (n : nat) (matchedSlash : bool)
    (extIdx end_ firstNonSlashEnd : Z) : Z * Z * Z :=
  match n with
  | 0 => (0%Z, end_, firstNonSlashEnd)
  | S i =>
      let code := charCodeAt path i in
      if Ascii.eqb code "/" then
        if negb matchedSlash then ((Z.of_nat i + 1)%Z, end_, firstNonSlashEnd)
        else basenameSuffixLoop path suffix i matchedSlash extIdx end_ firstNonSlashEnd
      else
        let first := (firstNonSlashEnd =? -1)%Z in
        let matchedSlash := if first then false else matchedSlash in
        let firstNonSlashEnd := if first then (Z.of_nat i + 1)%Z else firstNonSlashEnd in
        if (0 <=? extIdx)%Z then
          if Ascii.eqb code (charCodeAt suffix (Z.to_nat extIdx)) then
            let extIdx := (extIdx - 1)%Z in
            let end_ := if (extIdx =? -1)%Z then Z.of_nat i else end_ in
            basenameSuffixLoop path suffix i matchedSlash extIdx end_ firstNonSlashEnd
          else
            basenameSuffixLoop path suffix i matchedSlash (-1)%Z firstNonSlashEnd
                               firstNonSlashEnd
        else basenameSuffixLoop path suffix i matchedSlash extIdx end_ firstNonSlashEnd
  end.

(** The loop of [basename] without a usable suffix. *)
Fixpoint basenameLoop (path : string) (n : nat) (matchedSlash : bool) (end_ : Z) : Z * Z :=
  match n with
  | 0 => (0%Z, end_)
  | S i =>
      if Ascii.eqb (charCodeAt path i) "/" then
        if negb matchedSlash then ((Z.of_nat i + 1)%Z, end_)
        else basenameLoop path i matchedSlash end_
      else if (end_ =? -1)%Z then basenameLoop path i false (Z.of_nat i + 1)%Z
      else basenameLoop path i matchedSlash end_
  end.

(** [path.basename(path, suffix)] of Node's posix [path] module. *)
Definition basename (path suffix : string) : string :=
  if (0 <? String.length suffix) && (String.length suffix <=? String.length path) then
    if String.eqb suffix path then EmptyString
    else
      let '(start, end_, firstNonSlashEnd) :=
        basenameSuffixLoop path suffix (String.length path) true
                           (Z.of_nat (String.length suffix) - 1)%Z (-1)%Z (-1)%Z in
      let end_ :=
        if (start =? end_)%Z then firstNonSlashEnd
        else if (end_ =? -1)%Z then Z.of_nat (String.length path)
        else end_ in
      slice path start end_
  else
    let '(start, end_) := basenameLoop path (String.length path) true (-1)%Z in
    if (end_ =? -1)%Z then EmptyString else slice path start end_.

(** [path.basename(f, ".txt")]. *)
Definition basenameTxt (f : string) : string := basename f ".txt".

(** [path.basename(cookieFile.file, ".txt").replace(/_/g, ".")]. *)
Definition domainOfFile (cookieFile : CookieFile) : string :=
  replaceAllChar "_" "." (basenameTxt (cf_file cookieFile)).

(** The [try] block of one iteration of the loop of [runAutoTestingMode]. *)
Definition autoTestTry (cookieFile : CookieFile) (domain : string) : M unit :=
  driver EvNewPage ;;;
  injectionResult <- injectCookiesWithT1Timing (cf_path cookieFile) domain ;;
  testUrl <- determineTestUrl (cf_path cookieFile) domain ;;
  driver (EvGoto testUrl) ;;;
  analysisResult <- analyzeSession domain testUrl ;;
  let result := Tested injectionResult analysisResult testUrl in
  modifyHeap (pushResult result) ;;;
  (if isLoggedIn (detection analysisResult)
   then saveVerifiedSession result (cf_path cookieFile) ;;;
        driver (EvScreenshot ("screenshots/" ++ domain ++ "_auto_success.png")%string) ;;;
        ret tt
   else ret tt) ;;;
  driver EvPageClose ;;;
  ret tt.

(** The [catch] clause: the error is recorded and swallowed. *)
Definition autoTestCatch (domain msg : string) : M unit :=
  timestamp <- Date_now ;;
  modifyHeap (pushResult (Errored domain msg timestamp)).

(** One iteration of the loop, with the delay between tests. *)
Definition autoTestOne (cookieFile : CookieFile) : M unit :=
  let domain := domainOfFile cookieFile in
  tryCatch (autoTestTry cookieFile domain) (autoTestCatch domain) ;;;
  sleep 2000.

(** The loop of [runAutoTestingMode] over the prepared cookie files. *)
Definition autoTestLoop (cookieFiles : list CookieFile) : M unit :=
  forEach cookieFiles autoTestOne.

(** [r.detection?.isLoggedIn]. *)
Definition isSuccessful (r : TestResult) : bool :=
  match r with
  | Tested _ an _ => isLoggedIn (detection an)
  | Errored _ _ _ => false
  end.

(** [r.detection && !r.detection.isLoggedIn]. *)
Definition isFailed (r : TestResult) : bool :=
  match r with
  | Tested _ an _ => negb (isLoggedIn (detection an))
  | Errored _ _ _ => false
  end.

(** [r.status === "ERROR"]. *)
Definition isError (r : TestResult) : bool :=
  match r with
  | Tested _ _ _ => false
  | Errored _ _ _ => true
  end.

(** The summary of [saveTestResults]; [successRate] is the number that
    [toFixed(1)] then prints, and that prints as [NaN] when it is not a
    number. *)
Record Summary : Type := mkSummary {
  totalTested : nat;
  successful : nat;
  failed : nat;
  errors : nat;
  successRate : float
}.

Definition summaryOf (results : list TestResult) : Summary :=
  let successful := filter isSuccessful results in
  let failed := filter isFailed results in
  let errors := filter isError results in
  mkSummary (length results) (length successful) (length failed) (length errors)
    ((N2F (length successful) / N2F (length results - length errors)) * 100)%float.

(* ================================================================== *)
(** * Part II. Definitions of the statements                             *)
(* ================================================================== *)

(** The reading of "authenticated endpoint" by path segment: the path of
    the URL is what follows the authority and precedes a query or a
    fragment, and one of its segments, with its slash, is a pattern. *)
Fixpoint afterSchemeMarker (s : string) : string :=
  match s with
  | EmptyString => EmptyString
  | String _ s' =>
      if String.prefix "://" s then String.substring 3 (String.length s) s
      else afterSchemeMarker s'
  end.

Fixpoint fromFirst (stop : ascii -> bool) (s : string) : string :=
  match s with
  | EmptyString => EmptyString
  | String c s' => if stop c then s else fromFirst stop s'
  end.

Definition urlPath (url : string) : string :=
  takeWhile (fun c => negb (Ascii.eqb c "?") && negb (Ascii.eqb c "#"))
            (fromFirst (fun c => Ascii.eqb c "/") (afterSchemeMarker url)).

Definition pathSegments (url : string) : list string :=
  tl (JS.split "/" (urlPath url)).

Definition segmentIsAuthenticated (url : string) : bool :=
  existsb (fun seg => existsb (String.eqb (String "/" seg)) authPatterns)
          (pathSegments url).

(** The normalisation of a domain in words: a leading dot or [www.] is
    stripped, non-printable characters are dropped, the rest is lowercased. *)
Definition stripDotOrWww (s : string) : string :=
  if String.prefix "." s then String.substring 1 (String.length s) s
  else if String.prefix "www." s then String.substring 4 (String.length s) s
  else s.

Fixpoint keepChars (f : ascii -> bool) (s : string) : string :=
  match s with
  | EmptyString => EmptyString
  | String c s' => if f c then String c (keepChars f s') else keepChars f s'
  end.

Definition printable (c : ascii) : bool :=
  (32 <=? nat_of_ascii c) && (nat_of_ascii c <=? 126).

Definition normalizedDomain (s : string) : string :=
  JS.toLowerCase (keepChars printable (stripDotOrWww s)).

(** The confidence in exact arithmetic: [a / (a + b + 1/10) * 100] is
    [1000 a / (10 (a + b) + 1)], and rounding a tie up is the floor of the
    value plus one half. *)
Definition exactConfidence (loggedInScore loginScore : nat) : Z :=
  let a := Z.of_nat loggedInScore in
  let d := (10 * (Z.of_nat loggedInScore + Z.of_nat loginScore) + 1)%Z in
  ((2000 * a + d) / (2 * d))%Z.

(** The sum of the weights of the signals that are present. *)
Definition weightSum (hasC hasH hasP hasA high auth : bool) : Z :=
  ((if hasC then 40 else 0) + (if hasH then 20 else 0) + (if hasP then 25 else 0)
   + (if hasA then 15 else 0) + (if high then 20 else 0) + (if auth then 30 else 0))%Z.

(** A cookie line: seven tab-separated fields, the fifth one being [expiry]. *)
Definition cookieLine (domain httpOnly path secure expiry name value : string) : string :=
  (domain ++ String JS.TAB (httpOnly ++ String JS.TAB (path ++ String JS.TAB
   (secure ++ String JS.TAB (expiry ++ String JS.TAB (name ++ String JS.TAB value))))))%string.

(** A world whose every interaction takes [lagMs] and succeeds with an
    empty answer, with a single file system [fs], at time [t0]. *)
Definition steadyWorld (lagMs : N) (fs : string -> option (string * Z)) (t0 : Z) : World :=
  mkWorld (fun _ => mkStep lagMs None EmptyString) fs t0 0 [] emptyHeap.

Definition oneFile (path content : string) : string -> option (string * Z) :=
  fun p => if String.eqb p path then Some (content, 0%Z) else None.

(** The world after one interaction. *)
Definition ticked (w : World) : World :=
  mkWorld (oracle w) (files w) (now_ms w + Z.of_N (lag (oracle w (ticks w))))
          (S (ticks w)) (trace w) (heap w).

(** The validity rule as a boolean: [expiry == 0 || expiry > now]. *)
Definition acceptedAt (now x : Z) : bool := (x =? 0)%Z || (now <? x)%Z.

(** The groups of a key are never an empty list once the store loop has
    pushed to it, so "the domain is a key of the map" and "a group is present
    for the domain" say the same. *)
Definition groupsPresent {G} (m : JS.Map (list G)) : Prop :=
  forall k l, JS.get m k = Some l -> l <> [].

Definition bonusOf (i : Indicators) : nat :=
  (if hasLogoutButton i then 3 else 0) + (if hasWelcomeMessage i then 2 else 0)
  + (if hasPersonalInfo i then 2 else 0) + (if hasAuthenticatedContent i then 3 else 0).

(** The world after an event was recorded, and after a timer of [ms]. *)
Definition emitted (e : Event) (w : World) : World :=
  mkWorld (oracle w) (files w) (now_ms w) (ticks w) ((now_ms w, e) :: trace w) (heap w).

Definition slept (ms : Z) (w : World) : World :=
  mkWorld (oracle w) (files w) (now_ms w + ms + Z.of_N (lag (oracle w (ticks w))))
          (S (ticks w)) (trace w) (heap w).

Definition withHeap (f : Heap -> Heap) (w : World) : World :=
  mkWorld (oracle w) (files w) (now_ms w) (ticks w) (trace w) (f (heap w)).

(** No navigation among the events. *)
Definition noGoto (new : list (Z * Event)) : Prop :=
  forall t u, ~ In (t, EvGoto u) new.

(** [w'] is [w] after the events [new] (the latest first), the clock not
    having gone back. *)
Definition extends (w w' : World) (new : list (Z * Event)) : Prop :=
  trace w' = new ++ trace w /\ (now_ms w <= now_ms w')%Z.

(** The events recorded from [w] to a later [w'], the latest first. *)
Definition eventsSince (w w' : World) : list (Z * Event) :=
  firstn (length (trace w') - length (trace w)) (trace w').

(** Events of the kind [P] only, none stamped before [since]. *)
Definition only (P : Event -> bool) (since : Z) (new : list (Z * Event)) : Prop :=
  Forall (fun te => P (snd te) = true /\ (since <= fst te)%Z) new.

(** A computation all of whose events are of the kind [P]. *)
Definition emits {A} (P : Event -> bool) (c : M A) : Prop :=
  forall w r w', c w = (r, w') -> exists new, extends w w' new /\ only P (now_ms w) new.

(** No event at all. *)
Definition noEvent (e : Event) : bool := false.

(** What a test cycle does with the page once it has navigated: it reads
    the page, saves the session, takes the screenshot and closes the page. *)
Definition afterNavigation (e : Event) : bool :=
  match e with
  | EvContent | EvTitle | EvUrl | EvWriteFile _ | EvScreenshot _ | EvPageClose => true
  | EvNewPage | EvSetCookie _ | EvInjectionComplete | EvGoto _ => false
  end.

(** The T-1 order of one test cycle, on its events in the order of time:
    the page is opened; if anything follows, it is first the one call of
    [page.setCookie], with one cookie at least and after the preparation
    delay; then the end of the injection, after the injection delay; then the
    one navigation, after the navigation delay; and after the navigation only
    what [afterNavigation] allows. The cycle can stop after any of these. *)
Definition t1Cycle (events : list (Z * Event)) : bool :=
  match events with
  | (t0, EvNewPage) :: rest =>
      match rest with
      | [] => true
      | (ts, EvSetCookie n) :: rest =>
          (1 <=? n) && (t0 + CONFIG.t_minus_1_delay <=? ts)%Z
          && match rest with
             | [] => true
             | (ti, EvInjectionComplete) :: rest =>
                 (ts + CONFIG.injection_delay <=? ti)%Z
                 && match rest with
                    | [] => true
                    | (tn, EvGoto _) :: rest =>
                        (ti + CONFIG.navigation_delay <=? tn)%Z
                        && forallb (fun te => afterNavigation (snd te) && (tn <=? fst te)%Z)
                                   rest
                    | _ => false
                    end
             | _ => false
             end
      | _ => false
      end
  | _ => false
  end.

(** The same of the events as the trace has them, the latest first. *)
Definition T1Cycle (new : list (Z * Event)) : Prop := t1Cycle (rev new) = true.

(** The T-1 ordering of the events of one test cycle (the latest first):
    a navigation is the only one of its cycle, and what came before it is the
    opening of the page, the call of [page.setCookie] with one cookie at
    least, and the end of the injection, whose timestamp is strictly smaller
    than that of the navigation. *)
Definition T1Ordered (new : list (Z * Event)) : Prop :=
  forall later tn u earlier,
    new = later ++ (tn, EvGoto u) :: earlier ->
    noGoto later
    /\ exists t0 ts n ti,
         earlier = [(ti, EvInjectionComplete); (ts, EvSetCookie n); (t0, EvNewPage)]
         /\ 1 <= n /\ (t0 <= ts)%Z /\ (ts <= ti)%Z /\ (ti < tn)%Z.

(** The events of one test cycle whose page was asked for at [t0], the
    latest first, by how far the cycle got: the opening of the page; then the
    call of [page.setCookie]; then the end of the injection; then the
    navigation and what follows it. *)
Definition cycleShape (t0 : Z) (new : list (Z * Event)) : Prop :=
  new = [(t0, EvNewPage)]
  \/ (exists ts n,
        new = [(ts, EvSetCookie n); (t0, EvNewPage)]
        /\ 1 <= n /\ (t0 + CONFIG.t_minus_1_delay <= ts)%Z)
  \/ (exists ts n ti,
        1 <= n /\ (t0 + CONFIG.t_minus_1_delay <= ts)%Z
        /\ (ts + CONFIG.injection_delay <= ti)%Z
        /\ (new = [(ti, EvInjectionComplete); (ts, EvSetCookie n); (t0, EvNewPage)]
            \/ exists tn u later,
                 new = later ++ [(tn, EvGoto u); (ti, EvInjectionComplete);
                                 (ts, EvSetCookie n); (t0, EvNewPage)]
                 /\ (ti + CONFIG.navigation_delay <= tn)%Z
                 /\ only afterNavigation tn later)).

(** What a test cycle does after the navigation. *)
Definition afterGoto (cookieFile : CookieFile) (domain : string)
    (injectionResult : InjectionResult) (testUrl : string) : M unit :=
  analysisResult <- analyzeSession domain testUrl ;;
  let result := Tested injectionResult analysisResult testUrl in
  modifyHeap (pushResult result) ;;;
  (if isLoggedIn (detection analysisResult)
   then saveVerifiedSession result (cf_path cookieFile) ;;;
        driver (EvScreenshot ("screenshots/" ++ domain ++ "_auto_success.png")%string) ;;;
        ret tt
   else ret tt) ;;;
  driver EvPageClose ;;;
  ret tt.

(** The events of the cycles of the testing loop, cycle by cycle in the
    order of the files: those of an iteration are the events recorded from
    the world the iterations before it have left. *)
Fixpoint cyclesOfLoop (cookieFiles : list CookieFile) (w : World)
  : list (list (Z * Event)) :=
  match cookieFiles with
  | [] => []
  | cookieFile :: rest =>
      let w1 := snd (autoTestOne cookieFile w) in
      eventsSince w w1 :: cyclesOfLoop rest w1
  end.

(** ** Definitions of the further statements *)

(** [x] was visited at least as often as [y]. *)
Definition visitsGe (x y : HistoryEntry) : Prop :=
  (he_visitCount y <= he_visitCount x)%Z.

(** The number of lines a per-file map holds, over all its keys. *)
Definition mapTotal {V} (m : JS.Map (list V)) : nat :=
  length (flat_map snd m).

(** A line of seven tab-separated fields at least. *)
Definition sevenFields (line : string) : bool :=
  7 <=? length (JS.split JS.TAB line).

(** A computation that leaves the list of results as it is. *)
Definition resultsKept {A} (c : M A) : Prop :=
  forall w r w', c w = (r, w') -> results (heap w') = results (heap w).

(** ** The file dispatcher of the discovery walk *)

(** [s.endsWith(suffix)]. *)
Definition endsWith (s suffix : string) : bool :=
  let n := String.length s in
  let m := String.length suffix in
  (m <=? n) && String.eqb (String.substring (n - m) m s) suffix.

(** The file counters of [this.stats]. [processFile] writes them outside
    the calls that can throw, so they are passed along explicitly. *)
Record FileCounts : Type := mkFileCounts {
  totalFiles : nat;
  cookieFiles : nat;
  historyFiles : nat;
  passwordFiles : nat;
  autofillFiles : nat
}.

Section ProcessFile.

Variable URL_hostname : string -> option string.
(** [path.basename] and [path.relative] of the runtime. *)
Variable path_basename : string -> string.
Variable path_relative : string -> string -> string.

Definition processFile (counts : FileCounts) (filePath rootDir : string) : M FileCounts :=
  let fileName := JS.toLowerCase (path_basename filePath) in
  let relativePath := path_relative rootDir filePath in
  let counts :=
    mkFileCounts (S (totalFiles counts)) (cookieFiles counts) (historyFiles counts)
                 (passwordFiles counts) (autofillFiles counts) in
  tryCatch
    (if JS.includes fileName "cookies" && endsWith fileName ".txt" then
       processCookieFile filePath relativePath ;;;
       ret (mkFileCounts (totalFiles counts) (S (cookieFiles counts)) (historyFiles counts)
                         (passwordFiles counts) (autofillFiles counts))
     else if JS.includes fileName "history" && endsWith fileName ".txt" then
       processHistoryFile URL_hostname filePath relativePath ;;;
       ret (mkFileCounts (totalFiles counts) (cookieFiles counts) (S (historyFiles counts))
                         (passwordFiles counts) (autofillFiles counts))
     else if JS.includes fileName "password" && endsWith fileName ".txt" then
       processPasswordFile URL_hostname filePath relativePath ;;;
       ret (mkFileCounts (totalFiles counts) (cookieFiles counts) (historyFiles counts)
                         (S (passwordFiles counts)) (autofillFiles counts))
     else if JS.includes fileName "autofill" && endsWith fileName ".txt" then
       processAutofillFile URL_hostname filePath relativePath ;;;
       ret (mkFileCounts (totalFiles counts) (cookieFiles counts) (historyFiles counts)
                         (passwordFiles counts) (S (autofillFiles counts)))
     else ret counts)
    (fun _ => ret counts).

End ProcessFile.

(** The sum of the four counters of the kinds. *)
Definition kindFiles (c : FileCounts) : nat :=
  cookieFiles c + historyFiles c + passwordFiles c + autofillFiles c.

(** The characters of a string. *)
Definition chars (s : string) : list ascii := list_ascii_of_string s.

(** No character of [s] is [c]. *)
Definition without (c : ascii) (s : string) : bool :=
  forallb (fun x => negb (Ascii.eqb x c)) (chars s).

(** ** Saving the prepared cookie files *)

(** [xs.join(sep)]. *)
Fixpoint join (sep : string) (xs : list string) : string :=
  match xs with
  | [] => EmptyString
  | x :: rest =>
      match rest with
      | [] => x
      | _ :: _ => (x ++ sep ++ join sep rest)%string
      end
  end.

Definition nl : string := String JS.LF EmptyString.

(** An integer in a template literal: its decimal digits, which is the
    text JavaScript gives below [10^21] in absolute value. The properties
    proved of the header use of the text only that it holds no line feed. *)
Definition numberToString (z : Z) : string := NilZero.string_of_int (Z.to_int z).

(** A boolean in a template literal. *)
Definition booleanToString (b : bool) : string := if b then "true" else "false".

(** [for (const cookieGroup of domainData.cookies)
       allCookies.push(...cookieGroup.cookies)]. *)
Definition allCookiesOf (domainData : DomainData) : list string :=
  fold_left (fun allCookies cookieGroup => allCookies ++ cg_cookies cookieGroup)
            (dd_cookies domainData) [].

(** One line of [Best Endpoints]. *)
Definition endpointLine (ep : HistoryEntry) : string :=
  ("# - " ++ he_url ep ++ " (visited " ++ numberToString (he_visitCount ep) ++ " times)")%string.

(** The header of a prepared cookie file. *)
Definition preparedHeader (domainData : DomainData) (allCookies : list string)
    (generated : string) : string :=
  let a := analysis domainData in
  ("# Netscape HTTP Cookie File" ++ nl ++
   "# Enhanced Session Checker v3.0 - Prepared Cookie File" ++ nl ++
   "# Domain: " ++ dd_domain domainData ++ nl ++
   "# Cross-Reference Score: " ++ numberToString (crossReferenceScore a) ++ "%" ++ nl ++
   "# Total Cookies: " ++ numberToString (Z.of_nat (length allCookies)) ++ nl ++
   "# History Entries: " ++ numberToString (Z.of_nat (totalHistoryEntries a)) ++ nl ++
   "# Passwords: " ++ numberToString (Z.of_nat (totalPasswords a)) ++ nl ++
   "# Autofills: " ++ numberToString (Z.of_nat (totalAutofills a)) ++ nl ++
   "# High Value Domain: " ++ booleanToString (highValue a) ++ nl ++
   "# Authenticated Endpoints: "
     ++ numberToString (Z.of_nat (length (authenticatedEndpoints a))) ++ nl ++
   "# Generated: " ++ generated ++ nl ++
   "# " ++ nl ++
   "# Best Endpoints:" ++ nl ++
   join nl (map endpointLine (authenticatedEndpoints a)) ++ nl ++
   "#" ++ nl ++
   nl)%string.

(** [header + allCookies.join("\n") + "\n"]. *)
Definition preparedContent (domainData : DomainData) (generated : string) : string :=
  let allCookies := allCookiesOf domainData in
  ((preparedHeader domainData allCookies generated ++ join nl allCookies) ++ nl)%string.

(** [[^\s)]]. *)
Definition urlChar (c : ascii) : bool :=
  negb (JS.isWhiteSpace c) && negb (Ascii.eqb c ")").

(** A line that the filter of [cookieLines] keeps, as one line. *)
Definition dataLine (line : string) : bool :=
  without JS.LF line && JS.truthy (JS.trim line) && negb (JS.startsWith line "#").


(** The first thirteen lines of the header, the same for every list of
    endpoints. *)
Definition headerLines (domainData : DomainData) (generated : string) : list string :=
  let a := analysis domainData in
  ["# Netscape HTTP Cookie File";
   "# Enhanced Session Checker v3.0 - Prepared Cookie File";
   "# Domain: " ++ dd_domain domainData;
   "# Cross-Reference Score: " ++ numberToString (crossReferenceScore a) ++ "%";
   "# Total Cookies: " ++ numberToString (Z.of_nat (length (allCookiesOf domainData)));
   "# History Entries: " ++ numberToString (Z.of_nat (totalHistoryEntries a));
   "# Passwords: " ++ numberToString (Z.of_nat (totalPasswords a));
   "# Autofills: " ++ numberToString (Z.of_nat (totalAutofills a));
   "# High Value Domain: " ++ booleanToString (highValue a);
   "# Authenticated Endpoints: "
     ++ numberToString (Z.of_nat (length (authenticatedEndpoints a)));
   "# Generated: " ++ generated;
   "# ";
   "# Best Endpoints:"]%string.

(** The lines of the text that [join] makes of [xs]: one empty line when
    [xs] is empty. *)
Definition linesOrBlank (xs : list string) : list string :=
  match xs with
  | [] => [EmptyString]
  | _ :: _ => xs
  end.

(** [fs.mkdirSync(dir, { recursive: true })]: a call that leaves the
    program and may throw. *)
Definition mkdirSync (_dir : string) : M unit :=
  s <- tick ;;
  match failure s with
  | Some msg => throw msg
  | None => ret tt
  end.

(** [fs.writeFileSync(path, content)]: when the call returns, the file
    holds [content]; when it throws, the file is as it was. *)
Definition writeFileSync (path content : string) : M unit :=
  driver (EvWriteFile path) ;;;
  fun w => (Ok tt,
            mkWorld (oracle w)
                    (fun p => if String.eqb p path then Some (content, now_ms w)
                              else files w p)
                    (now_ms w) (ticks w) (trace w) (heap w)).

(** [{ domain, score, cookies, endpoints }]. *)
Record SavedDomain : Type := mkSavedDomain {
  sd_domain : string;
  sd_score : Z;
  sd_cookies : nat;
  sd_endpoints : nat
}.

Record Recommendations : Type := mkRecommendations {
  immediateTest : nat;
  worthTesting : nat;
  totalPrepared : nat
}.

(** [analysisReport], less its constant fields [version] and
    [crossReferenceComplete]. *)
Record AnalysisReport : Type := mkAnalysisReport {
  ar_timestamp : string;
  ar_stats : Stats;
  ar_topDomains : list SavedDomain;
  ar_highValueDomains : nat;
  ar_recommendations : Recommendations
}.

(** [xs.sort((a, b) => b.analysis.crossReferenceScore
                       - a.analysis.crossReferenceScore)]: the sort is stable. *)
Fixpoint insertByScore (x : DomainData) (l : list DomainData) : list DomainData :=
  match l with
  | [] => [x]
  | y :: l' =>
      if (crossReferenceScore (analysis x) <? crossReferenceScore (analysis y))%Z
      then y :: insertByScore x l'
      else x :: y :: l'
  end.

Definition sortByScoreDesc (l : list DomainData) : list DomainData :=
  fold_right insertByScore [] l.

(** The names of [CONFIG.outputDirs], each of which is joined to
    [__dirname]. *)
Definition outputDirs : list string :=
  ["prepared_cookies"; "verified_sessions"; "manual_verified"; "analysis";
   "screenshots"]%string.

Section SaveWorkableData.

(** [new Date(t).toISOString()], [JSON.stringify(report, null, 2)] and
    [path.join] of the runtime, and [__dirname]. *)
Variable toISOString : Z -> string.
Variable JSON_stringify : AnalysisReport -> string.
Variable path_join : string -> string -> string.
Variable dirname : string.

(** The local variables of the loop of [saveWorkableData]: [savedCount] and
    [savedDomains]. *)
Definition SavedAcc : Type := (nat * list SavedDomain)%type.

(** The [try] block of the loop of [saveWorkableData]. *)
Definition saveDomainTry (domainData : DomainData) (acc : SavedAcc) : M SavedAcc :=
  let '(savedCount, savedDomains) := acc in
  let allCookies := allCookiesOf domainData in
  if 0 <? length allCookies then
    let safeDomain := safeDomainOf (dd_domain domainData) in
    let cookieFilePath :=
      path_join (path_join dirname "prepared_cookies"%string)
                (safeDomain ++ ".txt")%string in
    t <- Date_now ;;
    let header := preparedHeader domainData allCookies (toISOString t) in
    writeFileSync cookieFilePath ((header ++ join nl allCookies) ++ nl)%string ;;;
    ret (S savedCount,
         savedDomains ++
           [mkSavedDomain (dd_domain domainData)
              (crossReferenceScore (analysis domainData))
              (length allCookies)
              (length (authenticatedEndpoints (analysis domainData)))])
  else ret acc.

Definition saveDomain (domainData : DomainData) (acc : SavedAcc) : M SavedAcc :=
  if hasCookies (analysis domainData) && (0 <? totalCookies (analysis domainData))
  then tryCatch (saveDomainTry domainData acc) (fun _ => ret acc)
  else ret acc.

(** [saveWorkableData]; [crossReferences] is
    [this.discoveredData.crossReferences]. *)
Definition saveWorkableData (crossReferences : JS.Map DomainData) : M (list SavedDomain) :=
  forEach (map (path_join dirname) outputDirs) mkdirSync ;;;
  let sortedDomains := sortByScoreDesc (map snd crossReferences) in
  acc <- forOf sortedDomains saveDomain (0, []) ;;
  let '(savedCount, savedDomains) := acc in
  t <- Date_now ;;
  st <- (fun w => (Ok (stats (heap w)), w)) ;;
  let analysisReport :=
    mkAnalysisReport (toISOString t) st (firstn 20 savedDomains)
      (length (filter (fun d => highValue (analysis d)) sortedDomains))
      (mkRecommendations
         (length (filter (fun d => (80 <=? sd_score d)%Z) savedDomains))
         (length (filter (fun d => (60 <=? sd_score d)%Z) savedDomains))
         savedCount) in
  let analysisPath :=
    path_join (path_join dirname "analysis"%string) "discovery_analysis.json"%string in
  writeFileSync analysisPath (JSON_stringify analysisReport) ;;;
  ret savedDomains.

End SaveWorkableData.

(** The entry of [savedDomains] for a profile. *)
Definition savedOf (domainData : DomainData) : SavedDomain :=
  mkSavedDomain (dd_domain domainData) (crossReferenceScore (analysis domainData))
                (length (allCookiesOf domainData))
                (length (authenticatedEndpoints (analysis domainData))).

(** The profiles that get a prepared file. *)
Definition hasStoredCookies (domainData : DomainData) : bool :=
  hasCookies (analysis domainData) && (0 <? totalCookies (analysis domainData))
  && (0 <? length (allCookiesOf domainData)).

(** The path of the prepared file of a domain, and that of the report. *)
Definition preparedPath (path_join : string -> string -> string) (dirname domain : string)
  : string :=
  path_join (path_join dirname "prepared_cookies"%string)
            (safeDomainOf domain ++ ".txt")%string.

Definition reportPath (path_join : string -> string -> string) (dirname : string) : string :=
  path_join (path_join dirname "analysis"%string) "discovery_analysis.json"%string.

Definition scoreGe (a b : SavedDomain) : Prop := (sd_score b <= sd_score a)%Z.

Definition profileScoreGe (a b : DomainData) : Prop :=
  (crossReferenceScore (analysis b) <= crossReferenceScore (analysis a))%Z.

(** No interaction with the outside fails. *)
Definition neverFails (w : World) : Prop := forall n, failure (oracle w n) = None.


(** The world after a write of [content] to [path] has returned. *)
Definition wrote (path content : string) (w : World) : World :=
  mkWorld (oracle w)
          (fun p => if String.eqb p path then Some (content, now_ms w) else files w p)
          (now_ms w) (ticks w) (trace w) (heap w).

(** ** session_checker_improved.js: the cookie parser *)

Definition CR : ascii := ascii_of_nat 13.

(** A piece less one carriage return at its end. *)
Fixpoint dropLastCR (s : string) : string :=
  match s with
  | EmptyString => EmptyString
  | String c s' =>
      match s' with
      | EmptyString => if Ascii.eqb c CR then EmptyString else s
      | String _ _ => String c (dropLastCR s')
      end
  end.

(** [text.split(/\r?\n/)]: the carriage return before a line feed belongs
    to the separator. *)
Fixpoint stripCRs (pieces : list string) : list string :=
  match pieces with
  | [] => []
  | piece :: rest =>
      match rest with
      | [] => [piece]
      | _ :: _ => dropLastCR piece :: stripCRs rest
      end
  end.

Definition splitLines (text : string) : list string :=
  stripCRs (JS.split JS.LF text).

(** [s.replace(/^\./, "")]. *)
Definition replaceLeadingDot (s : string) : string :=
  match s with
  | String c r => if Ascii.eqb c "." then r else s
  | EmptyString => s
  end.

(** [CONFIG.checkExpiration] of session_checker_improved.js. *)
Definition CONFIG_checkExpiration : bool := true.

(** The local variables of the loop of [parseNetscapeCookies]:
    [domainMap], [validCookies], [expiredCookies]. *)
Definition NetscapeAcc : Type := (JS.Map (list string) * nat * nat)%type.

(** The body of the loop of [parseNetscapeCookies]. *)
Definition netscapeLine (line : string) (acc : NetscapeAcc) : M NetscapeAcc :=
  let '(domainMap, validCookies, expiredCookies) := acc in
  let parts := JS.split JS.TAB line in
  if length parts <? 7 then ret acc
  else
    let domain := replaceLeadingDot (JS.at_ parts 0) in
    if negb (JS.truthy domain) || negb (JS.truthy domain && forallb printable (chars domain))
    then ret acc
    else if (253 <? String.length domain)
            || JS.includes domain (String (ascii_of_nat 0) EmptyString)
            || JS.includes domain (String (ascii_of_nat 0) EmptyString)
    then ret acc
    else
      expired <- (if CONFIG_checkExpiration then isCookieExpired line else ret false) ;;
      if expired
      then ret (domainMap, validCookies, S expiredCookies)
      else ret (JS.push (JS.ensure domainMap domain) domain line,
                S validCookies, expiredCookies).

Definition parseNetscapeCookies (filePath : string) : M (JS.Map (list string)) :=
  text <- readFileSync filePath ;;
  let lines :=
    filter (fun l => JS.truthy (JS.trim l) && negb (JS.startsWith l "#")) (splitLines text) in
  acc <- forOf lines netscapeLine ([], 0, 0) ;;
  let '(domainMap, _, _) := acc in
  ret domainMap.

(** ** session_checker_improved.js: the cookie setter *)

(** [s.slice(1)]. *)
Definition sliceFrom1 (s : string) : string :=
  match s with
  | String _ r => r
  | EmptyString => EmptyString
  end.

(** [s.toUpperCase() === "TRUE"]: each of T, R, U, E is the upper-case form
    of itself and of its lower-case letter only. *)
Definition upperIsTRUE (s : string) : bool :=
  match s with
  | String a (String b (String c (String d EmptyString))) =>
      (Ascii.eqb a "T" || Ascii.eqb a "t") && (Ascii.eqb b "R" || Ascii.eqb b "r")
      && (Ascii.eqb c "U" || Ascii.eqb c "u") && (Ascii.eqb d "E" || Ascii.eqb d "e")
  | _ => false
  end.

(** The body of the first loop of [setCookiesWithTiming]; [cookies] is the
    array it pushes to. *)
Definition prepareCookie (line : string) (cookies : list PuppeteerCookie)
  : M (list PuppeteerCookie) :=
  let parts := JS.split JS.TAB line in
  if length parts <? 7 then ret cookies
  else
    let cookieDomain := JS.at_ parts 0 in
    let pathVal := JS.at_ parts 2 in
    let secureFlag := JS.at_ parts 3 in
    let expiry := JS.at_ parts 4 in
    let name := JS.at_ parts 5 in
    let value := JS.at_ parts 6 in
    if negb (JS.truthy (JS.trim name)) || negb (JS.truthy (JS.trim value)) then ret cookies
    else
      tryCatch
        (let cookieObj :=
           mkPuppeteerCookie (JS.trim name) (JS.trim value)
             (if JS.startsWith cookieDomain "." then sliceFrom1 cookieDomain else cookieDomain)
             (if JS.truthy pathVal then pathVal else "/")
             (match JS.parseInt expiry 0 with
              | JS.Int z => if (z =? 0)%Z then None else Some z
              | JS.NaN => None
              end)
             false (upperIsTRUE secureFlag) in
         _now <- Date_now ;;
         ret (cookies ++ [cookieObj]))
        (fun _ => ret cookies).

Definition batchSize : nat := 15.

(** The second loop of [setCookiesWithTiming], from index [i]: [rest] is
    [cookies.slice(i)]. The loop ends when [rest] is empty; [fuel] bounds the
    number of its iterations. *)
Fixpoint injectBatches (fuel : nat) (rest : list PuppeteerCookie) (validCookiesSet : nat)
  : M nat :=
  match fuel, rest with
  | S fuel', _ :: _ =>
      let batch := firstn batchSize rest in
      let later := skipn batchSize rest in
      validCookiesSet' <-
        tryCatch
          (_injectionStart <- Date_now ;;
           driver (EvSetCookie (length batch)) ;;;
           _injectionEnd <- Date_now ;;
           let validCookiesSet := validCookiesSet + length batch in
           (if 0 <? length later then sleep 100 else ret tt) ;;;
           ret validCookiesSet)
          (fun _ => ret validCookiesSet) ;;
      injectBatches fuel' later validCookiesSet'
  | _, _ => ret validCookiesSet
  end.

(** [setCookiesWithTiming(page, domain, cookiesLines)], without a logger. *)
Definition setCookiesWithTiming (_domain : string) (cookiesLines : list string) : M nat :=
  cookies <- forOf cookiesLines prepareCookie [] ;;
  injectBatches (length cookies) cookies 0.

(** The sizes of the batches in the events [new], the latest first. *)
Definition batchEvents (sizes : list nat) : list Event :=
  rev (map EvSetCookie sizes).

(** ** session_checker_improved.js: one file for a domain *)

(** [{ file, mtime, cookies }]; [mtime] in milliseconds. *)
Record DomainFile : Type := mkDomainFile {
  df_file : string;
  df_mtime : Z;
  df_cookies : list string
}.

(** [files.sort((a, b) => b.mtime - a.mtime)]: the sort is stable. *)
Fixpoint insertByMtime (x : DomainFile) (l : list DomainFile) : list DomainFile :=
  match l with
  | [] => [x]
  | y :: l' =>
      if (df_mtime x <? df_mtime y)%Z
      then y :: insertByMtime x l'
      else x :: y :: l'
  end.

Definition sortByMtimeDesc (l : list DomainFile) : list DomainFile :=
  fold_right insertByMtime [] l.

(** [deduplicateDomains]; [None] is [undefined], the first element of an
    empty array. *)
Definition deduplicateDomains (domainFiles : JS.Map (list DomainFile))
  : JS.Map (option DomainFile) :=
  fold_left (fun deduped entry =>
               let '(domain, files) := entry in
               JS.set deduped domain (hd_error (sortByMtimeDesc files)))
            domainFiles [].

(** ** session_checker_improved.js: the login check and the retry wrapper *)

Definition LOGIN_KEYWORDS : list string :=
  ["sign in"; "log in"; "login"; "password"; "forgot password";
   "enter your password"; "authentication"; "two-factor"; "2fa";
   "create account"; "register"; "signin"; "log out"; "logout";
   "welcome back"; "sign up"; "verify"]%string.

Definition LOGGED_IN_KEYWORDS : list string :=
  ["dashboard"; "profile"; "settings"; "account"; "logout"; "sign out";
   "welcome"; "my account"; "notifications"; "messages"; "feed";
   "timeline"; "inbox"; "compose"; "upload"; "post"]%string.

(** [[a-zA-Z]]. *)
Definition isLetter (c : ascii) : bool :=
  let n := nat_of_ascii c in
  ((65 <=? n) && (n <=? 90)) || ((97 <=? n) && (n <=? 122)).

(** The canonical form of a character under the [i] flag, as far as a
    comparison with an ASCII character goes. *)
Definition upperAscii (c : ascii) : ascii :=
  let n := nat_of_ascii c in
  if (97 <=? n) && (n <=? 122) then ascii_of_nat (n - 32) else c.

(** The rest of [s] after [p], read without regard to case. *)
Fixpoint afterPrefixIgnoringCase (p s : string) : option string :=
  match p with
  | EmptyString => Some s
  | String a p' =>
      match s with
      | String b s' =>
          if Ascii.eqb (upperAscii a) (upperAscii b) then afterPrefixIgnoringCase p' s'
          else None
      | EmptyString => None
      end
  end.

(** A match of [indicator + "\s+[a-zA-Z]{2,}"] with the [i] flag at the
    head of [s]. *)
Definition userContentHere (indicator s : string) : bool :=
  match afterPrefixIgnoringCase indicator s with
  | Some (String c r) =>
      if JS.isWhiteSpace c then
        match JS.trimStart r with
        | String x (String y _) => isLetter x && isLetter y
        | _ => false
        end
      else false
  | _ => false
  end.

(** [regex.test(s)] for a pattern that matches at the head as [f] says. *)
Fixpoint testAnywhere (f : string -> bool) (s : string) : bool :=
  f s || match s with
         | EmptyString => false
         | String _ s' => testAnywhere f s'
         end.

Definition userIndicators : list string := ["welcome"; "hello"; "hi "; "dear"; "@"]%string.

Record LoginIndicators : Type := mkLoginIndicators {
  li_domainSpecific : bool;
  li_loggedInKeywords : bool;
  li_userContent : bool;
  li_noLoginKeywords : bool
}.

(** The result of [checkLoginStatus]; [ls_indicators = None] is [{}]. *)
Record LoginStatus : Type := mkLoginStatus {
  ls_loggedIn : bool;
  ls_confidence : Z;
  ls_indicators : option LoginIndicators
}.

(** The [try] block of [checkLoginStatus] after [page.content()]. *)
Definition loginStatusOf (domain html : string) : LoginStatus :=
  let lower := JS.toLowerCase html in
  let hasLoginKeywords := existsb (fun kw => JS.includes lower kw) LOGIN_KEYWORDS in
  let hasLoggedInKeywords := existsb (fun kw => JS.includes lower kw) LOGGED_IN_KEYWORDS in
  let domainSpecificCheck :=
    if JS.includes domain "google" then
      JS.includes lower "manage your google account" || JS.includes lower "myaccount.google.com"
    else if JS.includes domain "facebook" then
      JS.includes lower "news feed" || JS.includes lower "what's on your mind"
    else if JS.includes domain "linkedin" then
      JS.includes lower "linkedin feed" || JS.includes lower "start a post"
    else if JS.includes domain "twitter" || JS.includes domain "x.com" then
      JS.includes lower "home timeline" || JS.includes lower "what is happening"
    else false in
  let hasUserContent :=
    existsb (fun indicator => testAnywhere (userContentHere indicator) html) userIndicators in
  let confidence := 0%Z in
  let confidence := if domainSpecificCheck then (confidence + 40)%Z else confidence in
  let confidence := if hasLoggedInKeywords then (confidence + 30)%Z else confidence in
  let confidence := if hasUserContent then (confidence + 20)%Z else confidence in
  let confidence := if negb hasLoginKeywords then (confidence + 10)%Z else confidence in
  let isLoggedIn :=
    (20 <=? confidence)%Z || hasLoggedInKeywords || domainSpecificCheck || hasUserContent in
  mkLoginStatus isLoggedIn confidence
    (Some (mkLoginIndicators domainSpecificCheck hasLoggedInKeywords hasUserContent
                             (negb hasLoginKeywords))).

Definition checkLoginStatus (domain : string) : M LoginStatus :=
  tryCatch
    (html <- driver EvContent ;;
     ret (loginStatusOf domain html))
    (fun _ => ret (mkLoginStatus false 0 None)).

(** The loop of [retryOperation] from attempt [i]; [attempts] is the number
    of attempts left, [maxRetries - i + 1]. *)
Fixpoint retryFrom {A} (operation : M A) (maxRetries i attempts : nat) (lastError : string)
  : M A :=
  match attempts with
  | 0 => throw lastError
  | S attempts' =>
      tryCatch operation
        (fun error =>
           (if i <? maxRetries then sleep (1000 * (Z.of_nat i + 1)) else ret tt) ;;;
           retryFrom operation maxRetries (S i) attempts' error)
  end.

(** [retryOperation(operation, maxRetries)]; [lastError] is [undefined]
    until an attempt has failed, which is before it is thrown. *)
Definition retryOperation {A} (operation : M A) (maxRetries : nat) : M A :=
  retryFrom operation maxRetries 0 (S maxRetries) "undefined".

(** What the setter prepares: a name and a value that are not empty, and
    never the [httpOnly] flag. *)
Definition preparedCookie (c : PuppeteerCookie) : Prop :=
  pc_name c <> EmptyString /\ pc_value c <> EmptyString /\ pc_httpOnly c = false.

(** The lines that [parseNetscapeCookies] goes through. *)
Definition netscapeLines (text : string) : list string :=
  filter (fun l => JS.truthy (JS.trim l) && negb (JS.startsWith l "#")) (splitLines text).

(** The key of the older parser for a line. *)
Definition netscapeKey (line : string) : string :=
  replaceLeadingDot (JS.at_ (JS.split JS.TAB line) 0).

(** A key that the older parser accepts. *)
Definition acceptableKey (k : string) : Prop :=
  k <> EmptyString /\ forallb printable (chars k) = true /\ String.length k <= 253.

(** The cookies of the batches that went through, [outcomes] giving the
    size of each batch and whether [page.setCookie] returned for it. *)
Definition cookiesThrough (outcomes : list (nat * bool)) : nat :=
  list_sum (map fst (filter snd outcomes)).

(** The map [after] is [before] with one group more, made by [mk], under
    every key of the per-file map, and nothing else. *)
Definition groupsAdded {G L} (mk : L -> G) (before after : JS.Map (list G))
    (fileMap : JS.Map L) : Prop :=
  forall k, JS.get after k
            = match JS.get fileMap k with
              | Some items => Some (JS.getOrEmpty before k ++ [mk items])
              | None => JS.get before k
              end.

(** The world with another heap. *)
Definition heapSet (h : Heap) (w : World) : World :=
  mkWorld (oracle w) (files w) (now_ms w) (ticks w) (trace w) h.

(** The per-file map that the loop of a URL-bearing kind builds from the
    text of a file. *)
Definition urlFileMap {E} (URL_hostname : string -> option string) (minParts urlAt : nat)
    (mk : list string -> string -> E) (content : string) : JS.Map (list E) :=
  fst (fold_left (fun acc line => processUrlLine URL_hostname minParts urlAt mk line acc)
                 (nonBlankLines content) ([], 0)).

(** What a parser of a URL-bearing kind does with a file that can be read:
    it returns, the map of its kind ([proj]) has one group more under every
    domain of the per-file map and under no other, no domain of the per-file
    map has an empty list, and what an update of that map ([on]) does not
    touch is as before. *)
Definition urlFileEffect {E}
    (on : (JS.Map (list (Group E)) -> JS.Map (list (Group E))) -> Heap -> Heap)
    (proj : Heap -> JS.Map (list (Group E)))
    (fileMap : string -> JS.Map (list E))
    (process : string -> string -> M unit) : Prop :=
  forall (filePath relativePath content : string) (mtime : Z) (w : World),
    files w filePath = Some (content, mtime) ->
    exists w',
      process filePath relativePath w = (Ok tt, w')
      /\ groupsAdded (fun entries => mkGroup relativePath entries mtime)
           (proj (heap w)) (proj (heap w')) (fileMap content)
      /\ (forall k entries, JS.get (fileMap content) k = Some entries -> entries <> [])
      /\ (forall (X : Type) (other : Heap -> X),
             (forall f h, other (on f h) = other h) -> other (heap w') = other (heap w))
      /\ oracle w' = oracle w /\ files w' = files w /\ now_ms w' = now_ms w
      /\ trace w' = trace w.

(** ** The directory walk *)

(** An entry of [fs.readdirSync(dir, { withFileTypes: true })] with what is
    below it: a regular file, a directory with its entries, or an entry that
    is neither. *)
Unset Elimination Schemes.
Inductive DirEntry : Type :=
| RegularFile : string -> DirEntry
| Directory : string -> list DirEntry -> DirEntry
| OtherEntry : string -> DirEntry.
Set Elimination Schemes.

(** Induction on a tree, with the property for all the entries of a
    directory. *)
Fixpoint DirEntry_induction (P : DirEntry -> Prop)
    (Hfile : forall name, P (RegularFile name))
    (Hdir : forall name entries, Forall P entries -> P (Directory name entries))
    (Hother : forall name, P (OtherEntry name))
    (entry : DirEntry) : P entry :=
  match entry with
  | RegularFile name => Hfile name
  | Directory name entries =>
      Hdir name entries
        ((fix all (es : list DirEntry) : Forall P es :=
            match es with
            | [] => Forall_nil P
            | e :: es' =>
                Forall_cons e (DirEntry_induction Hfile Hdir Hother e) (all es')
            end) entries)
  | OtherEntry name => Hother name
  end.

Section WalkDirectory.

Variable URL_hostname : string -> option string.
Variable path_basename : string -> string.
Variable path_relative : string -> string -> string.
Variable path_join : string -> string -> string.

(** The body of the loop of [walkDirectory] for one entry of [currentDir];
    the inner loop is [walkDirectory] on a directory below. *)
Fixpoint walkEntry (rootDir currentDir : string) (entry : DirEntry) (counts : FileCounts)
  : M FileCounts :=
  match entry with
  | Directory name entries =>
      (fix walkEntries (es : list DirEntry) (counts : FileCounts) : M FileCounts :=
         match es with
         | [] => ret counts
         | e :: es' =>
             counts' <- walkEntry rootDir (path_join currentDir name) e counts ;;
             walkEntries es' counts'
         end) entries counts
  | RegularFile name =>
      processFile URL_hostname path_basename path_relative counts
                  (path_join currentDir name) rootDir
  | OtherEntry _ => ret counts
  end.

(** [walkDirectory(currentDir, rootDir)], [entries] being what
    [readdirSync] lists in [currentDir] and below. *)
Definition walkDirectory (currentDir rootDir : string) (entries : list DirEntry)
    (counts : FileCounts) : M FileCounts :=
  forOf entries (walkEntry rootDir currentDir) counts.

End WalkDirectory.

(** The regular files of a tree. *)
Fixpoint regularFiles (entry : DirEntry) : nat :=
  match entry with
  | RegularFile _ => 1
  | Directory _ entries =>
      (fix sum (es : list DirEntry) : nat :=
         match es with
         | [] => 0
         | e :: es' => regularFiles e + sum es'
         end) entries
  | OtherEntry _ => 0
  end.

Definition regularFilesOf (entries : list DirEntry) : nat :=
  list_sum (map regularFiles entries).

(** The step the environment takes at the [k]-th interaction after [w]. *)
Definition stepAt (w : World) (k : nat) : Step := oracle w (k + ticks w).

Section RegularPaths.

Variable path_join : string -> string -> string.

(** The paths of the regular files of a tree whose root is an entry of the
    directory [dir], in the order of a depth-first walk. *)
Fixpoint regularPathsIn (dir : string) (entry : DirEntry) : list string :=
  match entry with
  | RegularFile name => [path_join dir name]
  | Directory name entries =>
      (fix below (es : list DirEntry) : list string :=
         match es with
         | [] => []
         | e :: es' => regularPathsIn (path_join dir name) e ++ below es'
         end) entries
  | OtherEntry _ => []
  end.

Definition regularPaths (dir : string) (entries : list DirEntry) : list string :=
  flat_map (regularPathsIn dir) entries.

End RegularPaths.

(** A line the setter prepares a cookie from: seven fields at least, and a
    name and a value, the sixth and the seventh, that are not blank. *)
Definition preparable (line : string) : bool :=
  let parts := JS.split JS.TAB line in
  (7 <=? length parts)
  && JS.truthy (JS.trim (JS.at_ parts 5)) && JS.truthy (JS.trim (JS.at_ parts 6)).

(** Whether the call made at the interaction [k] returns. *)
Definition returnsAt (oracle : nat -> Step) (k : nat) : bool :=
  match failure (oracle k) with
  | None => true
  | Some _ => false
  end.

(** What becomes of [count] prepared cookies when the next interaction is
    the [tick]-th: the size of each batch and whether its call of
    [page.setCookie] returns, as the environment [oracle] decides. A batch
    takes the clock reading before the call and the call, and when the call
    returned the clock reading after it and, with cookies left, the timer. *)
Fixpoint batchPlan (oracle : nat -> Step) (fuel count tick : nat) : list (nat * bool) :=
  match fuel with
  | 0 => []
  | S fuel' =>
      if count =? 0 then []
      else
        let size := Nat.min batchSize count in
        let later := count - batchSize in
        let ok := returnsAt oracle (1 + tick) in
        let next :=
          if ok then (if 0 <? later then 4 + tick else 3 + tick) else 2 + tick in
        (size, ok) :: batchPlan oracle fuel' later next
  end.

(* ================================================================== *)
(** * Part III. Properties                                              *)
(* ================================================================== *)

Local Open Scope string_scope.
Local Open Scope nat_scope.
Local Open Scope list_scope.

(** ** Strings and maps *)

Lemma prefix_app (p s : string) :
  String.prefix p s = true <-> exists b, s = (p ++ b)%string.
Proof.
  revert s; induction p as [|c p IH]; intros s; simpl.
  - split; [intros _; exists s; reflexivity | intros _; destruct s; reflexivity].
  - destruct s as [|d s]; simpl.
    + split; [discriminate | intros [b Hb]; discriminate].
    + destruct (ascii_dec c d) as [->|Hne].
      * rewrite IH. split; intros [b Hb]; exists b; congruence.
      * split; [discriminate | intros [b Hb]; congruence].
Qed.

Lemma includes_app (s p : string) :
  JS.includes s p = true <-> exists a b, s = (a ++ p ++ b)%string.
Proof.
  induction s as [|c s IH]; cbn [JS.includes].
  - rewrite prefix_app. split.
    + intros [b Hb]. exists EmptyString, b. exact Hb.
    + intros [a [b Hab]]. destruct a; simpl in Hab; [exists b; exact Hab | discriminate].
  - rewrite orb_true_iff, IH, prefix_app. split.
    + intros [[b Hb] | [a [b Hab]]].
      * exists EmptyString, b. exact Hb.
      * exists (String c a), b. simpl. congruence.
    + intros [a [b Hab]]. destruct a as [|c' a]; simpl in Hab.
      * left. exists b. exact Hab.
      * right. exists a, b. congruence.
Qed.

Lemma get_set_same {V} (m : JS.Map V) k v : JS.get (JS.set m k v) k = Some v.
Proof.
  induction m as [|[k' v'] m IH]; simpl.
  - now rewrite String.eqb_refl.
  - destruct (String.eqb k' k) eqn:E; simpl; rewrite E; auto.
Qed.

Lemma get_set_other {V} (m : JS.Map V) k k' v :
  k' <> k -> JS.get (JS.set m k v) k' = JS.get m k'.
Proof.
  intros Hne. induction m as [|[k0 v0] m IH]; simpl.
  - destruct (String.eqb k k') eqn:E; auto.
    apply String.eqb_eq in E. congruence.
  - destruct (String.eqb k0 k) eqn:E; simpl.
    + apply String.eqb_eq in E. subst k0.
      destruct (String.eqb k k') eqn:E'; auto.
      apply String.eqb_eq in E'. congruence.
    + now rewrite IH.
Qed.

Lemma get_ensure_same {V} (m : JS.Map (list V)) k :
  JS.get (JS.ensure m k) k = Some (JS.getOrEmpty m k).
Proof.
  unfold JS.ensure, JS.has, JS.getOrEmpty.
  destruct (JS.get m k) eqn:E; [exact E | apply get_set_same].
Qed.

Lemma get_ensure_other {V} (m : JS.Map (list V)) k k' :
  k' <> k -> JS.get (JS.ensure m k) k' = JS.get m k'.
Proof.
  intros Hne. unfold JS.ensure. destruct (JS.has m k); auto using get_set_other.
Qed.

Lemma get_push_same {V} (m : JS.Map (list V)) k x l :
  JS.get m k = Some l -> JS.get (JS.push m k x) k = Some (l ++ [x]).
Proof. intros E. unfold JS.push. rewrite E. apply get_set_same. Qed.

Lemma get_push_other {V} (m : JS.Map (list V)) k k' x :
  k' <> k -> JS.get (JS.push m k x) k' = JS.get m k'.
Proof.
  intros Hne. unfold JS.push. destruct (JS.get m k); auto using get_set_other.
Qed.

(** ** Running the monad *)

Lemma bind_run {A B} (c : M A) (k : A -> M B) (w : World) (r : Res B) (w' : World) :
  bind c k w = (r, w') ->
  (exists a w1, c w = (Ok a, w1) /\ k a w1 = (r, w'))
  \/ (exists e, c w = (Throw e, w') /\ r = Throw e).
Proof.
  unfold bind. destruct (c w) as [[a|e] w1]; intros H.
  - left. now exists a, w1.
  - right. exists e. injection H as <- <-. auto.
Qed.

Lemma tick_run (w : World) : tick w = (Ok (oracle w (ticks w)), ticked w).
Proof. reflexivity. Qed.

Lemma Date_now_run (w : World) : Date_now w = (Ok (now_ms (ticked w)), ticked w).
Proof. reflexivity. Qed.

Lemma sleep_run (ms : Z) (w : World) : sleep ms w = (Ok tt, slept ms w).
Proof. reflexivity. Qed.

Lemma emit_run (e : Event) (w : World) : emit e w = (Ok tt, emitted e w).
Proof. reflexivity. Qed.

Lemma modifyHeap_run (f : Heap -> Heap) (w : World) : modifyHeap f w = (Ok tt, withHeap f w).
Proof. reflexivity. Qed.

Lemma driver_run (e : Event) (w : World) :
  driver e w =
    (match failure (oracle w (ticks w)) with
     | Some msg => Throw msg
     | None => Ok (payload (oracle w (ticks w)))
     end, ticked (emitted e w)).
Proof.
  unfold driver, bind. rewrite emit_run, tick_run. cbn [emitted oracle ticks].
  destruct (failure (oracle w (ticks w))); reflexivity.
Qed.

Lemma readFileSync_run (path : string) (w : World) :
  readFileSync path w =
    (match files w path with
     | Some (content, _) => Ok content
     | None => Throw ("ENOENT: no such file or directory, open " ++ path)%string
     end, w).
Proof. unfold readFileSync. destruct (files w path) as [[c m]|]; reflexivity. Qed.

(** ** The cookie validity filter *)

Lemma nowSeconds_run (w : World) :
  nowSeconds w = (Ok (now_ms (ticked w) / 1000)%Z, ticked w).
Proof. reflexivity. Qed.

Lemma expiryValid_number (e now : Z) :
  expiryValid (JS.Int e) now = true <-> (e = 0 \/ now < e)%Z.
Proof.
  unfold expiryValid; simpl. rewrite orb_true_iff, Z.ltb_lt, Z.eqb_eq. tauto.
Qed.

Lemma expiryValid_NaN (now : Z) : expiryValid JS.NaN now = false.
Proof. reflexivity. Qed.

(** What the discovery-time loop body does with a line of seven fields or
    more: the clock is read, and the line is filed or counted as expired. *)
Lemma cookieLineTry_run (line : string) (dc : JS.Map (list string)) (v e : nat) (w : World) :
  7 <= length (JS.split JS.TAB line) ->
  let parts := JS.split JS.TAB line in
  let now := (now_ms (ticked w) / 1000)%Z in
  let dc1 := JS.ensure dc (cookieDomain parts) in
  cookieLineTry line (dc, v, e) w =
    (Ok (if expiryValid (JS.parseInt (JS.at_ parts 4) 10) now
         then (JS.push dc1 (cookieDomain parts) line, S v, e)
         else (dc1, v, S e)), ticked w).
Proof.
  intros Hlen parts now dc1. unfold cookieLineTry.
  fold parts. apply Nat.leb_le in Hlen. fold parts in Hlen. rewrite Hlen.
  unfold bind. rewrite nowSeconds_run. fold now. fold dc1.
  destruct (expiryValid _ now); reflexivity.
Qed.

(** The [try] block of the discovery-time loop never throws, whatever the
    line. *)
Lemma cookieLineTry_never_throws (line : string) (acc : CookieAcc) (w : World) :
  exists acc' w', cookieLineTry line acc w = (Ok acc', w').
Proof.
  destruct acc as [[dc v] e].
  destruct (le_lt_dec 7 (length (JS.split JS.TAB line))) as [H|H].
  - rewrite (cookieLineTry_run line dc v e w H). eauto.
  - unfold cookieLineTry. apply Nat.leb_gt in H. rewrite H. unfold ret. eauto.
Qed.

Lemma processCookieLine_is_try (line : string) (acc : CookieAcc) (w : World) :
  processCookieLine line acc w = cookieLineTry line acc w.
Proof.
  unfold processCookieLine, tryCatch.
  destruct (cookieLineTry_never_throws line acc w) as [acc' [w' E]].
  now rewrite E.
Qed.

(** The discovery-time loop over a whole file is total. *)
Lemma cookieLoop_never_throws (lines : list string) (acc : CookieAcc) (w : World) :
  exists acc' w', forOf lines processCookieLine acc w = (Ok acc', w').
Proof.
  revert acc w. induction lines as [|line lines IH]; intros acc w; simpl.
  - unfold ret; eauto.
  - unfold bind. rewrite processCookieLine_is_try.
    destruct (cookieLineTry_never_throws line acc w) as [acc' [w' E]].
    rewrite E. apply IH.
Qed.

Lemma expiryValid_acceptedAt (x now : Z) : expiryValid (JS.Int x) now = acceptedAt now x.
Proof. unfold expiryValid, acceptedAt; simpl. apply orb_comm. Qed.

(** The discovery-time filter of the v3 checker accepts a numeric expiry
    exactly when it is zero or after the clock reading of that line. *)
Lemma discovery_accepts_iff (line : string) dc v e (w : World) (x : Z) :
  7 <= length (JS.split JS.TAB line) ->
  JS.parseInt (JS.at_ (JS.split JS.TAB line) 4) 10 = JS.Int x ->
  let key := cookieDomain (JS.split JS.TAB line) in
  processCookieLine line (dc, v, e) w =
    (Ok (if acceptedAt (now_ms (ticked w) / 1000) x
         then (JS.push (JS.ensure dc key) key line, S v, e)
         else (JS.ensure dc key, v, S e)), ticked w).
Proof.
  intros Hlen Hx key. rewrite processCookieLine_is_try, (cookieLineTry_run line dc v e w Hlen).
  now rewrite Hx, expiryValid_acceptedAt.
Qed.

(** The injection-time filter of the v3 checker accepts a numeric expiry
    exactly when it is zero or after the single [now] of the pass. *)
Lemma injection_accepts_iff (line : string) (now x : Z) (acc : list PuppeteerCookie) :
  7 <= length (JS.split JS.TAB line) ->
  JS.parseInt (JS.at_ (JS.split JS.TAB line) 4) 10 = JS.Int x ->
  exists c, validateLine now line acc = if acceptedAt now x then acc ++ [c] else acc.
Proof.
  intros Hlen Hx. unfold validateLine. apply Nat.leb_le in Hlen. rewrite Hlen, Hx.
  rewrite expiryValid_acceptedAt. eexists.
  destruct (acceptedAt now x); reflexivity.
Qed.

(** [isCookieExpired] on a line of seven fields or more with a numeric
    expiry: not expired when the expiry is zero (the clock is not read), and
    otherwise expired exactly when the expiry is strictly before [now]. *)
Lemma isCookieExpired_number (line : string) (w : World) (x : Z) :
  7 <= length (JS.split JS.TAB line) ->
  JS.parseInt (JS.at_ (JS.split JS.TAB line) 4) 0 = JS.Int x ->
  isCookieExpired line w =
    if (x =? 0)%Z then (Ok false, w)
    else (Ok (x <? now_ms (ticked w) / 1000)%Z, ticked w).
Proof.
  intros Hlen Hx. unfold isCookieExpired.
  assert (H7 : (length (JS.split JS.TAB line) <? 7) = false) by (apply Nat.ltb_ge; exact Hlen).
  rewrite H7, Hx. unfold JS.strictNeq; simpl.
  destruct (x =? 0)%Z; reflexivity.
Qed.

(** The injection-time pass reads the clock once, before its loop, and
    judges every line of the file against that reading. *)
Lemma readAndValidateCookies_single_now (cookiePath domain content : string) (mtime : Z)
    (w : World) :
  files w cookiePath = Some (content, mtime) ->
  readAndValidateCookies cookiePath domain w =
    (Ok (fold_left (fun acc line => validateLine (now_ms (ticked w) / 1000) line acc)
                   (cookieLines content) []),
     ticked w).
Proof.
  intros Hf. unfold readAndValidateCookies, bind, readFileSync. rewrite Hf.
  rewrite nowSeconds_run. reflexivity.
Qed.

(** C4. A cookie whose numeric expiry equals the current second is a
    record the validity rule rejects ([expiry == 0 || expiry > now] is false), and
    both filters of the v3 checker reject it; [isCookieExpired] answers
    "not expired" for it, so the filter built on it accepts the record. *)
Theorem C4_isCookieExpired_accepts_expiry_equal_now :
  let line := cookieLine ".example.com" "TRUE" "/" "FALSE" "1700000000" "sid" "abc" in
  let w := steadyWorld 0 (fun _ => None) 1700000000000 in
  JS.parseInt (JS.at_ (JS.split JS.TAB line) 4) 0 = JS.Int 1700000000
  /\ nowSeconds w = (Ok 1700000000%Z, ticked w)
  /\ acceptedAt 1700000000 1700000000 = false
  /\ isCookieExpired line w = (Ok false, ticked w)
  /\ processCookieLine line ([], 0, 0) w = (Ok ([(".example.com", [])], 0, 1), ticked w)
  /\ validateLine 1700000000 line [] = [].
Proof. vm_compute. repeat split. Qed.

(** C5. One discovery-time pass over a file of two cookie lines with the
    same expiry, second 1000, while the clock goes from second 999 to second
    1000 between the two lines: [processCookieFile] reads the clock once per
    line, so it files the first line as valid and counts the second as
    expired; the injection-time pass over the same file in the same world
    reads the clock once and keeps both. *)
Theorem C5_processCookieFile_reads_clock_per_line :
  let line1 := cookieLine "a.example" "TRUE" "/" "FALSE" "1000" "sid" "abc" in
  let line2 := cookieLine "a.example" "TRUE" "/" "FALSE" "1000" "tok" "def" in
  let content := (line1 ++ String JS.LF line2)%string in
  let w := steadyWorld 600 (oneFile "cookies.txt" content) 999000 in
  cookieLines content = [line1; line2]
  /\ fst (processCookieFile "cookies.txt" "cookies.txt" w) = Ok tt
  /\ stats (heap (snd (processCookieFile "cookies.txt" "cookies.txt" w))) = mkStats 1 1
  /\ cookies (discoveredData (heap (snd (processCookieFile "cookies.txt" "cookies.txt" w))))
     = [("a.example", [mkCookieGroup "cookies.txt" [line1] 0])]
  /\ option_map (@length _)
       (match fst (readAndValidateCookies "cookies.txt" "a.example" w) with
        | Ok l => Some l
        | Throw _ => None
        end) = Some 2.
Proof. vm_compute. repeat split. Qed.

(** C10. A cookie line whose expiry field [parseInt] turns into [NaN]
    makes neither v3 filter throw and is valid for neither: at discovery the
    [try] block itself returns normally, [validCount] stays as it was and the
    line is not filed; at injection the list of cookies is returned
    unchanged. With its seven fields the line is counted as expired; a
    shorter line is skipped before its expiry is looked at. *)
Theorem C10_nan_expiry_is_rejected_without_throwing
    (line : string) (dc : JS.Map (list string)) (v e : nat) (w : World)
    (now : Z) (acc : list PuppeteerCookie) :
  JS.parseInt (JS.at_ (JS.split JS.TAB line) 4) 10 = JS.NaN ->
  let parts := JS.split JS.TAB line in
  let key := cookieDomain parts in
  exists dc' e' w',
    cookieLineTry line (dc, v, e) w = (Ok (dc', v, e'), w')
    /\ processCookieLine line (dc, v, e) w = (Ok (dc', v, e'), w')
    /\ validateLine now line acc = acc
    /\ (7 <= length parts -> dc' = JS.ensure dc key /\ e' = S e /\ w' = ticked w)
    /\ (length parts < 7 -> dc' = dc /\ e' = e /\ w' = w).
Proof.
  intros Hnan parts key.
  destruct (le_lt_dec 7 (length parts)) as [Hlen|Hlen].
  - exists (JS.ensure dc key), (S e), (ticked w).
    assert (Htry : cookieLineTry line (dc, v, e) w
                   = (Ok (JS.ensure dc key, v, S e), ticked w)).
    { rewrite (cookieLineTry_run line dc v e w Hlen), Hnan, expiryValid_NaN. reflexivity. }
    split; [exact Htry|]. split; [rewrite processCookieLine_is_try; exact Htry|].
    split; [|split; [auto | intros H; exfalso; lia]].
    unfold validateLine. fold parts. apply Nat.leb_le in Hlen. rewrite Hlen.
    fold parts in Hnan. rewrite Hnan, expiryValid_NaN. reflexivity.
  - exists dc, e, w.
    assert (Htry : cookieLineTry line (dc, v, e) w = (Ok (dc, v, e), w)).
    { unfold cookieLineTry. fold parts. apply Nat.leb_gt in Hlen. now rewrite Hlen. }
    split; [exact Htry|]. split; [rewrite processCookieLine_is_try; exact Htry|].
    split; [|split; [intros H; exfalso; lia | auto]].
    unfold validateLine. fold parts. apply Nat.leb_gt in Hlen. now rewrite Hlen.
Qed.

Lemma C10_nan_expiry_witness :
  let line := cookieLine ".example.com" "TRUE" "/" "FALSE" "never" "sid" "abc" in
  let w := steadyWorld 0 (fun _ => None) 1700000000000 in
  exists dc' e' w',
    processCookieLine line ([], 0, 0) w = (Ok (dc', 0, e'), w')
    /\ validateLine 1700000000 line [] = []
    /\ dc' = [(".example.com", [])] /\ e' = 1.
Proof.
  destruct (@C10_nan_expiry_is_rejected_without_throwing
              (cookieLine ".example.com" "TRUE" "/" "FALSE" "never" "sid" "abc")
              [] 0 0 (steadyWorld 0 (fun _ => None) 1700000000000) 1700000000 [])
    as [dc' [e' [w' [_ [Hrun [Hval [Hlong _]]]]]]].
  - vm_compute. reflexivity.
  - exists dc', e', w'. split; [exact Hrun|]. split; [exact Hval|].
    destruct Hlong as [Hdc [He _]]; [vm_compute; lia|].
    split; [rewrite Hdc; vm_compute; reflexivity | exact He].
Defined.

(** ** Authenticated endpoints *)

Lemma existsb_includes (s : string) (patterns : list string) :
  existsb (fun pattern => JS.includes s pattern) patterns = true
  <-> exists pattern a b, In pattern patterns /\ s = (a ++ pattern ++ b)%string.
Proof.
  rewrite existsb_exists. split.
  - intros [pattern [Hin Hinc]]. apply includes_app in Hinc.
    destruct Hinc as [a [b Hab]]. now exists pattern, a, b.
  - intros [pattern [a [b [Hin Hab]]]]. exists pattern. split; [exact Hin|].
    apply includes_app. now exists a, b.
Qed.

(** C6, as the code has it. A history URL is classified as an authenticated
    endpoint exactly when its lowercased text contains one of the nineteen
    patterns as a substring, wherever it stands in the URL. *)
Theorem C6_authenticated_iff_pattern_is_substring (url : string) :
  isAuthenticatedUrl url = true
  <-> exists pattern a b,
        In pattern ["/dashboard"; "/profile"; "/account"; "/settings"; "/my-account";
                    "/home"; "/feed"; "/inbox"; "/messages"; "/notifications";
                    "/balance"; "/transactions"; "/statements"; "/portfolio";
                    "/admin"; "/user"; "/member"; "/secure"; "/private"]
        /\ JS.toLowerCase url = (a ++ pattern ++ b)%string.
Proof. unfold isAuthenticatedUrl. apply existsb_includes. Qed.

(** C6, counterexample to the reading by path segment: the only segment of
    [https://example.com/homepage] is [homepage], which is no pattern, and
    the URL is classified as an authenticated endpoint all the same. *)
Lemma C6_homepage_counterexample :
  pathSegments "https://example.com/homepage" = ["homepage"]
  /\ segmentIsAuthenticated "https://example.com/homepage" = false
  /\ isAuthenticatedUrl "https://example.com/homepage" = true.
Proof. vm_compute. repeat split. Qed.

(** Matching is by substring in the other parts of the URL too, and it
    ignores case. *)
Example isAuthenticatedUrl_query_and_case :
  isAuthenticatedUrl "https://example.com/search?next=/admin" = true
  /\ segmentIsAuthenticated "https://example.com/search?next=/admin" = false
  /\ isAuthenticatedUrl "https://example.com/Dashboard" = true
  /\ isAuthenticatedUrl "https://example.com/about" = false.
Proof. vm_compute. repeat split. Qed.

(** ** Domain keys *)

Lemma replaceLeadingOther_suffix (s : string) :
  replaceLeadingOther s = s \/ exists c, s = String c (replaceLeadingOther s).
Proof.
  destruct s as [|c r]; simpl; [now left|].
  destruct (JS.isWordDotDash c); [now left | right; now exists c].
Qed.

(** A first field that starts with a word character, a dot or a dash is
    the key as it is written: no dot is removed, no letter is lowercased. *)
Lemma replaceLeadingOther_keeps (c : ascii) (r : string) :
  JS.isWordDotDash c = true -> replaceLeadingOther (String c r) = String c r.
Proof. intros H. simpl. now rewrite H. Qed.

(** A cookie line is filed under one key, its first field less at most one
    leading character; the lists under all other keys are left as they
    were. *)
Lemma processCookieLine_one_key (line : string) (dc : JS.Map (list string)) (v e : nat)
    (w : World) :
  let parts := JS.split JS.TAB line in
  let key := cookieDomain parts in
  exists dc' v' e' w',
    processCookieLine line (dc, v, e) w = (Ok (dc', v', e'), w')
    /\ (forall k, k <> key -> JS.get dc' k = JS.get dc k)
    /\ (v' = S v -> JS.get dc' key = Some (JS.getOrEmpty dc key ++ [line]))
    /\ (v' = v -> dc' = dc \/ JS.get dc' key = Some (JS.getOrEmpty dc key))
    /\ (JS.at_ parts 0 = key \/ exists c, JS.at_ parts 0 = String c key).
Proof.
  intros parts key.
  assert (Hsuf : JS.at_ parts 0 = key \/ exists c, JS.at_ parts 0 = String c key).
  { destruct (replaceLeadingOther_suffix (JS.at_ parts 0)) as [H|[c H]].
    - left. symmetry. exact H.
    - right. exists c. exact H. }
  rewrite processCookieLine_is_try.
  destruct (le_lt_dec 7 (length parts)) as [Hlen|Hlen].
  + rewrite (cookieLineTry_run line dc v e w Hlen). fold parts. fold key.
    destruct (expiryValid _ _).
    * exists (JS.push (JS.ensure dc key) key line), (S v), e, (ticked w).
      split; [reflexivity|]. split; [|split; [|split]].
      -- intros k Hk. now rewrite get_push_other, get_ensure_other.
      -- intros _. apply get_push_same, get_ensure_same.
      -- intros Hv. exfalso. lia.
      -- exact Hsuf.
    * exists (JS.ensure dc key), v, (S e), (ticked w).
      split; [reflexivity|]. split; [|split; [|split]].
      -- intros k Hk. now rewrite get_ensure_other.
      -- intros Hv. exfalso. lia.
      -- intros _. right. apply get_ensure_same.
      -- exact Hsuf.
  + unfold cookieLineTry. fold parts. apply Nat.leb_gt in Hlen. rewrite Hlen.
    exists dc, v, e, w. split; [reflexivity|]. split; [|split; [|split]].
    * reflexivity.
    * intros Hv. exfalso. lia.
    * intros _. now left.
    * exact Hsuf.
Qed.

(** C7. The keys of one site. The cookie line of [.example.com] is filed by
    [processCookieFile] under the key [.example.com], and the history line
    of [https://www.example.com/account], whose hostname is
    [www.example.com], by [processHistoryFile] under [www.example.com] (the
    password and autofill files take their key the same way): the
    normalised domain of both is [example.com]. The pattern of the cookie
    parser, [/^[^\w.-]/], removes a first character only when it is no word
    character, dot or dash, so never a leading dot; the pattern of the other
    three, [/^www[^\w.-]/], removes [www] and the character after it only
    when that character is no dot, so never [www.]. The older parser,
    [parseNetscapeCookies], files the same cookie line under [example.com].
    Nothing lowercases either: the field [Example.COM] is the key
    [Example.COM]. In the cross-reference the site has then two profiles,
    one with the cookies and no history and one with the history and no
    cookies. *)
Theorem C7_leading_dot_and_www_stay_in_the_key :
  let cookie := cookieLine ".example.com" "TRUE" "/" "FALSE" "0" "sid" "abc" in
  let url := "https://www.example.com/account" in
  let visit := (url ++ String JS.TAB "Account")%string in
  let login := (url ++ String JS.TAB ("alice" ++ String JS.TAB "secret"))%string in
  let field := ("email" ++ String JS.TAB ("alice@example.com" ++ String JS.TAB url))%string in
  let w := steadyWorld 0 (fun _ => None) 0 in
  processCookieLine cookie ([], 0, 0) w = (Ok ([(".example.com", [cookie])], 1, 0), ticked w)
  /\ (forall URL_hostname : string -> option string,
         URL_hostname url = Some "www.example.com" ->
         processUrlLine URL_hostname 1 0 mkHistory visit ([], 0)
         = ([("www.example.com", [mkHistoryEntry url "Account" 1])], 1)
         /\ processUrlLine URL_hostname 3 0 mkPassword login ([], 0)
            = ([("www.example.com", [mkPasswordEntry url "alice" true])], 1)
         /\ processUrlLine URL_hostname 3 2 mkAutofill field ([], 0)
            = ([("www.example.com", [mkAutofillEntry "email" "alice@example.com" url])], 1))
  /\ normalizedDomain ".example.com" = "example.com"
  /\ normalizedDomain "www.example.com" = "example.com"
  /\ (forall s, replaceLeadingOther (String "." s) = String "." s)
  /\ (forall s, replaceLeadingWww ("www." ++ s) = ("www." ++ s)%string)
  /\ netscapeKey cookie = "example.com"
  /\ (let upper := cookieLine "Example.COM" "TRUE" "/" "FALSE" "0" "sid" "abc" in
      processCookieLine upper ([], 0, 0) w = (Ok ([("Example.COM", [upper])], 1, 0), ticked w)
      /\ normalizedDomain "Example.COM" = "example.com")
  /\ (let d := mkDiscovered
                 [(".example.com", [mkCookieGroup "Cookies.txt" [cookie] 0])]
                 [("www.example.com",
                   [mkGroup "History.txt" [mkHistoryEntry url "Account" 1] 0])]
                 [] [] in
      JS.keys (analyzeDiscoveredData d) = [".example.com"; "www.example.com"]
      /\ dd_history (analyzeDomain d ".example.com") = []
      /\ dd_cookies (analyzeDomain d "www.example.com") = []
      /\ JS.get (analyzeDiscoveredData d) "example.com" = None).
Proof.
  cbv zeta. split; [vm_compute; reflexivity|].
  split.
  { intros URL_hostname H. unfold processUrlLine, urlDomain.
    repeat split.
    - match goal with |- context [JS.split JS.TAB ?l] =>
        let r := eval vm_compute in (JS.split JS.TAB l) in
        change (JS.split JS.TAB l) with r end.
      cbn [length Nat.leb JS.at_ nth]. 
      change (JS.startsWith "https://www.example.com/account" "http") with true.
      cbv iota. rewrite H. vm_compute. reflexivity.
    - match goal with |- context [JS.split JS.TAB ?l] =>
        let r := eval vm_compute in (JS.split JS.TAB l) in
        change (JS.split JS.TAB l) with r end.
      cbn [length Nat.leb JS.at_ nth].
      change (JS.startsWith "https://www.example.com/account" "http") with true.
      cbv iota. rewrite H. vm_compute. reflexivity.
    - match goal with |- context [JS.split JS.TAB ?l] =>
        let r := eval vm_compute in (JS.split JS.TAB l) in
        change (JS.split JS.TAB l) with r end.
      cbn [length Nat.leb JS.at_ nth].
      change (JS.startsWith "https://www.example.com/account" "http") with true.
      cbv iota. rewrite H. vm_compute. reflexivity. }
  split; [vm_compute; reflexivity|]. split; [vm_compute; reflexivity|].
  split; [reflexivity|]. split; [reflexivity|].
  split; [vm_compute; reflexivity|].
  split; [split; vm_compute; reflexivity|].
  vm_compute. repeat split; reflexivity.
Qed.

(** The two replacements leave a leading dot and a leading [www.] where
    they are, so one site can have three keys. *)
Example domain_keys_of_one_site :
  replaceLeadingOther ".example.com" = ".example.com"
  /\ replaceLeadingWww "www.example.com" = "www.example.com"
  /\ replaceLeadingWww "example.com" = "example.com"
  /\ replaceLeadingOther "#example.com" = "example.com"
  /\ replaceLeadingWww "www/example.com" = "example.com".
Proof. vm_compute. repeat split. Qed.

(** ** The cross-reference score *)

Lemma get_fold_set {V} (f : string -> V) (l : list string) (m0 : JS.Map V) (k : string) :
  JS.get (fold_left (fun m x => JS.set m x (f x)) l m0) k
  = if existsb (String.eqb k) l then Some (f k) else JS.get m0 k.
Proof.
  revert m0. induction l as [|x l IH]; intros m0; simpl; [reflexivity|].
  rewrite IH. destruct (String.eqb k x) eqn:E; simpl.
  - apply String.eqb_eq in E. subst x.
    destruct (existsb (String.eqb k) l); [reflexivity | apply get_set_same].
  - destruct (existsb (String.eqb k) l); [reflexivity|].
    apply get_set_other. intros ->. now rewrite String.eqb_refl in E.
Qed.

(** The profile stored for a domain is the one the loop body computes for
    that domain. *)
Lemma analyzeDiscoveredData_get (d : DiscoveredData) (domain : string) (p : DomainData) :
  JS.get (analyzeDiscoveredData d) domain = Some p -> p = analyzeDomain d domain.
Proof.
  unfold analyzeDiscoveredData. rewrite get_fold_set.
  destruct (existsb _ _); simpl; congruence.
Qed.

Lemma scoreOf_weightSum (hasC hasH hasP hasA high : bool) (endpoints : nat) :
  scoreOf hasC hasH hasP hasA high endpoints
  = Z.min (weightSum hasC hasH hasP hasA high (0 <? endpoints)) 100.
Proof.
  unfold scoreOf, weightSum.
  destruct hasC, hasH, hasP, hasA, high, (0 <? endpoints); reflexivity.
Qed.

(** C1. The score of every profile of the cross-reference engine is the sum
    of the weights 40, 20, 25, 15, 20 and 30 of the signals present for the
    domain, capped at 100: membership of the domain in the cookie, history,
    password and autofill maps, membership in the watchlist, and at least one
    authenticated endpoint extracted. With all six signals the score is 100. *)
Theorem C1_crossReferenceScore_is_capped_weight_sum
    (d : DiscoveredData) (domain : string) (p : DomainData) :
  JS.get (analyzeDiscoveredData d) domain = Some p ->
  let a := analysis p in
  let auth := 0 <? length (authenticatedEndpoints a) in
  crossReferenceScore a
    = Z.min (weightSum (hasCookies a) (hasHistory a) (hasPasswords a) (hasAutofills a)
                       (highValue a) auth) 100
  /\ hasCookies a = JS.has (cookies d) domain
  /\ hasHistory a = JS.has (history d) domain
  /\ hasPasswords a = JS.has (passwords d) domain
  /\ hasAutofills a = JS.has (autofills d) domain
  /\ highValue a = existsb (String.eqb domain) CONFIG.highValueDomains
  /\ (hasCookies a = true -> hasHistory a = true -> hasPasswords a = true ->
      hasAutofills a = true -> highValue a = true -> auth = true ->
      crossReferenceScore a = Z.min (40 + 20 + 25 + 15 + 20 + 30) 100
      /\ crossReferenceScore a = 100%Z).
Proof.
  intros Hget. apply analyzeDiscoveredData_get in Hget. subst p.
  cbv zeta. unfold analyzeDomain; cbn [analysis crossReferenceScore hasCookies hasHistory
    hasPasswords hasAutofills highValue authenticatedEndpoints].
  rewrite scoreOf_weightSum.
  repeat (split; [reflexivity|]).
  intros -> -> -> -> -> ->. split; reflexivity.
Qed.

(** A profile exists for exactly the domains of the four maps. *)
Lemma newSet_In (l : list string) (k : string) :
  existsb (String.eqb k) (newSet l) = existsb (String.eqb k) l.
Proof.
  unfold newSet.
  assert (G : forall seen, existsb (String.eqb k)
                (fold_left (fun seen x => if existsb (String.eqb x) seen then seen else seen ++ [x]) l seen)
              = existsb (String.eqb k) seen || existsb (String.eqb k) l).
  { induction l as [|x l IH]; intros seen; simpl.
    - now rewrite orb_false_r.
    - rewrite IH. destruct (existsb (String.eqb x) seen) eqn:E.
      + destruct (String.eqb k x) eqn:Ek; simpl; [|reflexivity].
        apply String.eqb_eq in Ek. subst x. now rewrite E.
      + rewrite existsb_app. simpl. rewrite orb_false_r, orb_assoc. reflexivity. }
  apply G.
Qed.

Lemma has_keys {V} (m : JS.Map V) (k : string) :
  JS.has m k = existsb (String.eqb k) (JS.keys m).
Proof.
  unfold JS.has, JS.keys. induction m as [|[k' v] m IH]; simpl; [reflexivity|].
  rewrite String.eqb_sym. destruct (String.eqb k k'); simpl; [reflexivity | exact IH].
Qed.

Lemma profile_exists_iff (d : DiscoveredData) (domain : string) :
  JS.has (analyzeDiscoveredData d) domain
  = JS.has (cookies d) domain || JS.has (history d) domain
    || JS.has (passwords d) domain || JS.has (autofills d) domain.
Proof.
  unfold JS.has at 1. unfold analyzeDiscoveredData. rewrite get_fold_set.
  unfold allDomains. rewrite newSet_In, !existsb_app, <- !has_keys, !orb_assoc.
  destruct (_ || _ || _ || _); reflexivity.
Qed.

Lemma push_ensure_groupsPresent {G} (m : JS.Map (list G)) (k : string) (g : G) :
  groupsPresent m -> groupsPresent (JS.push (JS.ensure m k) k g).
Proof.
  intros Hm k' l Hget. destruct (string_dec k' k) as [->|Hne].
  - rewrite (get_push_same _ _ _ (get_ensure_same m k)) in Hget.
    injection Hget as <-. destruct (JS.getOrEmpty m k); discriminate.
  - rewrite get_push_other, get_ensure_other in Hget by exact Hne.
    exact (Hm k' l Hget).
Qed.

Lemma has_iff_group_present {G} (m : JS.Map (list G)) (k : string) :
  groupsPresent m -> (JS.has m k = true <-> JS.getOrEmpty m k <> []).
Proof.
  intros Hm. unfold JS.has, JS.getOrEmpty. destruct (JS.get m k) as [l|] eqn:E.
  - split; [intros _; exact (Hm k l E) | reflexivity].
  - split; [discriminate | intros H; now contradiction H].
Qed.

(** The store loop of [processCookieFile] keeps the cookie map free of keys
    without a group. *)
Lemma storeGroups_cookies_groupsPresent (relativePath filePath : string)
    (fileMap : JS.Map (list string)) (w w' : World) :
  storeGroups onCookies (mkCookieGroup relativePath) filePath fileMap w = (Ok tt, w') ->
  groupsPresent (cookies (discoveredData (heap w))) ->
  groupsPresent (cookies (discoveredData (heap w'))).
Proof.
  unfold storeGroups. revert w. induction fileMap as [|[domain items] rest IH]; intros w H Hw.
  - injection H as <-. exact Hw.
  - cbn [forEach] in H. unfold bind at 1 in H. unfold bind at 1 in H.
    rewrite modifyHeap_run in H. unfold bind at 1 in H. unfold statSync_mtime at 1 in H.
    cbn [withHeap files] in H.
    destruct (files w filePath) as [[content mtime]|]; [|discriminate].
    rewrite modifyHeap_run in H. apply IH in H; [exact H|].
    cbn [withHeap heap onCookies onDiscovered discoveredData cookies].
    apply push_ensure_groupsPresent. exact Hw.
Qed.

Example score_of_password_only_domain :
  let d := mkDiscovered [] [] [("shop.example", [mkGroup "p.txt"
             [mkPasswordEntry "https://shop.example/login" "alice" true] 0%Z])] [] in
  option_map (fun p => (crossReferenceScore (analysis p), hasCookies (analysis p)))
             (JS.get (analyzeDiscoveredData d) "shop.example") = Some (25%Z, false).
Proof. vm_compute. reflexivity. Qed.

(** A domain whose cookies have all expired still has its group, with no
    cookie in it, and the cookie weight. *)
Example score_of_expired_cookies_only_domain :
  let line := cookieLine "old.example" "TRUE" "/" "FALSE" "1000" "sid" "abc" in
  let w := steadyWorld 0 (oneFile "cookies.txt" line) 1700000000000 in
  let d := discoveredData (heap (snd (processCookieFile "cookies.txt" "cookies.txt" w))) in
  cookies d = [("old.example", [mkCookieGroup "cookies.txt" [] 0%Z])]
  /\ option_map (fun p => (crossReferenceScore (analysis p), totalCookies (analysis p)))
                (JS.get (analyzeDiscoveredData d) "old.example") = Some (40%Z, 0).
Proof. vm_compute. split; reflexivity. Qed.

Lemma C1_all_signals_witness :
  let d := mkDiscovered
      [("paypal.com", [mkCookieGroup "c.txt" ["x"] 0%Z])]
      [("paypal.com", [mkGroup "h.txt"
          [mkHistoryEntry "https://paypal.com/dashboard" "Home" 7%Z] 0%Z])]
      [("paypal.com", [mkGroup "p.txt" [mkPasswordEntry "https://paypal.com/" "u" true] 0%Z])]
      [("paypal.com", [mkGroup "a.txt" [mkAutofillEntry "email" "u@x" "https://paypal.com/"] 0%Z])] in
  exists p, JS.get (analyzeDiscoveredData d) "paypal.com" = Some p
            /\ crossReferenceScore (analysis p) = 100%Z.
Proof.
  intros d.
  assert (Hget : JS.get (analyzeDiscoveredData d) "paypal.com"
                 = Some (analyzeDomain d "paypal.com")) by (vm_compute; reflexivity).
  exists (analyzeDomain d "paypal.com"). split; [exact Hget|].
  destruct (C1_crossReferenceScore_is_capped_weight_sum d "paypal.com" Hget)
    as [_ [_ [_ [_ [_ [_ Hall]]]]]].
  apply Hall; vm_compute; reflexivity.
Defined.

(** ** The session classifier *)

Lemma countHits_filter (h t u : string) (keywords : list string) :
  countHits h t u keywords = length (filter (keywordHit h t u) keywords).
Proof.
  unfold countHits.
  assert (G : forall n,
             fold_left (fun score keyword => if keywordHit h t u keyword then S score else score)
                       keywords n
             = n + length (filter (keywordHit h t u) keywords)).
  { induction keywords as [|k ks IH]; intros n; simpl; [lia|].
    rewrite IH. destruct (keywordHit h t u k); simpl; lia. }
  apply G.
Qed.

Lemma countHits_le (h t u : string) (keywords : list string) :
  countHits h t u keywords <= length keywords.
Proof. rewrite countHits_filter. apply filter_length_le. Qed.

Lemma countHits_zero (h t u : string) (keywords : list string) (k : string) :
  countHits h t u keywords = 0 -> In k keywords -> JS.includes h k = false.
Proof.
  rewrite countHits_filter. intros Hz Hin.
  destruct (keywordHit h t u k) eqn:E.
  - assert (Hk : In k (filter (keywordHit h t u) keywords)) by (apply filter_In; auto).
    destruct (filter (keywordHit h t u) keywords); [contradiction | discriminate].
  - unfold keywordHit in E. apply orb_false_iff in E. destruct E as [E _].
    apply orb_false_iff in E. tauto.
Qed.

(** On every pair of scores the classifier can reach, the binary64
    computation of the confidence agrees with exact arithmetic. *)
Lemma confidenceOf_exact (a b : nat) :
  a <= 31 -> b <= 13 -> confidenceOf a b = Z2F (exactConfidence a b).
Proof.
  intros Ha Hb.
  do 32 (destruct a as [|a];
         [do 14 (destruct b as [|b]; [vm_compute; reflexivity|]); exfalso; lia|]).
  exfalso; lia.
Qed.

Lemma exactConfidence_range (a b : nat) : (0 <= exactConfidence a b <= 100)%Z.
Proof.
  unfold exactConfidence. cbv zeta. split.
  - apply Z.div_pos; lia.
  - apply Z.lt_succ_r. change (Z.succ 100) with 101%Z.
    apply Z.div_lt_upper_bound; lia.
Qed.

Lemma exactConfidence_zero (b : nat) : exactConfidence 0 b = 0%Z.
Proof.
  unfold exactConfidence. apply Z.div_small. lia.
Qed.

(** The threshold test on an integer confidence between 0 and 100. *)
Lemma threshold_exact (z : Z) :
  (0 <= z <= 100)%Z -> (60 <=? Z2F z)%float = (60 <=? z)%Z.
Proof.
  intros [H0 H100].
  assert (Hn : z = Z.of_nat (Z.to_nat z)) by lia.
  assert (Hle : Z.to_nat z <= 100) by lia.
  rewrite Hn. generalize dependent (Z.to_nat z). intros n _ Hle.
  do 101 (destruct n as [|n]; [vm_compute; reflexivity|]).
  exfalso; lia.
Qed.

Lemma detection_scores (html title url : string) :
  let d := performDetectionAnalysis html title url in
  let h := JS.toLowerCase html in
  let t := JS.toLowerCase title in
  let u := JS.toLowerCase url in
  loggedInScore d = countHits h t u CONFIG.loggedInKeywords + bonusOf (indicators d)
  /\ loginScore d = countHits h t u CONFIG.loginKeywords
  /\ indicators d = mkIndicators (JS.includes h "logout" || JS.includes h "sign out")
                                 (JS.includes h "welcome" || JS.includes h "hello")
                                 (JS.includes h "profile" || JS.includes h "account")
                                 (JS.includes h "dashboard" || JS.includes h "inbox")
  /\ confidence d = confidenceOf (loggedInScore d) (loginScore d)
  /\ isLoggedIn d = (60 <=? confidence d)%float
  /\ status d = if isLoggedIn d then "LOGGED_IN" else "NOT_LOGGED_IN".
Proof.
  cbv zeta. unfold performDetectionAnalysis, bonusOf.
  cbn [loggedInScore loginScore indicators confidence isLoggedIn status
       hasLogoutButton hasWelcomeMessage hasPersonalInfo hasAuthenticatedContent].
  repeat split.
  destruct (_ || _), (_ || _), (_ || _), (_ || _); lia.
Qed.

Lemma detection_bounds (html title url : string) :
  let d := performDetectionAnalysis html title url in
  loggedInScore d <= 31 /\ loginScore d <= 13.
Proof.
  destruct (detection_scores html title url) as [Hin [Hout _]]. cbv zeta in *.
  rewrite Hin, Hout. split.
  - pose proof (countHits_le (JS.toLowerCase html) (JS.toLowerCase title)
                  (JS.toLowerCase url) CONFIG.loggedInKeywords) as H.
    simpl length in H. unfold bonusOf.
    destruct (hasLogoutButton _), (hasWelcomeMessage _), (hasPersonalInfo _),
      (hasAuthenticatedContent _); lia.
  - apply (countHits_le _ _ _ CONFIG.loginKeywords).
Qed.

Lemma percent_in_range (z : Z) :
  (0 <= z <= 100)%Z -> (0 <=? Z2F z)%float = true /\ (Z2F z <=? 100)%float = true.
Proof.
  intros [H0 H100].
  assert (Hn : z = Z.of_nat (Z.to_nat z)) by lia.
  assert (Hle : Z.to_nat z <= 100) by lia.
  rewrite Hn. generalize dependent (Z.to_nat z). intros n _ Hle.
  do 101 (destruct n as [|n]; [vm_compute; split; reflexivity|]).
  exfalso; lia.
Qed.

(** C3, as the code has it. For every markup, title and URL the confidence
    is the ratio [loggedInScore / (loggedInScore + loginScore + 0.1) * 100]
    rounded to the nearest integer, with the scores made of keyword hits and
    the four bonuses 3, 2, 2 and 3; it lies between 0 and 100; and when no
    logged-in keyword hits and the markup has no [hello] in it, the confidence
    is exactly 0 and the verdict is [NOT_LOGGED_IN]. *)
Theorem C3_confidence_is_rounded_ratio (html title url : string) :
  let d := performDetectionAnalysis html title url in
  let h := JS.toLowerCase html in
  let t := JS.toLowerCase title in
  let u := JS.toLowerCase url in
  let exact := exactConfidence (loggedInScore d) (loginScore d) in
  loggedInScore d = countHits h t u CONFIG.loggedInKeywords + bonusOf (indicators d)
  /\ loginScore d = countHits h t u CONFIG.loginKeywords
  /\ indicators d = mkIndicators (JS.includes h "logout" || JS.includes h "sign out")
                                 (JS.includes h "welcome" || JS.includes h "hello")
                                 (JS.includes h "profile" || JS.includes h "account")
                                 (JS.includes h "dashboard" || JS.includes h "inbox")
  /\ confidence d = Z2F exact
  /\ (0 <= exact <= 100)%Z
  /\ (0 <=? confidence d)%float = true
  /\ (confidence d <=? 100)%float = true
  /\ status d = (if (60 <=? exact)%Z then "LOGGED_IN" else "NOT_LOGGED_IN")
  /\ (countHits h t u CONFIG.loggedInKeywords = 0 -> JS.includes h "hello" = false ->
      confidence d = 0%float /\ status d = "NOT_LOGGED_IN").
Proof.
  intros d h t u exact.
  destruct (detection_scores html title url) as [Hin [Hout [Hind [Hconf [Hlog Hstat]]]]].
  destruct (detection_bounds html title url) as [Ba Bb].
  fold d in Hin, Hout, Hind, Hconf, Hlog, Hstat, Ba, Bb. fold h t u in Hin, Hout, Hind.
  pose proof (exactConfidence_range (loggedInScore d) (loginScore d)) as Hrange.
  fold exact in Hrange.
  assert (Hexact : confidence d = Z2F exact).
  { rewrite Hconf. apply confidenceOf_exact; assumption. }
  assert (Hstatus : status d = if (60 <=? exact)%Z then "LOGGED_IN" else "NOT_LOGGED_IN").
  { rewrite Hstat, Hlog, Hexact, (threshold_exact Hrange). reflexivity. }
  destruct (percent_in_range Hrange) as [Hlo Hhi].
  split; [exact Hin|]. split; [exact Hout|]. split; [exact Hind|].
  split; [exact Hexact|]. split; [exact Hrange|].
  split; [rewrite Hexact; exact Hlo|]. split; [rewrite Hexact; exact Hhi|].
  split; [exact Hstatus|].
  intros Hzero Hhello.
  assert (Hno : forall k, In k CONFIG.loggedInKeywords -> JS.includes h k = false).
  { intros k Hk. exact (countHits_zero _ _ _ _ k Hzero Hk). }
  assert (Hscore : loggedInScore d = 0).
  { rewrite Hin, Hzero, Hind. unfold bonusOf.
    cbn [hasLogoutButton hasWelcomeMessage hasPersonalInfo hasAuthenticatedContent].
    rewrite Hhello.
    rewrite (Hno "logout"), (Hno "sign out"), (Hno "welcome"), (Hno "profile"),
      (Hno "account"), (Hno "dashboard"), (Hno "inbox");
      [reflexivity | simpl; tauto ..]. }
  assert (Hex0 : exact = 0%Z).
  { unfold exact. rewrite Hscore. apply exactConfidence_zero. }
  split.
  - rewrite Hexact, Hex0. reflexivity.
  - rewrite Hstatus, Hex0. reflexivity.
Qed.

Lemma C3_no_keyword_witness :
  let d := performDetectionAnalysis "<html><body>Nothing to see</body></html>"
                                    "Untitled" "https://example.org/" in
  confidence d = 0%float /\ status d = "NOT_LOGGED_IN".
Proof.
  apply (C3_confidence_is_rounded_ratio "<html><body>Nothing to see</body></html>"
           "Untitled" "https://example.org/"); vm_compute; reflexivity.
Defined.

(** C3, counterexample to the zero-confidence case: in the markup [hello] no keyword of
    either set hits, and the greeting bonus alone gives confidence 95 and the
    verdict [LOGGED_IN]. *)
Lemma C3_hello_counterexample :
  let d := performDetectionAnalysis "hello" "" "" in
  countHits "hello" "" "" CONFIG.loggedInKeywords = 0
  /\ countHits "hello" "" "" CONFIG.loginKeywords = 0
  /\ loggedInScore d = 2
  /\ confidence d = 95%float
  /\ status d = "LOGGED_IN".
Proof. vm_compute. repeat split. Qed.

Example detection_logout_dashboard :
  let d := performDetectionAnalysis "<a href=x>Logout</a> <h1>Dashboard</h1>" "" "" in
  loggedInScore d = 8 /\ loginScore d = 0 /\ confidence d = 99%float
  /\ status d = "LOGGED_IN".
Proof. vm_compute. repeat split. Qed.

(** ** The result aggregator *)

Lemma summary_of_errors_only (results : list TestResult) :
  forallb isError results = true ->
  length (filter isSuccessful results) = 0
  /\ length results - length (filter isError results) = 0.
Proof.
  induction results as [|r rs IH]; simpl; [auto|].
  intros H. apply andb_true_iff in H. destruct H as [Hr Hrs].
  destruct r; simpl in *; [discriminate|].
  destruct (IH Hrs) as [H1 H2]. split; [exact H1 | lia].
Qed.

(** When no test completed (the list is empty or every entry is an error)
    the rate is [0 / 0 * 100], which is not a number. *)
Lemma successRate_of_errors_only (results : list TestResult) :
  forallb isError results = true ->
  PrimFloat.is_nan (successRate (summaryOf results)) = true.
Proof.
  intros H. destruct (summary_of_errors_only results H) as [H1 H2].
  unfold summaryOf; cbn [successRate]. rewrite H1, H2. vm_compute. reflexivity.
Qed.

(** C9. When every test of a run errored, the denominator
    [total - errored] is 0 and the success rate the code computes is
    [0 / 0 * 100], that is [NaN], not 0: so it is for the results of a run
    over one prepared file that holds no valid cookie, and so it would be for
    an empty list of results. *)
Theorem C9_successRate_is_NaN_on_zero_denominator :
  let path := "prepared_cookies/example_com.txt" in
  let w := steadyWorld 5 (oneFile path "# Netscape HTTP Cookie File") 0 in
  let errorsOnly := results (heap (snd (autoTestLoop [mkCookieFile "example_com.txt" path] w))) in
  errorsOnly = [Errored "example.com" "No valid cookies found for example.com" 2025%Z]
  /\ totalTested (summaryOf errorsOnly) - errors (summaryOf errorsOnly) = 0
  /\ PrimFloat.is_nan (successRate (summaryOf errorsOnly)) = true
  /\ (successRate (summaryOf errorsOnly) =? 0)%float = false
  /\ PrimFloat.is_nan (successRate (summaryOf [])) = true.
Proof. vm_compute. repeat split. Qed.

(** With a completed test the rate is the share of successful tests among
    the completed ones, as a percentage. *)
Lemma successRate_ratio (results : list TestResult) :
  successRate (summaryOf results)
  = ((N2F (successful (summaryOf results))
      / N2F (totalTested (summaryOf results) - errors (summaryOf results))) * 100)%float.
Proof. reflexivity. Qed.

(** ** Computations and their events *)

Lemma extends_refl (w : World) : extends w w [].
Proof. split; [reflexivity | lia]. Qed.

Lemma extends_trans (w w1 w2 : World) (n1 n2 : list (Z * Event)) :
  extends w w1 n1 -> extends w1 w2 n2 -> extends w w2 (n2 ++ n1).
Proof.
  intros [T1 C1] [T2 C2]. split; [|lia].
  rewrite T2, T1. apply app_assoc.
Qed.

Lemma eventsSince_extends (w w' : World) (new : list (Z * Event)) :
  trace w' = new ++ trace w -> eventsSince w w' = new.
Proof.
  intros E. unfold eventsSince. rewrite E, length_app, Nat.add_sub.
  rewrite firstn_app, Nat.sub_diag, firstn_all. cbn. apply app_nil_r.
Qed.

Lemma only_nil (P : Event -> bool) (since : Z) : only P since [].
Proof. constructor. Qed.

Lemma only_app (P : Event -> bool) (since : Z) (a b : list (Z * Event)) :
  only P since a -> only P since b -> only P since (a ++ b).
Proof. intros Ha Hb. apply Forall_app. now split. Qed.

Lemma only_earlier (P : Event -> bool) (since since' : Z) (l : list (Z * Event)) :
  (since' <= since)%Z -> only P since l -> only P since' l.
Proof.
  intros Hle H. unfold only in *. eapply Forall_impl; [|exact H].
  intros [t e] [HP Ht]. cbn in *. split; [exact HP | lia].
Qed.

Lemma only_noEvent (since : Z) (l : list (Z * Event)) : only noEvent since l -> l = [].
Proof. intros H. destruct l as [|x l]; [reflexivity|]. inversion H as [|? ? [Hx _] _]. discriminate. Qed.

Lemma emits_ret {A} (P : Event -> bool) (a : A) : emits P (ret a).
Proof.
  intros w r w' H. injection H as <- <-. exists []. split; [apply extends_refl | apply only_nil].
Qed.

Lemma emits_throw {A} (P : Event -> bool) (msg : string) : emits P (@throw A msg).
Proof.
  intros w r w' H. injection H as <- <-. exists []. split; [apply extends_refl | apply only_nil].
Qed.

Lemma emits_bind {A B} (P : Event -> bool) (c : M A) (k : A -> M B) :
  emits P c -> (forall a, emits P (k a)) -> emits P (bind c k).
Proof.
  intros Hc Hk w r w' H. apply bind_run in H. destruct H as [[a [w1 [H1 H2]]] | [e [H1 _]]].
  - destruct (Hc _ _ _ H1) as [n1 [E1 G1]]. destruct (Hk a _ _ _ H2) as [n2 [E2 G2]].
    exists (n2 ++ n1). split; [eapply extends_trans; eauto|].
    apply only_app; [|exact G1]. apply (only_earlier (since := now_ms w1)); [apply E1 | exact G2].
  - exact (Hc _ _ _ H1).
Qed.

Lemma emits_tryCatch {A} (P : Event -> bool) (c : M A) (h : string -> M A) :
  emits P c -> (forall e, emits P (h e)) -> emits P (tryCatch c h).
Proof.
  intros Hc Hh w r w' H. unfold tryCatch in H.
  destruct (c w) as [[a|e] w1] eqn:E.
  - injection H as <- <-. exact (Hc _ _ _ E).
  - destruct (Hc _ _ _ E) as [n1 [E1 G1]]. destruct (Hh e _ _ _ H) as [n2 [E2 G2]].
    exists (n2 ++ n1). split; [eapply extends_trans; eauto|].
    apply only_app; [|exact G1]. apply (only_earlier (since := now_ms w1)); [apply E1 | exact G2].
Qed.

Lemma emits_world {A} (P : Event -> bool) (c : M A) :
  (forall w, trace (snd (c w)) = trace w /\ (now_ms w <= now_ms (snd (c w)))%Z) -> emits P c.
Proof.
  intros Hc w r w' H. destruct (Hc w) as [T C]. rewrite H in T, C. simpl in T, C.
  exists []. split; [split; assumption | apply only_nil].
Qed.

Lemma emits_tick (P : Event -> bool) : emits P tick.
Proof. apply emits_world. intros w. simpl. split; [reflexivity | lia]. Qed.

Lemma emits_Date_now (P : Event -> bool) : emits P Date_now.
Proof. apply emits_world. intros w. simpl. split; [reflexivity | lia]. Qed.

Lemma emits_nowSeconds (P : Event -> bool) : emits P nowSeconds.
Proof. apply emits_world. intros w. simpl. split; [reflexivity | lia]. Qed.

Lemma emits_sleep (P : Event -> bool) (ms : Z) : (0 <= ms)%Z -> emits P (sleep ms).
Proof. intros H. apply emits_world. intros w. simpl. split; [reflexivity | lia]. Qed.

Lemma emits_modifyHeap (P : Event -> bool) (f : Heap -> Heap) : emits P (modifyHeap f).
Proof. apply emits_world. intros w. simpl. split; [reflexivity | lia]. Qed.

Lemma emits_readFileSync (P : Event -> bool) (path : string) : emits P (readFileSync path).
Proof.
  apply emits_world. intros w. rewrite readFileSync_run. simpl. split; [reflexivity | lia].
Qed.

Lemma emits_emit (P : Event -> bool) (e : Event) : P e = true -> emits P (emit e).
Proof.
  intros He w r w' H. rewrite emit_run in H. injection H as <- <-.
  exists [(now_ms w, e)]. split.
  - split; [reflexivity | simpl; lia].
  - constructor; [|constructor]. cbn. split; [exact He | lia].
Qed.

Lemma emits_driver (P : Event -> bool) (e : Event) : P e = true -> emits P (driver e).
Proof.
  intros He. unfold driver. apply emits_bind; [now apply emits_emit|]. intros _.
  apply emits_bind; [apply emits_tick|]. intros s.
  destruct (failure s); [apply emits_throw | apply emits_ret].
Qed.

Ltac emits_step :=
  first
    [ apply emits_ret | apply emits_throw | apply emits_tick | apply emits_Date_now
    | apply emits_nowSeconds | apply emits_modifyHeap | apply emits_readFileSync
    | apply emits_sleep; vm_compute; discriminate
    | apply emits_emit; reflexivity
    | apply emits_driver; reflexivity
    | apply emits_bind; [|intros ?]
    | apply emits_tryCatch; [|intros ?] ].

Ltac emits_auto := repeat emits_step.

(** A computation without events leaves the trace as it is. *)
Lemma emits_nothing {A} (c : M A) (w : World) :
  emits noEvent c ->
  trace (snd (c w)) = trace w /\ (now_ms w <= now_ms (snd (c w)))%Z.
Proof.
  intros Hc. destruct (c w) as [r w'] eqn:E. destruct (Hc _ _ _ E) as [new [[T C] G]].
  apply only_noEvent in G. subst new. cbn. split; assumption.
Qed.

Lemma readAndValidateCookies_no_event (cookiePath domain : string) :
  emits noEvent (readAndValidateCookies cookiePath domain).
Proof. unfold readAndValidateCookies. emits_auto. Qed.

Lemma determineTestUrl_no_event (cookieFilePath domain : string) :
  emits noEvent (determineTestUrl cookieFilePath domain).
Proof.
  unfold determineTestUrl. emits_auto.
  destruct (headerEndpoint _); emits_auto.
Qed.

Lemma autoTestCatch_no_event (domain msg : string) : emits noEvent (autoTestCatch domain msg).
Proof. unfold autoTestCatch. emits_auto. Qed.

Lemma afterGoto_events (cookieFile : CookieFile) (domain : string)
    (injectionResult : InjectionResult) (testUrl : string) :
  emits afterNavigation (afterGoto cookieFile domain injectionResult testUrl).
Proof.
  unfold afterGoto. apply emits_bind; [unfold analyzeSession; emits_auto|].
  intros analysisResult. apply emits_bind; [emits_auto|]. intros _.
  apply emits_bind.
  - destruct (isLoggedIn (detection analysisResult)); [|emits_auto].
    unfold saveVerifiedSession. emits_auto.
  - intros _. emits_auto.
Qed.

(** ** The T-1 ordering *)

(** The events of the injection: none when it throws before the call of
    [page.setCookie], the call alone when the call throws, and the call
    followed by the end of the injection when it returns, with the delays in
    between and the navigation delay served before it returns. *)
Lemma injectCookiesWithT1Timing_events (cookiePath domain : string) (w : World) :
  match injectCookiesWithT1Timing cookiePath domain w with
  | (Ok injectionResult, w') =>
      exists ts ti,
        trace w' = (ti, EvInjectionComplete)
                   :: (ts, EvSetCookie (ir_cookieCount injectionResult)) :: trace w
        /\ 1 <= ir_cookieCount injectionResult
        /\ (now_ms w + CONFIG.t_minus_1_delay <= ts)%Z
        /\ (ts + CONFIG.injection_delay <= ti)%Z
        /\ (ti + CONFIG.navigation_delay <= now_ms w')%Z
  | (Throw _, w') =>
      (now_ms w <= now_ms w')%Z
      /\ (trace w' = trace w
          \/ exists ts n,
               trace w' = (ts, EvSetCookie n) :: trace w
               /\ 1 <= n /\ (now_ms w + CONFIG.t_minus_1_delay <= ts)%Z)
  end.
Proof.
  unfold CONFIG.t_minus_1_delay, CONFIG.injection_delay, CONFIG.navigation_delay.
  unfold injectCookiesWithT1Timing, bind.
  rewrite Date_now_run, sleep_run.
  unfold CONFIG.t_minus_1_delay, CONFIG.injection_delay, CONFIG.navigation_delay.
  destruct (emits_nothing (slept 2000 (ticked w))
              (readAndValidateCookies_no_event cookiePath domain)) as [T C].
  destruct (readAndValidateCookies cookiePath domain _) as [[cookies|e] w3].
  2: { cbn in T, C. split; [lia | left; exact T]. }
  cbn [snd] in T, C. cbn [slept ticked now_ms trace] in T, C.
  destruct (length cookies =? 0) eqn:El.
  { unfold throw. split; [lia | left; exact T]. }
  apply Nat.eqb_neq in El.
  rewrite driver_run. destruct (failure _).
  { cbn [ticked emitted now_ms trace]. split; [lia|]. right.
    exists (now_ms w3), (length cookies). rewrite T. split; [reflexivity|].
    split; lia. }
  rewrite sleep_run, emit_run, sleep_run, Date_now_run, modifyHeap_run, Date_now_run.
  unfold ret.
  cbn [ticked emitted slept withHeap now_ms trace oracle ticks ir_cookieCount].
  eexists _, _. rewrite T. split; [reflexivity|].
  split; [lia|]. split; [lia|]. split; lia.
Qed.

Lemma afterNavigation_rev (tn since : Z) (l : list (Z * Event)) :
  (tn <= since)%Z -> only afterNavigation since l ->
  forallb (fun te => afterNavigation (snd te) && (tn <=? fst te)%Z) (rev l) = true.
Proof.
  intros Hle H. apply forallb_forall. intros [t e] Hin. apply in_rev in Hin.
  unfold only in H. rewrite Forall_forall in H. destruct (H _ Hin) as [HP Ht].
  cbn in *. rewrite HP. apply Z.leb_le. lia.
Qed.

Lemma noGoto_only (since : Z) (l : list (Z * Event)) :
  only afterNavigation since l -> noGoto l.
Proof.
  intros H t u Hin. unfold only in H. rewrite Forall_forall in H.
  destruct (H _ Hin) as [HP _]. discriminate.
Qed.

(** What the [try] block of a cycle leaves in the trace, by how far it
    got. *)
Lemma autoTestTry_events (cookieFile : CookieFile) (domain : string) (w : World) :
  let opened := driver EvNewPage w in
  let injection := injectCookiesWithT1Timing (cf_path cookieFile) domain (snd opened) in
  exists new,
    trace (snd (autoTestTry cookieFile domain w)) = new ++ trace w
    /\ ((exists msg, fst opened = Throw msg) /\ new = [(now_ms w, EvNewPage)]
        \/ (exists page msg, fst opened = Ok page /\ fst injection = Throw msg)
           /\ (new = [(now_ms w, EvNewPage)]
               \/ exists ts n,
                    new = [(ts, EvSetCookie n); (now_ms w, EvNewPage)]
                    /\ 1 <= n /\ (now_ms w + CONFIG.t_minus_1_delay <= ts)%Z)
        \/ exists page injectionResult ts ti,
             fst opened = Ok page /\ fst injection = Ok injectionResult
             /\ 1 <= ir_cookieCount injectionResult
             /\ (now_ms w + CONFIG.t_minus_1_delay <= ts)%Z
             /\ (ts + CONFIG.injection_delay <= ti)%Z
             /\ (ti + CONFIG.navigation_delay <= now_ms (snd injection))%Z
             /\ let injected := [(ti, EvInjectionComplete);
                                 (ts, EvSetCookie (ir_cookieCount injectionResult));
                                 (now_ms w, EvNewPage)] in
                (new = injected
                 \/ exists tn u later,
                      new = later ++ (tn, EvGoto u) :: injected
                      /\ (now_ms (snd injection) <= tn)%Z
                      /\ only afterNavigation tn later)).
Proof.
  cbv zeta.
  change (autoTestTry cookieFile domain w)
    with (bind (driver EvNewPage)
               (fun _ =>
                  injectionResult <- injectCookiesWithT1Timing (cf_path cookieFile) domain ;;
                  testUrl <- determineTestUrl (cf_path cookieFile) domain ;;
                  driver (EvGoto testUrl) ;;;
                  afterGoto cookieFile domain injectionResult testUrl) w).
  unfold bind at 1. rewrite driver_run.
  destruct (failure (oracle w (ticks w))) as [msg0|].
  { exists [(now_ms w, EvNewPage)]. split; [reflexivity|]. left.
    split; [now exists msg0 | reflexivity]. }
  cbn [fst snd].
  set (w1 := ticked (emitted EvNewPage w)).
  assert (T1 : trace w1 = (now_ms w, EvNewPage) :: trace w) by reflexivity.
  assert (C1 : (now_ms w <= now_ms w1)%Z) by (unfold w1; cbn; lia).
  pose proof (injectCookiesWithT1Timing_events (cf_path cookieFile) domain w1) as HI.
  unfold bind at 1.
  destruct (injectCookiesWithT1Timing (cf_path cookieFile) domain w1) as [[ir|msg] w2].
  2: { destruct HI as [C2 [T2 | [ts [n [T2 [Hn Hts]]]]]].
       - exists [(now_ms w, EvNewPage)]. split; [cbn [snd]; rewrite T2, T1; reflexivity|].
         right. left. split; [eexists _, msg; split; reflexivity | now left].
       - exists [(ts, EvSetCookie n); (now_ms w, EvNewPage)].
         split; [cbn [snd]; rewrite T2, T1; reflexivity|].
         right. left. split; [eexists _, msg; split; reflexivity|].
         right. exists ts, n. repeat split; [exact Hn | lia]. }
  destruct HI as [ts [ti [T2 [Hn [Hts [Hti Hnav]]]]]].
  cbn [fst snd].
  destruct (emits_nothing w2 (determineTestUrl_no_event (cf_path cookieFile) domain))
    as [T3 C3].
  unfold bind at 1.
  destruct (determineTestUrl (cf_path cookieFile) domain w2) as [[testUrl|e] w3].
  2: { cbn [snd] in *.
       exists [(ti, EvInjectionComplete); (ts, EvSetCookie (ir_cookieCount ir));
               (now_ms w, EvNewPage)].
       split; [rewrite T3, T2, T1; reflexivity|].
       right. right. eexists _, ir, ts, ti. split; [reflexivity|]. split; [reflexivity|].
       split; [exact Hn|]. split; [lia|]. split; [exact Hti|]. split; [exact Hnav|].
       now left. }
  cbn [snd] in T3, C3.
  unfold bind at 1. rewrite driver_run.
  destruct (failure (oracle w3 (ticks w3))).
  { cbn [snd ticked emitted trace].
    exists ((now_ms w3, EvGoto testUrl)
            :: [(ti, EvInjectionComplete); (ts, EvSetCookie (ir_cookieCount ir));
               (now_ms w, EvNewPage)]).
    split; [rewrite T3, T2, T1; reflexivity|].
    right. right. eexists _, ir, ts, ti. split; [reflexivity|]. split; [reflexivity|].
    split; [exact Hn|]. split; [lia|]. split; [exact Hti|]. split; [exact Hnav|].
    right. exists (now_ms w3), testUrl, []. split; [reflexivity|].
    split; [exact C3 | apply only_nil]. }
  set (w4 := ticked (emitted (EvGoto testUrl) w3)).
  assert (T4 : trace w4 = (now_ms w3, EvGoto testUrl) :: trace w3) by reflexivity.
  assert (C4 : (now_ms w3 <= now_ms w4)%Z) by (unfold w4; cbn; lia).
  destruct (afterGoto cookieFile domain ir testUrl w4) as [r5 w5] eqn:EA.
  destruct (@afterGoto_events cookieFile domain ir testUrl _ _ _ EA) as [later [[T5 C5] G5]].
  cbn [snd]. exists (later ++ (now_ms w3, EvGoto testUrl)
                          :: [(ti, EvInjectionComplete);
                              (ts, EvSetCookie (ir_cookieCount ir));
                              (now_ms w, EvNewPage)]).
  split; [rewrite T5, T4, T3, T2, T1, <- app_assoc; reflexivity|].
  right. right. eexists _, ir, ts, ti. split; [reflexivity|]. split; [reflexivity|].
  split; [exact Hn|]. split; [lia|]. split; [exact Hti|]. split; [exact Hnav|].
  right. exists (now_ms w3), testUrl, later. split; [reflexivity|].
  split; [exact C3|]. apply (only_earlier (since := now_ms w4)); [exact C4 | exact G5].
Qed.

Lemma cycleShape_T1Cycle (t0 : Z) (new : list (Z * Event)) :
  cycleShape t0 new -> T1Cycle new.
Proof.
  unfold T1Cycle.
  intros [-> | [[ts [n [-> [Hn Hts]]]] | [ts [n [ti [Hn [Hts [Hti Hnew]]]]]]]].
  - reflexivity.
  - cbn [rev app t1Cycle]. rewrite andb_true_r.
    apply andb_true_intro. split; [apply Nat.leb_le; lia | apply Z.leb_le; exact Hts].
  - assert (H1 : ((1 <=? n) && (t0 + CONFIG.t_minus_1_delay <=? ts)%Z) = true).
    { apply andb_true_intro. split; [apply Nat.leb_le; lia | apply Z.leb_le; exact Hts]. }
    assert (H2 : (ts + CONFIG.injection_delay <=? ti)%Z = true) by (apply Z.leb_le; exact Hti).
    destruct Hnew as [-> | [tn [u [later [-> [Htn Hlater]]]]]].
    + cbn [rev app t1Cycle]. now rewrite H1, H2.
    + rewrite rev_app_distr. cbn [rev app t1Cycle]. rewrite H1, H2. cbn [andb].
      apply andb_true_intro. split; [apply Z.leb_le; exact Htn|].
      apply (afterNavigation_rev (since := tn)); [lia | exact Hlater].
Qed.

Lemma goto_position (a b c d : list (Z * Event)) (x y : Z * Event) :
  noGoto a -> noGoto b -> a ++ x :: b = c ++ y :: d ->
  (exists t v, y = (t, EvGoto v)) -> (exists t v, x = (t, EvGoto v)) ->
  a = c /\ x = y /\ b = d.
Proof.
  revert b c d x y.
  induction a as [|a0 a IH]; intros b c d x y Ga Gb E [t [v ->]] [t0 [v0 ->]].
  - destruct c as [|c0 c]; simpl in E.
    + injection E as -> -> ->. auto.
    + injection E as _ E. exfalso. apply (Gb t v). rewrite E.
      apply in_or_app. right. now left.
  - destruct c as [|c0 c]; simpl in E.
    + injection E as -> _. exfalso. apply (Ga t v). now left.
    + injection E as -> E.
      destruct (IH b c d (t0, EvGoto v0) (t, EvGoto v)) as [-> [Hx ->]]; eauto.
      intros t1 v1 H1. apply (Ga t1 v1). now right.
Qed.

Lemma cycleShape_T1Ordered (t0 : Z) (new : list (Z * Event)) :
  cycleShape t0 new -> T1Ordered new.
Proof.
  intros H later tn u earlier E.
  assert (Hin : In (tn, EvGoto u) new) by (rewrite E; apply in_or_app; right; now left).
  destruct H as [-> | [[ts [n [-> [Hn Hts]]]] | [ts [n [ti [Hn [Hts [Hti Hnew]]]]]]]].
  - exfalso. destruct Hin as [H|[]]. discriminate.
  - exfalso. destruct Hin as [H|[H|[]]]; discriminate.
  - destruct Hnew as [-> | [tn0 [u0 [later0 [-> [Htn Hlater]]]]]].
    + exfalso. destruct Hin as [H|[H|[H|[]]]]; discriminate.
    + destruct (@goto_position later0
                  [(ti, EvInjectionComplete); (ts, EvSetCookie n); (t0, EvNewPage)]
                  later earlier (tn0, EvGoto u0) (tn, EvGoto u))
        as [<- [Hx <-]]; eauto using noGoto_only.
      { intros t v [H|[H|[H|[]]]]; discriminate. }
      injection Hx as <- <-.
      split; [eapply noGoto_only; exact Hlater|].
      exists t0, ts, n, ti. split; [reflexivity|]. split; [exact Hn|].
      unfold CONFIG.t_minus_1_delay, CONFIG.injection_delay, CONFIG.navigation_delay in *.
      repeat split; lia.
Qed.

(** The handler and the pause between the tests record no event. *)
Lemma autoTestOne_trace (cookieFile : CookieFile) (w : World) :
  trace (snd (autoTestOne cookieFile w))
  = trace (snd (autoTestTry cookieFile (domainOfFile cookieFile) w)).
Proof.
  unfold autoTestOne, bind, tryCatch.
  destruct (autoTestTry cookieFile (domainOfFile cookieFile) w) as [[[]|e] w1].
  - rewrite sleep_run. reflexivity.
  - unfold autoTestCatch, bind. rewrite Date_now_run, modifyHeap_run, sleep_run. reflexivity.
Qed.

(** One iteration of the testing loop always returns: whatever the [try]
    block throws is caught. *)
Lemma autoTestOne_returns (cookieFile : CookieFile) (w : World) :
  exists w', autoTestOne cookieFile w = (Ok tt, w').
Proof.
  unfold autoTestOne, bind, tryCatch.
  destruct (autoTestTry cookieFile (domainOfFile cookieFile) w) as [[[]|e] w1].
  - rewrite sleep_run. eauto.
  - unfold autoTestCatch, bind. rewrite Date_now_run, modifyHeap_run, sleep_run. eauto.
Qed.

Lemma autoTestLoop_nil (w : World) : autoTestLoop [] w = (Ok tt, w).
Proof. reflexivity. Qed.

Lemma autoTestLoop_cons (cookieFile : CookieFile) (rest : list CookieFile) (w w1 : World) :
  autoTestOne cookieFile w = (Ok tt, w1) ->
  autoTestLoop (cookieFile :: rest) w = autoTestLoop rest w1.
Proof.
  intros E. unfold autoTestLoop. cbn [forEach]. unfold bind at 1. now rewrite E.
Qed.

Lemma autoTestLoop_returns (cookieFiles : list CookieFile) (w : World) :
  exists w', autoTestLoop cookieFiles w = (Ok tt, w').
Proof.
  revert w. induction cookieFiles as [|cf rest IH]; intros w.
  - rewrite autoTestLoop_nil. eauto.
  - destruct (autoTestOne_returns cf w) as [w1 E]. rewrite (@autoTestLoop_cons cf rest w w1 E). apply IH.
Qed.

(** The events of one cycle, with what the opening of the page and the
    injection came to. *)
Lemma autoTestOne_cycle (cookieFile : CookieFile) (w : World) :
  let w' := snd (autoTestOne cookieFile w) in
  let new := eventsSince w w' in
  let opened := driver EvNewPage w in
  let injection :=
    injectCookiesWithT1Timing (cf_path cookieFile) (domainOfFile cookieFile) (snd opened) in
  trace w' = new ++ trace w
  /\ cycleShape (now_ms w) new
  /\ ((forall msg, fst opened = Throw msg -> noGoto new)
      /\ (forall msg, fst injection = Throw msg -> noGoto new))
  /\ (forall tn u,
         In (tn, EvGoto u) new ->
         exists page injectionResult ts ti,
           fst opened = Ok page /\ fst injection = Ok injectionResult
           /\ 1 <= ir_cookieCount injectionResult
           /\ In (ts, EvSetCookie (ir_cookieCount injectionResult)) new
           /\ In (ti, EvInjectionComplete) new
           /\ (ts + CONFIG.injection_delay <= ti)%Z
           /\ (ti + CONFIG.navigation_delay <= now_ms (snd injection))%Z
           /\ (now_ms (snd injection) <= tn)%Z).
Proof.
  cbv zeta.
  destruct (autoTestTry_events cookieFile (domainOfFile cookieFile) w) as [new [T H]].
  rewrite <- autoTestOne_trace in T. rewrite (@eventsSince_extends _ _ _ T).
  split; [exact T|].
  destruct H as [[[msg0 Ho] ->] | [[[page [msg [Ho Hi]]] Hnew] |
                 [page [ir [ts [ti [Ho [Hi [Hn [Hts [Hti [Hnav Hnew]]]]]]]]]]]].
  - split; [now left|]. split.
    + split; intros _ _ t u [H|[]]; discriminate.
    + intros tn u [H|[]]. discriminate.
  - assert (G : noGoto new).
    { destruct Hnew as [-> | [ts [n [-> _]]]].
      - intros t u [H|[]]; discriminate.
      - intros t u [H|[H|[]]]; discriminate. }
    split.
    { destruct Hnew as [-> | [ts [n [-> [Hn Hts]]]]]; [now left|].
      right. left. now exists ts, n. }
    split; [split; intros _ _; exact G|].
    intros tn u Hin. exfalso. exact (G tn u Hin).
  - cbv zeta in Hnew. split.
    { right. right. exists ts, (ir_cookieCount ir), ti.
      split; [exact Hn|]. split; [exact Hts|]. split; [exact Hti|].
      destruct Hnew as [-> | [tn [u [later [-> [Htn Hlater]]]]]]; [now left|].
      right. exists tn, u, later. split; [reflexivity|]. split; [lia | exact Hlater]. }
    split.
    { split; intros msg Hm; [rewrite Ho in Hm | rewrite Hi in Hm]; discriminate. }
    intros tn u Hin. exists page, ir, ts, ti.
    split; [exact Ho|]. split; [exact Hi|]. split; [exact Hn|].
    destruct Hnew as [-> | [tn0 [u0 [later [-> [Htn Hlater]]]]]].
    + exfalso. destruct Hin as [H|[H|[H|[]]]]; discriminate.
    + split; [apply in_or_app; right; right; right; now left|].
      split; [apply in_or_app; right; right; now left|].
      split; [exact Hti|]. split; [exact Hnav|].
      apply in_app_or in Hin. destruct Hin as [Hin | [Hin | [Hin|[Hin|[Hin|[]]]]]];
        try discriminate.
      * exfalso. exact (noGoto_only Hlater _ _ Hin).
      * injection Hin as <- _. exact Htn.
Qed.

(** C2. In the trace of every test cycle of the automatic mode, a navigation
    to the target URL is the only one of its cycle and comes after the call
    of [page.setCookie], made with one cookie at least (as many as the
    injection reports), and after the end of the injection, in this order:
    the injection delay lies between the call and the end of the injection,
    the navigation delay between the end of the injection and the navigation,
    so the timestamp of the end of the injection is strictly smaller than that
    of the navigation. A cycle whose page cannot be opened or whose injection
    throws, be it for an unreadable file, for want of a valid cookie or in
    [page.setCookie], has no navigation at all. After the navigation the cycle
    only reads the page, saves the session, takes the screenshot and closes the
    page. The same holds cycle by cycle for the whole loop over the prepared
    cookie files, the cycle of a file being the events recorded while its
    iteration runs. *)
Theorem C2_injection_completes_before_navigation :
  (forall (cookieFile : CookieFile) (w : World),
      let w' := snd (autoTestOne cookieFile w) in
      let new := eventsSince w w' in
      let opened := driver EvNewPage w in
      let injection :=
        injectCookiesWithT1Timing (cf_path cookieFile) (domainOfFile cookieFile)
                                  (snd opened) in
      trace w' = new ++ trace w
      /\ T1Cycle new
      /\ T1Ordered new
      /\ (forall msg, fst opened = Throw msg -> noGoto new)
      /\ (forall msg, fst injection = Throw msg -> noGoto new)
      /\ (forall tn u,
             In (tn, EvGoto u) new ->
             exists page injectionResult ts ti,
               fst opened = Ok page /\ fst injection = Ok injectionResult
               /\ 1 <= ir_cookieCount injectionResult
               /\ In (ts, EvSetCookie (ir_cookieCount injectionResult)) new
               /\ In (ti, EvInjectionComplete) new
               /\ (ts + CONFIG.injection_delay <= ti)%Z
               /\ (ti + CONFIG.navigation_delay <= now_ms (snd injection))%Z
               /\ (now_ms (snd injection) <= tn)%Z))
  /\ (forall (cookieFiles : list CookieFile) (w : World),
      let cycles := cyclesOfLoop cookieFiles w in
      trace (snd (autoTestLoop cookieFiles w)) = concat (rev cycles) ++ trace w
      /\ length cycles = length cookieFiles
      /\ Forall T1Cycle cycles
      /\ Forall T1Ordered cycles).
Proof.
  split.
  - intros cookieFile w. cbv zeta.
    destruct (autoTestOne_cycle cookieFile w) as [T [S [[Ho Hi] Hg]]].
    split; [exact T|]. split; [exact (cycleShape_T1Cycle S)|].
    split; [exact (cycleShape_T1Ordered S)|].
    split; [exact Ho|]. split; [exact Hi | exact Hg].
  - intros files. induction files as [|cf rest IH]; intros w.
    + cbn. repeat split; constructor.
    + cbv zeta. cbn [cyclesOfLoop].
      destruct (autoTestOne_returns cf w) as [w1 E].
      rewrite (@autoTestLoop_cons cf rest w w1 E).
      destruct (autoTestOne_cycle cf w) as [T [S _]].
      rewrite E in T, S. cbn [snd] in T, S. rewrite E. cbn [snd].
      destruct (IH w1) as [Tc [Lc [Fc Fo]]].
      split; [|split; [|split]].
      * rewrite Tc. cbn [rev]. rewrite concat_app. cbn [concat].
        rewrite app_nil_r, <- app_assoc. now rewrite <- T.
      * cbn [length]. now rewrite Lc.
      * constructor; [exact (cycleShape_T1Cycle S) | exact Fc].
      * constructor; [exact (cycleShape_T1Ordered S) | exact Fo].
Qed.

(** A cycle that runs to its end: the cookies are set, the injection is
    complete at 2530 ms, and the navigation starts at 3545 ms. *)
Example trace_of_a_completed_cycle :
  let header := "# - https://example.com/dashboard (visited 3 times)" in
  let line := cookieLine ".example.com" "TRUE" "/" "FALSE" "0" "sid" "abc" in
  let path := "prepared_cookies/example_com.txt" in
  let w := steadyWorld 5 (oneFile path (header ++ String JS.LF line)) 0 in
  let new := [(6585%Z, EvPageClose); (6570%Z, EvUrl); (6565%Z, EvTitle); (6560%Z, EvContent);
              (3545%Z, EvGoto "https://example.com/dashboard");
              (2530%Z, EvInjectionComplete); (2020%Z, EvSetCookie 1); (0%Z, EvNewPage)] in
  trace (snd (autoTestOne (mkCookieFile "example_com.txt" path) w)) = new
  /\ t1Cycle (rev new) = true.
Proof. vm_compute. split; reflexivity. Qed.

(** Traces that are not in the T-1 order: a navigation with no call of
    [page.setCookie] before it, one before the end of the injection, one
    less than the navigation delay after it, and a second navigation. *)
Example traces_out_of_order :
  t1Cycle [(0%Z, EvNewPage); (2000%Z, EvInjectionComplete); (3000%Z, EvGoto "u")] = false
  /\ t1Cycle [(0%Z, EvNewPage); (2000%Z, EvSetCookie 1); (2500%Z, EvGoto "u");
              (3000%Z, EvInjectionComplete)] = false
  /\ t1Cycle [(0%Z, EvNewPage); (2000%Z, EvSetCookie 1); (2500%Z, EvInjectionComplete);
              (3499%Z, EvGoto "u")] = false
  /\ t1Cycle [(0%Z, EvNewPage); (2000%Z, EvSetCookie 1); (2500%Z, EvInjectionComplete);
              (3500%Z, EvGoto "u"); (4000%Z, EvGoto "v")] = false
  /\ t1Cycle [(0%Z, EvNewPage); (2000%Z, EvSetCookie 0); (2500%Z, EvInjectionComplete);
              (3500%Z, EvGoto "u")] = false.
Proof. vm_compute. repeat split; reflexivity. Qed.

(** ** An empty validated cookie list *)

Lemma validated_empty_throws (cookiePath domain content : string) (mtime : Z) (w : World) :
  files w cookiePath = Some (content, mtime) ->
  (forall now, (now_ms w / 1000 <= now)%Z ->
     fold_left (fun acc line => validateLine now line acc) (cookieLines content) [] = []) ->
  exists w', injectCookiesWithT1Timing cookiePath domain w
             = (Throw ("No valid cookies found for " ++ domain)%string, w')
             /\ heap w' = heap w /\ trace w' = trace w.
Proof.
  intros Hf Hempty. unfold injectCookiesWithT1Timing, bind.
  rewrite Date_now_run, sleep_run.
  rewrite (@readAndValidateCookies_single_now cookiePath domain content mtime) by exact Hf.
  rewrite Hempty.
  - simpl. unfold throw. eexists. split; [reflexivity|]. split; reflexivity.
  - apply Z.div_le_mono; [lia|]. simpl. unfold CONFIG.t_minus_1_delay. lia.
Qed.

(** C8. When the validated cookie list of a domain is empty, the test of
    that domain ends with the error [No valid cookies found for] the domain,
    which the loop records as one errored result; the iteration returns
    normally, the error count of the summary goes up by one, and the loop
    goes on with the remaining files and returns. *)
Theorem C8_no_cookies_is_an_errored_result_and_the_run_continues
    (cookieFile : CookieFile) (rest : list CookieFile) (w : World)
    (content : string) (mtime : Z) :
  files w (cf_path cookieFile) = Some (content, mtime) ->
  (forall now, (now_ms w / 1000 <= now)%Z ->
     fold_left (fun acc line => validateLine now line acc) (cookieLines content) [] = []) ->
  failure (oracle w (ticks w)) = None ->
  let domain := domainOfFile cookieFile in
  exists w1 t,
    autoTestOne cookieFile w = (Ok tt, w1)
    /\ results (heap w1)
       = results (heap w)
         ++ [Errored domain ("No valid cookies found for " ++ domain)%string t]
    /\ errors (summaryOf (results (heap w1))) = S (errors (summaryOf (results (heap w))))
    /\ autoTestLoop (cookieFile :: rest) w = autoTestLoop rest w1
    /\ exists w2, autoTestLoop rest w1 = (Ok tt, w2).
Proof.
  intros Hf Hempty Hpage domain.
  set (wp := ticked (emitted EvNewPage w)).
  assert (Hfp : files wp (cf_path cookieFile) = Some (content, mtime)) by exact Hf.
  assert (Hep : forall now, (now_ms wp / 1000 <= now)%Z ->
             fold_left (fun acc line => validateLine now line acc) (cookieLines content) [] = []).
  { intros now Hnow. apply Hempty. etransitivity; [|exact Hnow].
    apply Z.div_le_mono; [lia|]. simpl. lia. }
  destruct (@validated_empty_throws (cf_path cookieFile) domain content mtime wp Hfp Hep)
    as [wi [Hi [Hh Ht]]].
  assert (Htry : autoTestTry cookieFile domain w
                 = (Throw ("No valid cookies found for " ++ domain)%string, wi)).
  { unfold autoTestTry. unfold bind at 1. rewrite driver_run, Hpage. fold wp.
    unfold bind at 1. rewrite Hi. reflexivity. }
  assert (Hone : autoTestOne cookieFile w
                 = (Ok tt, slept 2000 (withHeap
                      (pushResult (Errored domain ("No valid cookies found for " ++ domain)%string
                                           (now_ms (ticked wi)))) (ticked wi)))).
  { unfold autoTestOne. fold domain. unfold bind, tryCatch. rewrite Htry.
    unfold autoTestCatch, bind. rewrite Date_now_run, modifyHeap_run, sleep_run. reflexivity. }
  eexists. exists (now_ms (ticked wi)). split; [exact Hone|].
  assert (Hres : results (heap (slept 2000 (withHeap
                    (pushResult (Errored domain ("No valid cookies found for " ++ domain)%string
                                         (now_ms (ticked wi)))) (ticked wi))))
                 = results (heap w)
                   ++ [Errored domain ("No valid cookies found for " ++ domain)%string
                               (now_ms (ticked wi))]).
  { simpl. rewrite Hh. reflexivity. }
  split; [exact Hres|]. split; [|split].
  - rewrite Hres. unfold summaryOf; cbn [errors].
    rewrite filter_app, length_app. simpl. lia.
  - apply autoTestLoop_cons. exact Hone.
  - apply autoTestLoop_returns.
Qed.

Lemma C8_no_cookies_witness :
  let path := "prepared_cookies/example_com.txt" in
  let w := steadyWorld 5 (oneFile path "# Netscape HTTP Cookie File") 0 in
  exists w1 t,
    autoTestOne (mkCookieFile "example_com.txt" path) w = (Ok tt, w1)
    /\ results (heap w1) = [Errored "example.com" "No valid cookies found for example.com" t].
Proof.
  destruct (@C8_no_cookies_is_an_errored_result_and_the_run_continues
              (mkCookieFile "example_com.txt" "prepared_cookies/example_com.txt") []
              (steadyWorld 5 (oneFile "prepared_cookies/example_com.txt"
                                      "# Netscape HTTP Cookie File") 0)
              "# Netscape HTTP Cookie File" 0%Z)
    as [w1 [t [Hone [Hres _]]]].
  - vm_compute. reflexivity.
  - intros now _. vm_compute. reflexivity.
  - vm_compute. reflexivity.
  - exists w1, t. split; [exact Hone | exact Hres].
Defined.

(** Two prepared files, the first with an expired cookie only, the second
    missing: both tests are recorded as errors and the loop returns. *)
Example run_with_expired_and_missing_files :
  let header := "# - https://example.com/dashboard (visited 3 times)" in
  let line := cookieLine ".example.com" "TRUE" "/" "FALSE" "1000" "sid" "abc" in
  let path := "prepared_cookies/example_com.txt" in
  let w := steadyWorld 5 (oneFile path (header ++ String JS.LF line)) 1700000000000 in
  let run := autoTestLoop [mkCookieFile "example_com.txt" path;
                           mkCookieFile "missing.txt" "prepared_cookies/missing.txt"] w in
  fst run = Ok tt
  /\ results (heap (snd run))
     = [Errored "example.com" "No valid cookies found for example.com" 1700000002025%Z;
        Errored "missing"
          "ENOENT: no such file or directory, open prepared_cookies/missing.txt"
          1700000006050%Z]
  /\ errors (summaryOf (results (heap (snd run)))) = 2.
Proof. vm_compute. repeat split. Qed.

(* ================================================================== *)
(** * Part IV. Further properties of the sources                        *)
(* ================================================================== *)

(** ** The cross-reference engine *)

Lemma keys_set {V} (m : JS.Map V) (k : string) (v : V) :
  JS.keys (JS.set m k v) = if JS.has m k then JS.keys m else JS.keys m ++ [k].
Proof.
  unfold JS.keys, JS.has. induction m as [|[k' v'] m IH]; simpl; [reflexivity|].
  destruct (String.eqb k' k) eqn:E; simpl; [reflexivity|].
  rewrite IH. destruct (JS.get m k); reflexivity.
Qed.

Lemma NoDup_keys_set {V} (m : JS.Map V) (k : string) (v : V) :
  NoDup (JS.keys m) -> NoDup (JS.keys (JS.set m k v)).
Proof.
  intros Hm. rewrite keys_set. destruct (JS.has m k) eqn:E; [exact Hm|].
  apply NoDup_app; [assumption | constructor; [simpl; tauto | constructor] |].
  intros x Hx [Hk | []]. subst x. rewrite has_keys in E.
  assert (existsb (String.eqb k) (JS.keys m) = true); [|congruence].
  apply existsb_exists. exists k. split; [exact Hx | apply String.eqb_refl].
Qed.

(** X1. [analyzeDiscoveredData] makes a profile for a domain exactly when
    the domain is a key of one of the four maps at least; the profile found
    under a domain is the profile of that domain, and no domain has two. *)
Theorem X1_profile_iff_domain_in_some_map (d : DiscoveredData) (domain : string) :
  (JS.has (analyzeDiscoveredData d) domain = true
   <-> JS.has (cookies d) domain = true \/ JS.has (history d) domain = true
       \/ JS.has (passwords d) domain = true \/ JS.has (autofills d) domain = true)
  /\ (forall p, JS.get (analyzeDiscoveredData d) domain = Some p -> dd_domain p = domain)
  /\ NoDup (JS.keys (analyzeDiscoveredData d)).
Proof.
  split; [|split].
  - rewrite profile_exists_iff, !orb_true_iff. tauto.
  - intros p Hp. apply analyzeDiscoveredData_get in Hp. now subst p.
  - unfold analyzeDiscoveredData. generalize (allDomains d).
    assert (G : forall l m, NoDup (JS.keys m) ->
                NoDup (JS.keys (fold_left (fun crossReferencedData domain0 =>
                   JS.set crossReferencedData domain0 (analyzeDomain d domain0)) l m))).
    { induction l as [|x l IH]; intros m Hm; simpl; [exact Hm|].
      apply IH. now apply NoDup_keys_set. }
    intros l. apply G. constructor.
Qed.

(** X2. The score lies between 0 and 100 and never goes down when a signal
    is added: with every signal of one domain also present for another, the
    second score is at least the first. *)
Theorem X2_score_is_bounded_and_monotone
    (c h p a v c' h' p' a' v' : bool) (n n' : nat) :
  (c = true -> c' = true) -> (h = true -> h' = true) -> (p = true -> p' = true) ->
  (a = true -> a' = true) -> (v = true -> v' = true) -> (0 < n -> 0 < n') ->
  (0 <= scoreOf c h p a v n)%Z
  /\ (scoreOf c h p a v n <= scoreOf c' h' p' a' v' n')%Z
  /\ (scoreOf c' h' p' a' v' n' <= 100)%Z.
Proof.
  intros Hc Hh Hp Ha Hv Hn. rewrite !scoreOf_weightSum. unfold weightSum.
  assert (Hn' : (0 <? n) = true -> (0 <? n') = true).
  { rewrite !Nat.ltb_lt. exact Hn. }
  destruct c, c', h, h', p, p', a, a', v, v', (0 <? n), (0 <? n');
    try (exfalso; (discriminate (Hc eq_refl) || discriminate (Hh eq_refl)
                   || discriminate (Hp eq_refl) || discriminate (Ha eq_refl)
                   || discriminate (Hv eq_refl) || discriminate (Hn' eq_refl)));
    cbv; repeat split; discriminate.
Qed.

Lemma X2_score_witness :
  (0 <= scoreOf true false false false false 0)%Z
  /\ (scoreOf true false false false false 0 <= scoreOf true true false false false 1)%Z
  /\ (scoreOf true true false false false 1 <= 100)%Z.
Proof.
  apply (@X2_score_is_bounded_and_monotone true false false false false
           true true false false false 0 1); auto; intros; lia.
Defined.

(** ** The result aggregator, further *)


(** ** Authenticated endpoints, further *)

Lemma insertByVisits_In (x y : HistoryEntry) (l : list HistoryEntry) :
  In y (insertByVisits x l) <-> y = x \/ In y l.
Proof.
  induction l as [|z l IH]; simpl; [intuition congruence|].
  destruct (he_visitCount x <? he_visitCount z)%Z; simpl; [rewrite IH|]; intuition congruence.
Qed.

Lemma sortByVisitsDesc_In (y : HistoryEntry) (l : list HistoryEntry) :
  In y (sortByVisitsDesc l) <-> In y l.
Proof.
  unfold sortByVisitsDesc. induction l as [|x l IH]; simpl; [tauto|].
  rewrite insertByVisits_In, IH. intuition congruence.
Qed.

Lemma insertByVisits_length (x : HistoryEntry) (l : list HistoryEntry) :
  length (insertByVisits x l) = S (length l).
Proof.
  induction l as [|z l IH]; simpl; [reflexivity|].
  destruct (he_visitCount x <? he_visitCount z)%Z; simpl; [now rewrite IH | reflexivity].
Qed.

Lemma insertByVisits_sorted (x : HistoryEntry) (l : list HistoryEntry) :
  StronglySorted visitsGe l -> StronglySorted visitsGe (insertByVisits x l).
Proof.
  induction l as [|z l IH]; intros Hs; simpl.
  - constructor; [constructor | constructor].
  - inversion Hs as [|? ? Hl Hz]; subst.
    destruct (he_visitCount x <? he_visitCount z)%Z eqn:E.
    + constructor; [now apply IH|].
      apply Forall_forall. intros y Hy. apply insertByVisits_In in Hy.
      destruct Hy as [-> | Hy].
      * unfold visitsGe. apply Z.ltb_lt in E. lia.
      * rewrite Forall_forall in Hz. now apply Hz.
    + constructor; [exact Hs|]. apply Z.ltb_ge in E.
      constructor; [exact E|].
      rewrite Forall_forall in Hz |- *. intros y Hy. specialize (Hz y Hy).
      unfold visitsGe in *. lia.
Qed.

Lemma sortByVisitsDesc_sorted (l : list HistoryEntry) :
  StronglySorted visitsGe (sortByVisitsDesc l).
Proof.
  unfold sortByVisitsDesc. induction l as [|x l IH]; simpl; [constructor|].
  now apply insertByVisits_sorted.
Qed.

Lemma StronglySorted_app_inv {A} (R : A -> A -> Prop) (l1 l2 : list A) :
  StronglySorted R (l1 ++ l2) ->
  StronglySorted R l1 /\ forall x y, In x l1 -> In y l2 -> R x y.
Proof.
  induction l1 as [|a l1 IH]; simpl; intros Hs.
  - split; [constructor | intros x y []].
  - inversion Hs as [|? ? Hl Ha]; subst. destruct (IH Hl) as [H1 H2]. split.
    + constructor; [exact H1|]. rewrite Forall_forall in Ha |- *.
      intros x Hx. apply Ha, in_or_app. now left.
    + intros x y [<- | Hx] Hy; [|now apply H2].
      rewrite Forall_forall in Ha. apply Ha, in_or_app. now right.
Qed.

(** The first [n] of a sorted list are its best: what is left out is no
    better than any of them, and is left out only of a full list. *)
Lemma firstn_of_sorted {A} (R : A -> A -> Prop) (n : nat) (l : list A) (e : A) :
  StronglySorted R l -> In e l ->
  In e (firstn n l) \/ (length (firstn n l) = n /\ forall x, In x (firstn n l) -> R x e).
Proof.
  intros Hs He. rewrite <- (firstn_skipn n l) in Hs, He.
  apply in_app_or in He. destruct He as [He | He]; [now left | right].
  destruct (@StronglySorted_app_inv _ R _ _ Hs) as [_ H]. split.
  - apply firstn_length_le. destruct (le_lt_dec n (length l)) as [Hle|Hlt]; [exact Hle|].
    rewrite skipn_all2 in He by lia. destruct He.
  - intros x Hx. now apply H.
Qed.

(** X3. The authenticated endpoints of a profile are at most five history
    entries of that domain that [isAuthenticatedUrl] accepts, in descending
    order of visit count; an accepted entry of the domain that is not among
    them is left out of a full list of five and was visited no more often
    than any of the five. *)
Theorem X3_endpoints_are_the_most_visited_five
    (d : DiscoveredData) (domain : string) (p : DomainData) :
  JS.get (analyzeDiscoveredData d) domain = Some p ->
  let endpoints := authenticatedEndpoints (analysis p) in
  let accepted e :=
    isAuthenticatedUrl (he_url e) = true
    /\ exists g, In g (JS.getOrEmpty (history d) domain) /\ In e (g_entries g) in
  length endpoints <= 5
  /\ StronglySorted visitsGe endpoints
  /\ (forall e, In e endpoints -> accepted e)
  /\ (forall e, accepted e ->
        In e endpoints
        \/ (length endpoints = 5 /\ forall x, In x endpoints -> visitsGe x e)).
Proof.
  intros Hget endpoints accepted. apply analyzeDiscoveredData_get in Hget.
  set (hs := JS.getOrEmpty (history d) domain).
  assert (Hacc : forall e, In e (authenticatedUrls hs) <-> accepted e).
  { intros e. unfold authenticatedUrls, accepted. rewrite in_flat_map. split.
    - intros [g [Hg He]]. apply filter_In in He. destruct He as [He Ha].
      split; [exact Ha | now exists g].
    - intros [Ha [g [Hg He]]]. exists g. split; [exact Hg|].
      apply filter_In. now split. }
  assert (Heq : endpoints = firstn 5 (sortByVisitsDesc (authenticatedUrls hs))).
  { unfold endpoints. subst p. unfold analyzeDomain; cbn [analysis authenticatedEndpoints].
    fold hs. destruct hs; reflexivity. }
  rewrite Heq. split; [|split; [|split]].
  - apply firstn_le_length.
  - pose proof (sortByVisitsDesc_sorted (authenticatedUrls hs)) as Hs.
    rewrite <- (firstn_skipn 5) in Hs. now apply StronglySorted_app_inv in Hs.
  - intros e He. apply Hacc, sortByVisitsDesc_In.
    rewrite <- (firstn_skipn 5). apply in_or_app. now left.
  - intros e He. apply Hacc, sortByVisitsDesc_In in He.
    apply firstn_of_sorted; [apply sortByVisitsDesc_sorted | exact He].
Qed.

Lemma X3_endpoints_witness :
  let d := mkDiscovered []
      [("bank.example", [mkGroup "h.txt"
          [mkHistoryEntry "https://bank.example/about" "About" 9%Z;
           mkHistoryEntry "https://bank.example/account" "Account" 2%Z;
           mkHistoryEntry "https://bank.example/dashboard" "Home" 7%Z] 0%Z])] [] [] in
  exists p, JS.get (analyzeDiscoveredData d) "bank.example" = Some p
            /\ length (authenticatedEndpoints (analysis p)) <= 5
            /\ StronglySorted visitsGe (authenticatedEndpoints (analysis p)).
Proof.
  intros d.
  assert (Hget : JS.get (analyzeDiscoveredData d) "bank.example"
                 = Some (analyzeDomain d "bank.example")) by (vm_compute; reflexivity).
  exists (analyzeDomain d "bank.example"). split; [exact Hget|].
  destruct (X3_endpoints_are_the_most_visited_five d "bank.example" Hget) as [Hl [Hs _]].
  split; [exact Hl | exact Hs].
Defined.

Example endpoints_in_order_of_visits :
  let d := mkDiscovered []
      [("bank.example", [mkGroup "h.txt"
          [mkHistoryEntry "https://bank.example/about" "About" 9%Z;
           mkHistoryEntry "https://bank.example/account" "Account" 2%Z;
           mkHistoryEntry "https://bank.example/dashboard" "Home" 7%Z] 0%Z])] [] [] in
  option_map (fun p => map he_url (authenticatedEndpoints (analysis p)))
             (JS.get (analyzeDiscoveredData d) "bank.example")
  = Some ["https://bank.example/dashboard"; "https://bank.example/account"].
Proof. vm_compute. reflexivity. Qed.

(** ** The session classifier, further *)

Lemma exactConfidence_threshold (a b : nat) :
  (60 <=? exactConfidence a b)%Z = true
  <-> (1190 * Z.of_nat b + 119 <= 810 * Z.of_nat a)%Z.
Proof.
  unfold exactConfidence. cbv zeta. rewrite Z.leb_le.
  set (D := (10 * (Z.of_nat a + Z.of_nat b) + 1)%Z).
  assert (HD : (0 < 2 * D)%Z) by (unfold D; lia).
  split; intros H.
  - pose proof (Z.mul_div_le (2000 * Z.of_nat a + D) (2 * D) HD) as Hm.
    unfold D in *. nia.
  - apply Z.div_le_lower_bound; [exact HD|]. unfold D. lia.
Qed.

(** X5. The verdict is [LOGGED_IN] exactly when
    [810 * loggedInScore >= 1190 * loginScore + 119], which is what the
    threshold of 60 on the rounded ratio comes to; so with no login keyword
    on the page one logged-in signal is enough. *)
Theorem X5_verdict_in_terms_of_the_scores (html title url : string) :
  let d := performDetectionAnalysis html title url in
  (isLoggedIn d = true
   <-> (1190 * Z.of_nat (loginScore d) + 119 <= 810 * Z.of_nat (loggedInScore d))%Z)
  /\ (status d = "LOGGED_IN" <-> isLoggedIn d = true)
  /\ (loginScore d = 0 -> 1 <= loggedInScore d -> status d = "LOGGED_IN").
Proof.
  intros d.
  destruct (detection_scores html title url) as [_ [_ [_ [Hconf [Hlog Hstat]]]]].
  destruct (detection_bounds html title url) as [Ba Bb].
  fold d in Hconf, Hlog, Hstat, Ba, Bb.
  assert (Hiff : isLoggedIn d = true
                 <-> (1190 * Z.of_nat (loginScore d) + 119
                      <= 810 * Z.of_nat (loggedInScore d))%Z).
  { rewrite Hlog, Hconf, (confidenceOf_exact Ba Bb).
    rewrite (threshold_exact (exactConfidence_range _ _)).
    apply exactConfidence_threshold. }
  split; [exact Hiff|]. split.
  - rewrite Hstat. destruct (isLoggedIn d); split; intros H; try reflexivity; discriminate.
  - intros H0 H1. rewrite Hstat.
    assert (Ht : isLoggedIn d = true) by (apply Hiff; lia).
    now rewrite Ht.
Qed.

Example one_keyword_is_enough :
  let d := performDetectionAnalysis "<p>Read our latest blog post</p>" "News" "" in
  loggedInScore d = 1 /\ loginScore d = 0 /\ confidence d = 91%float
  /\ status d = "LOGGED_IN".
Proof. vm_compute. repeat split. Qed.

(** ** The cookie filters, further *)

Lemma validateLine_cases (now : Z) (line : string) (acc : list PuppeteerCookie) :
  validateLine now line acc = acc
  \/ exists c,
       validateLine now line acc = acc ++ [c]
       /\ sevenFields line = true
       /\ pc_name c = JS.at_ (JS.split JS.TAB line) 5
       /\ pc_value c = JS.at_ (JS.split JS.TAB line) 6
       /\ pc_domain c = JS.at_ (JS.split JS.TAB line) 0
       /\ expiryValid (JS.parseInt (JS.at_ (JS.split JS.TAB line) 4) 10) now = true
       /\ (pc_expires c = None
           \/ exists z, pc_expires c = Some z /\ (now < z)%Z /\ (0 < z)%Z).
Proof.
  unfold validateLine, sevenFields.
  destruct (7 <=? length (JS.split JS.TAB line)); [|now left].
  destruct (expiryValid _ now) eqn:E; [|now left].
  right. eexists. split; [reflexivity|]. cbn [pc_name pc_value pc_domain pc_expires].
  repeat (split; [reflexivity|]).
  destruct (JS.parseInt _ 10) as [|z]; [now left|].
  destruct (0 <? z)%Z eqn:Ez; [|now left].
  right. exists z. apply Z.ltb_lt in Ez. split; [reflexivity|]. split; [|exact Ez].
  apply expiryValid_number in E. lia.
Qed.

(** X6. The cookies that the injection-time pass hands to the browser are
    at most as many as the lines, come from lines of seven fields in the
    order of the file, and never carry an expiry at or before the [now] of
    the pass: a cookie either has no expiry (a session cookie) or one that is
    positive and after [now]. *)
Theorem X6_validated_cookies_are_not_expired (now : Z) (lines : list string) :
  let out := fold_left (fun acc line => validateLine now line acc) lines [] in
  length out <= length lines
  /\ (forall c, In c out ->
        (pc_expires c = None \/ exists z, pc_expires c = Some z /\ (now < z)%Z /\ (0 < z)%Z)
        /\ exists line,
             In line lines /\ sevenFields line = true
             /\ pc_name c = JS.at_ (JS.split JS.TAB line) 5
             /\ pc_value c = JS.at_ (JS.split JS.TAB line) 6
             /\ pc_domain c = JS.at_ (JS.split JS.TAB line) 0).
Proof.
  cbv zeta.
  assert (G : forall acc,
             let out := fold_left (fun acc line => validateLine now line acc) lines acc in
             length out <= length acc + length lines
             /\ forall c, In c out ->
                  In c acc
                  \/ ((pc_expires c = None
                       \/ exists z, pc_expires c = Some z /\ (now < z)%Z /\ (0 < z)%Z)
                      /\ exists line,
                           In line lines /\ sevenFields line = true
                           /\ pc_name c = JS.at_ (JS.split JS.TAB line) 5
                           /\ pc_value c = JS.at_ (JS.split JS.TAB line) 6
                           /\ pc_domain c = JS.at_ (JS.split JS.TAB line) 0)).
  { induction lines as [|line lines IH]; intros acc; cbn [fold_left length].
    - split; [lia | intros c Hc; now left].
    - destruct (IH (validateLine now line acc)) as [Hlen Hin].
      destruct (validateLine_cases now line acc)
        as [E | [c0 [E [H7 [Hn [Hv [Hd [_ Hx]]]]]]]]; rewrite E in Hlen, Hin |- *.
      + split; [lia|]. intros c Hc. destruct (Hin c Hc) as [H | [Hexp [l [Hl Hr]]]];
          [now left | right]. split; [exact Hexp|]. exists l. split; [now right | exact Hr].
      + split; [rewrite length_app in Hlen; simpl in Hlen; lia|].
        intros c Hc. destruct (Hin c Hc) as [H | [Hexp [l [Hl Hr]]]].
        * apply in_app_or in H. destruct H as [H | [<- | []]]; [now left | right].
          split; [exact Hx|]. exists line. split; [now left|]. auto.
        * right. split; [exact Hexp|]. exists l. split; [now right | exact Hr]. }
  destruct (G []) as [Hlen Hin]. split; [exact Hlen|].
  intros c Hc. destruct (Hin c Hc) as [[] | H]. exact H.
Qed.

Lemma mapTotal_set_new {V} (m : JS.Map (list V)) (k : string) (v : list V) :
  JS.get m k = None -> mapTotal (JS.set m k v) = mapTotal m + length v.
Proof.
  unfold mapTotal. induction m as [|[k' v'] m IH]; simpl; intros H.
  - rewrite app_nil_r. reflexivity.
  - destruct (String.eqb k' k); [discriminate|]. simpl.
    rewrite !length_app, IH by exact H. lia.
Qed.

Lemma mapTotal_set_old {V} (m : JS.Map (list V)) (k : string) (l v : list V) :
  JS.get m k = Some l -> mapTotal (JS.set m k v) + length l = mapTotal m + length v.
Proof.
  unfold mapTotal. induction m as [|[k' v'] m IH]; simpl; intros H; [discriminate|].
  destruct (String.eqb k' k); simpl; rewrite !length_app.
  - injection H as ->. lia.
  - specialize (IH H). lia.
Qed.

Lemma mapTotal_ensure {V} (m : JS.Map (list V)) (k : string) :
  mapTotal (JS.ensure m k) = mapTotal m.
Proof.
  unfold JS.ensure, JS.has. destruct (JS.get m k) eqn:E; [reflexivity|].
  rewrite mapTotal_set_new by exact E. simpl. lia.
Qed.

Lemma mapTotal_push_ensure {V} (m : JS.Map (list V)) (k : string) (x : V) :
  mapTotal (JS.push (JS.ensure m k) k x) = S (mapTotal m).
Proof.
  unfold JS.push. rewrite get_ensure_same.
  pose proof (mapTotal_set_old (JS.ensure m k) k (JS.getOrEmpty m k ++ [x])
                (get_ensure_same m k)) as H.
  rewrite mapTotal_ensure, length_app in H. simpl in H. lia.
Qed.

(** What one turn of the discovery-time loop does, in all three cases. *)
Lemma processCookieLine_cases (line : string) (dc : JS.Map (list string)) (v e : nat)
    (w : World) :
  let key := cookieDomain (JS.split JS.TAB line) in
  (sevenFields line = false /\ processCookieLine line (dc, v, e) w = (Ok (dc, v, e), w))
  \/ (sevenFields line = true
      /\ (processCookieLine line (dc, v, e) w
          = (Ok (JS.push (JS.ensure dc key) key line, S v, e), ticked w)
          \/ processCookieLine line (dc, v, e) w
             = (Ok (JS.ensure dc key, v, S e), ticked w))).
Proof.
  intros key. rewrite processCookieLine_is_try. unfold sevenFields.
  destruct (le_lt_dec 7 (length (JS.split JS.TAB line))) as [H|H].
  - right. split; [now apply Nat.leb_le|].
    rewrite (cookieLineTry_run line dc v e w H). fold key.
    destruct (expiryValid _ _); [now left | now right].
  - left. apply Nat.leb_gt in H. split; [exact H|].
    unfold cookieLineTry. now rewrite H.
Qed.

(** X7. One discovery-time pass accounts for every line of the file: the
    loop always returns, the lines of seven fields are each counted once, as
    valid or as expired, the lines filed in the per-file map are as many as
    [validCount], each is a line of the file under the key computed from it,
    and the clock was read once for each line of seven fields. *)
Theorem X7_discovery_pass_accounts_for_every_line (lines : list string) (w : World) :
  exists dc v e w',
    forOf lines processCookieLine ([], 0, 0) w = (Ok (dc, v, e), w')
    /\ v + e = length (filter sevenFields lines)
    /\ mapTotal dc = v
    /\ ticks w' = ticks w + length (filter sevenFields lines)
    /\ forall k ls x, JS.get dc k = Some ls -> In x ls ->
         In x lines /\ sevenFields x = true /\ cookieDomain (JS.split JS.TAB x) = k.
Proof.
  assert (G : forall (P : string -> string -> Prop) lines dc v e w,
             (forall k ls x, JS.get dc k = Some ls -> In x ls -> P k x) ->
             (forall x, In x lines -> sevenFields x = true ->
                        P (cookieDomain (JS.split JS.TAB x)) x) ->
             exists dc' v' e' w',
               forOf lines processCookieLine (dc, v, e) w = (Ok (dc', v', e'), w')
               /\ v' + e' = v + e + length (filter sevenFields lines)
               /\ mapTotal dc' + v = mapTotal dc + v'
               /\ ticks w' = ticks w + length (filter sevenFields lines)
               /\ forall k ls x, JS.get dc' k = Some ls -> In x ls -> P k x).
  { intros P. induction lines0 as [|line rest IH]; intros dc v e w0 Hdc Hl.
    - exists dc, v, e, w0. cbn. repeat split; try lia. exact Hdc.
    - cbn [forOf filter]. unfold bind at 1.
      assert (Hrest : forall x, In x rest -> sevenFields x = true ->
                                P (cookieDomain (JS.split JS.TAB x)) x).
      { intros x Hx. apply Hl. now right. }
      set (key := cookieDomain (JS.split JS.TAB line)).
      assert (Hens : forall k ls x, JS.get (JS.ensure dc key) k = Some ls -> In x ls -> P k x).
      { intros k ls x Hg Hx. destruct (string_dec k key) as [->|Hne].
        - rewrite get_ensure_same in Hg. injection Hg as <-.
          unfold JS.getOrEmpty in Hx. destruct (JS.get dc key) eqn:E; [|destruct Hx].
          eapply Hdc; eauto.
        - rewrite get_ensure_other in Hg by exact Hne. eapply Hdc; eauto. }
      destruct (processCookieLine_cases line dc v e w0) as [[H7 E] | [H7 [E | E]]];
        fold key in E; rewrite E, H7.
      + destruct (IH dc v e w0 Hdc Hrest) as [dc' [v' [e' [w' [R [C [T [K I]]]]]]]].
        exists dc', v', e', w'. repeat split; auto.
      + destruct (IH (JS.push (JS.ensure dc key) key line) (S v) e (ticked w0))
          as [dc' [v' [e' [w' [R [C [T [K I]]]]]]]]; [|exact Hrest|].
        * intros k ls x Hg Hx. destruct (string_dec k key) as [->|Hne].
          -- rewrite (get_push_same _ _ _ (get_ensure_same dc key)) in Hg.
             injection Hg as <-. apply in_app_or in Hx. destruct Hx as [Hx | [<- | []]].
             ++ apply (Hens key (JS.getOrEmpty dc key) x); [apply get_ensure_same | exact Hx].
             ++ apply Hl; [now left | exact H7].
          -- rewrite get_push_other in Hg by exact Hne. eapply Hens; eauto.
        * exists dc', v', e', w'. rewrite mapTotal_push_ensure in T. cbn [length].
          cbn [ticked ticks] in K. repeat split; auto; lia.
      + destruct (IH (JS.ensure dc key) v (S e) (ticked w0) Hens Hrest)
          as [dc' [v' [e' [w' [R [C [T [K I]]]]]]]].
        exists dc', v', e', w'. rewrite mapTotal_ensure in T. cbn [length].
        cbn [ticked ticks] in K. repeat split; auto; lia. }
  destruct (G (fun k x => In x lines /\ sevenFields x = true
                          /\ cookieDomain (JS.split JS.TAB x) = k) lines [] 0 0 w)
    as [dc [v [e [w' [R [C [T [K I]]]]]]]].
  - intros k ls x H. discriminate H.
  - intros x Hx H7. auto.
  - exists dc, v, e, w'. cbn in T. repeat split; auto; try lia.
    all: eapply I; eauto.
Qed.

(** ** The injector, further *)

(** X8. [injectCookiesWithT1Timing] touches the injection statistics only
    when it returns: then [totalDomains] and [successfulInjections] are one
    more each, the result reports at least one cookie and an injection time
    of 3500 ms at least (the three delays), and nothing else in the heap has
    changed; when it throws, the heap is as it was, so [failedInjections] is
    never counted up. *)
Theorem X8_injection_statistics (cookiePath domain : string) (w : World) :
  match injectCookiesWithT1Timing cookiePath domain w with
  | (Ok ir, w') =>
      totalDomains (injectionStats (heap w')) = S (totalDomains (injectionStats (heap w)))
      /\ successfulInjections (injectionStats (heap w'))
         = S (successfulInjections (injectionStats (heap w)))
      /\ failedInjections (injectionStats (heap w')) = failedInjections (injectionStats (heap w))
      /\ discoveredData (heap w') = discoveredData (heap w)
      /\ stats (heap w') = stats (heap w)
      /\ analysisResults (heap w') = analysisResults (heap w)
      /\ results (heap w') = results (heap w)
      /\ ir_domain ir = domain
      /\ 1 <= ir_cookieCount ir
      /\ (3500 <= ir_injectionTime ir)%Z
  | (Throw _, w') => heap w' = heap w
  end.
Proof.
  unfold injectCookiesWithT1Timing, bind.
  rewrite Date_now_run, sleep_run.
  unfold readAndValidateCookies, bind. rewrite readFileSync_run.
  cbn [slept ticked files].
  destruct (files w cookiePath) as [[content mtime]|]; [|reflexivity].
  rewrite nowSeconds_run. unfold ret.
  set (cookies := fold_left _ _ _).
  destruct (length cookies =? 0) eqn:Elen; [reflexivity|].
  apply Nat.eqb_neq in Elen.
  rewrite driver_run.
  destruct (failure _); [reflexivity|].
  unfold ret. rewrite sleep_run, emit_run, sleep_run, Date_now_run, modifyHeap_run, Date_now_run.
  cbn [heap withHeap ticked slept emitted onInjectionStats injectionStats recordInjection
       totalDomains successfulInjections failedInjections discoveredData stats
       analysisResults results ir_domain ir_cookieCount ir_injectionTime now_ms].
  repeat (split; [reflexivity|]). split; [lia|].
  unfold CONFIG.t_minus_1_delay, CONFIG.injection_delay, CONFIG.navigation_delay. lia.
Qed.

(** ** The session analyzer, further *)

Lemma substring0_length (n : nat) (s : string) : String.length (substring0 n s) <= n.
Proof.
  unfold substring0. revert s. induction n as [|n IH]; intros s.
  - destruct s; simpl; lia.
  - destruct s as [|c s]; simpl; [lia|]. specialize (IH s). lia.
Qed.

(** X9. [analyzeSession] waits the analysis delay and then reads the markup,
    the title and the URL of the page, in this order (the third, fourth and
    fifth interaction from its start). When the three reads succeed it
    records exactly one analysis, the one it returns: its verdict is the
    classifier's on what these three reads gave, its URL is the one read, its
    title the one read cut to 100 characters, its lengths those of the markup
    and of the whole title, and [redirected] says whether the URL read differs
    from the test URL. When a read throws, its error is thrown on, the later
    reads are not made and nothing is recorded. *)
Theorem X9_analyzeSession_records_what_it_returns (domain testUrl : string) (w : World) :
  let html := payload (stepAt w 2) in
  let title := payload (stepAt w 3) in
  let url := payload (stepAt w 4) in
  match analyzeSession domain testUrl w with
  | (Ok a, w') =>
      failure (stepAt w 2) = None /\ failure (stepAt w 3) = None
      /\ failure (stepAt w 4) = None
      /\ detection a = performDetectionAnalysis html title url
      /\ sa_actualUrl a = url
      /\ sa_title a = substring0 100 title
      /\ sa_htmlLength a = String.length html
      /\ sa_titleLength a = String.length title
      /\ (exists t1 t2 t3,
            trace w' = [(t3, EvUrl); (t2, EvTitle); (t1, EvContent)] ++ trace w
            /\ (now_ms w + 3000 <= t1 <= t2)%Z /\ (t2 <= t3 <= now_ms w')%Z)
      /\ analysisResults (heap w') = analysisResults (heap w) ++ [a]
      /\ results (heap w') = results (heap w)
      /\ sa_domain a = domain /\ sa_testUrl a = testUrl
      /\ String.length (sa_title a) <= 100
      /\ sa_redirected a = negb (String.eqb (sa_actualUrl a) testUrl)
      /\ (3000 <= sa_analysisTime a)%Z
      /\ (now_ms w + 3000 <= now_ms w')%Z
  | (Throw msg, w') =>
      heap w' = heap w
      /\ (failure (stepAt w 2) = Some msg /\ map snd (trace w') = EvContent :: map snd (trace w)
          \/ failure (stepAt w 2) = None /\ failure (stepAt w 3) = Some msg
             /\ map snd (trace w') = EvTitle :: EvContent :: map snd (trace w)
          \/ failure (stepAt w 2) = None /\ failure (stepAt w 3) = None
             /\ failure (stepAt w 4) = Some msg
             /\ map snd (trace w') = EvUrl :: EvTitle :: EvContent :: map snd (trace w))
  end.
Proof.
  unfold stepAt. cbn [Nat.add]. cbv zeta.
  unfold analyzeSession, bind, tryCatch.
  rewrite Date_now_run, sleep_run. unfold bind.
  rewrite driver_run. cbn [ticked slept emitted oracle ticks].
  destruct (failure (oracle w (S (S (ticks w))))) as [m1|] eqn:F1.
  { split; [reflexivity|]. left. split; reflexivity. }
  unfold ret. rewrite driver_run. cbn [ticked slept emitted oracle ticks].
  destruct (failure (oracle w (S (S (S (ticks w)))))) as [m2|] eqn:F2.
  { split; [reflexivity|]. right. left. repeat split; reflexivity. }
  rewrite driver_run. cbn [ticked slept emitted oracle ticks].
  destruct (failure (oracle w (S (S (S (S (ticks w))))))) as [m3|] eqn:F3.
  { split; [reflexivity|]. right. right. repeat split; reflexivity. }
  rewrite Date_now_run, Date_now_run, modifyHeap_run.
  cbn [heap withHeap ticked slept emitted pushAnalysis analysisResults results
       sa_domain sa_testUrl sa_title sa_redirected sa_actualUrl sa_analysisTime
       detection sa_htmlLength sa_titleLength now_ms oracle ticks trace].
  repeat (split; [reflexivity|]).
  split. { eexists _, _, _. split; [reflexivity|]. unfold CONFIG.analysis_delay. lia. }
  repeat (split; [reflexivity|]).
  split; [apply substring0_length|]. split; [reflexivity|].
  unfold CONFIG.analysis_delay.
  split; lia.
Qed.

(** ** The testing loop, further *)

Lemma kept_ret {A} (a : A) : resultsKept (ret a).
Proof. intros w r w' H. now injection H as <- <-. Qed.

Lemma kept_throw {A} (msg : string) : resultsKept (@throw A msg).
Proof. intros w r w' H. now injection H as <- <-. Qed.

Lemma kept_bind {A B} (c : M A) (k : A -> M B) :
  resultsKept c -> (forall a, resultsKept (k a)) -> resultsKept (bind c k).
Proof.
  intros Hc Hk w r w' H. apply bind_run in H.
  destruct H as [[a [w1 [H1 H2]]] | [e [H1 _]]].
  - rewrite (Hk a _ _ _ H2). exact (Hc _ _ _ H1).
  - exact (Hc _ _ _ H1).
Qed.

Lemma kept_tryCatch {A} (c : M A) (h : string -> M A) :
  resultsKept c -> (forall e, resultsKept (h e)) -> resultsKept (tryCatch c h).
Proof.
  intros Hc Hh w r w' H. unfold tryCatch in H.
  destruct (c w) as [[a|e] w1] eqn:E.
  - injection H as <- <-. exact (Hc _ _ _ E).
  - rewrite (Hh e _ _ _ H). exact (Hc _ _ _ E).
Qed.

Lemma kept_world {A} (c : M A) :
  (forall w, results (heap (snd (c w))) = results (heap w)) -> resultsKept c.
Proof. intros Hc w r w' H. specialize (Hc w). now rewrite H in Hc. Qed.

Lemma kept_tick : resultsKept tick.
Proof. now apply kept_world. Qed.

Lemma kept_Date_now : resultsKept Date_now.
Proof. now apply kept_world. Qed.

Lemma kept_nowSeconds : resultsKept nowSeconds.
Proof. now apply kept_world. Qed.

Lemma kept_sleep (ms : Z) : resultsKept (sleep ms).
Proof. now apply kept_world. Qed.

Lemma kept_emit (e : Event) : resultsKept (emit e).
Proof. now apply kept_world. Qed.

Lemma kept_readFileSync (path : string) : resultsKept (readFileSync path).
Proof. apply kept_world. intros w. now rewrite readFileSync_run. Qed.

Lemma kept_driver (e : Event) : resultsKept (driver e).
Proof. apply kept_world. intros w. now rewrite driver_run. Qed.

Lemma kept_modifyHeap (f : Heap -> Heap) :
  (forall h, results (f h) = results h) -> resultsKept (modifyHeap f).
Proof. intros Hf. apply kept_world. intros w. simpl. apply Hf. Qed.

Ltac kept_step :=
  first
    [ apply kept_ret | apply kept_throw | apply kept_tick | apply kept_Date_now
    | apply kept_nowSeconds | apply kept_sleep | apply kept_emit | apply kept_driver
    | apply kept_readFileSync
    | apply kept_modifyHeap; intros ?; reflexivity
    | apply kept_bind; [|intros ?]
    | apply kept_tryCatch; [|intros ?] ].

Ltac kept_auto := repeat kept_step.

Lemma kept_injectCookiesWithT1Timing (cookiePath domain : string) :
  resultsKept (injectCookiesWithT1Timing cookiePath domain).
Proof.
  unfold injectCookiesWithT1Timing, readAndValidateCookies. kept_auto.
  destruct (_ =? 0); kept_auto.
Qed.

Lemma kept_determineTestUrl (cookieFilePath domain : string) :
  resultsKept (determineTestUrl cookieFilePath domain).
Proof. unfold determineTestUrl. kept_auto. destruct (headerEndpoint _); kept_auto. Qed.

Lemma kept_analyzeSession (domain testUrl : string) :
  resultsKept (analyzeSession domain testUrl).
Proof. unfold analyzeSession. kept_auto. Qed.

Lemma kept_saveVerifiedSession (result : TestResult) (originalCookiePath : string) :
  resultsKept (saveVerifiedSession result originalCookiePath).
Proof. unfold saveVerifiedSession. kept_auto. Qed.

Lemma analyzeSession_domain (domain testUrl : string) (w w' : World) (a : SessionAnalysis) :
  analyzeSession domain testUrl w = (Ok a, w') -> sa_domain a = domain.
Proof.
  unfold analyzeSession, bind, tryCatch.
  rewrite Date_now_run, sleep_run. unfold bind.
  rewrite driver_run. destruct (failure _); [discriminate|].
  unfold ret. rewrite driver_run. destruct (failure _); [discriminate|].
  rewrite driver_run. destruct (failure _); [discriminate|].
  rewrite Date_now_run, Date_now_run, modifyHeap_run.
  intros H. injection H as <- _. reflexivity.
Qed.

(** What the [try] block leaves in [results]: nothing when it throws before
    the test is complete, else the one completed test, whether or not a later
    step throws. *)
Lemma autoTestTry_results (cookieFile : CookieFile) (domain : string)
    (w : World) (r : Res unit) (w' : World) :
  autoTestTry cookieFile domain w = (r, w') ->
  (results (heap w') = results (heap w) /\ exists e, r = Throw e)
  \/ exists ir a u,
       results (heap w') = results (heap w) ++ [Tested ir a u] /\ sa_domain a = domain.
Proof.
  unfold autoTestTry. intros H.
  assert (Step : forall {A B} (c : M A) (k : A -> M B) w0 r0 w0',
             bind c k w0 = (r0, w0') -> resultsKept c ->
             (results (heap w0') = results (heap w0) /\ exists e, r0 = Throw e)
             \/ exists a w1, c w0 = (Ok a, w1) /\ k a w1 = (r0, w0')
                             /\ results (heap w1) = results (heap w0)).
  { intros A B c k w0 r0 w0' Hb Hc. apply bind_run in Hb.
    destruct Hb as [[a [w1 [H1 H2]]] | [e [H1 ->]]].
    - right. exists a, w1. split; [exact H1|]. split; [exact H2 | exact (Hc _ _ _ H1)].
    - left. split; [exact (Hc _ _ _ H1) | now exists e]. }
  apply Step in H; [|apply kept_driver].
  destruct H as [H | [_ [w1 [_ [H K1]]]]]; [now left|].
  apply Step in H; [|apply kept_injectCookiesWithT1Timing].
  destruct H as [[H He] | [ir [w2 [_ [H K2]]]]]; [left; split; [congruence | exact He]|].
  apply Step in H; [|apply kept_determineTestUrl].
  destruct H as [[H He] | [u [w3 [_ [H K3]]]]]; [left; split; [congruence | exact He]|].
  apply Step in H; [|apply kept_driver].
  destruct H as [[H He] | [_ [w4 [_ [H K4]]]]]; [left; split; [congruence | exact He]|].
  apply Step in H; [|apply kept_analyzeSession].
  destruct H as [[H He] | [a [w5 [Ha [H K5]]]]]; [left; split; [congruence | exact He]|].
  right. exists ir, a, u. split; [|exact (analyzeSession_domain _ _ _ Ha)].
  unfold bind at 1 in H. rewrite modifyHeap_run in H.
  assert (Hrest : resultsKept
            ((if isLoggedIn (detection a)
              then saveVerifiedSession (Tested ir a u) (cf_path cookieFile) ;;;
                   driver (EvScreenshot ("screenshots/" ++ domain ++ "_auto_success.png")%string) ;;;
                   ret tt
              else ret tt) ;;; driver EvPageClose ;;; ret tt)).
  { apply kept_bind; [|intros _; kept_auto].
    destruct (isLoggedIn (detection a)); [|kept_auto].
    apply kept_bind; [apply kept_saveVerifiedSession | intros _; kept_auto]. }
  rewrite (Hrest _ _ _ H). cbn [withHeap heap pushResult results]. congruence.
Qed.

(** X10. One iteration of the testing loop always returns and adds one
    result or two for the domain of its file: the completed test, or the
    error, or both, the completed test being recorded once more as an error
    when saving it, the screenshot or closing the page throws. A run over
    [n] files therefore leaves between [n] and [2 n] results. *)
Theorem X10_an_iteration_records_one_or_two_results :
  (forall (cookieFile : CookieFile) (w : World),
      let domain := domainOfFile cookieFile in
      exists w' added,
        autoTestOne cookieFile w = (Ok tt, w')
        /\ results (heap w') = results (heap w) ++ added
        /\ ((exists ir a u, added = [Tested ir a u] /\ sa_domain a = domain)
            \/ (exists msg t, added = [Errored domain msg t])
            \/ (exists ir a u msg t,
                  added = [Tested ir a u; Errored domain msg t] /\ sa_domain a = domain)))
  /\ (forall (cookieFiles : list CookieFile) (w : World),
      exists w' added,
        autoTestLoop cookieFiles w = (Ok tt, w')
        /\ results (heap w') = results (heap w) ++ added
        /\ length cookieFiles <= length added <= 2 * length cookieFiles).
Proof.
  assert (One : forall cookieFile w,
             exists w' added,
               autoTestOne cookieFile w = (Ok tt, w')
               /\ results (heap w') = results (heap w) ++ added
               /\ ((exists ir a u, added = [Tested ir a u]
                                   /\ sa_domain a = domainOfFile cookieFile)
                   \/ (exists msg t, added = [Errored (domainOfFile cookieFile) msg t])
                   \/ (exists ir a u msg t,
                         added = [Tested ir a u; Errored (domainOfFile cookieFile) msg t]
                         /\ sa_domain a = domainOfFile cookieFile))).
  { intros cookieFile w. unfold autoTestOne, bind, tryCatch.
    destruct (autoTestTry cookieFile (domainOfFile cookieFile) w) as [[[]|e] w1] eqn:E;
      apply autoTestTry_results in E.
    - rewrite sleep_run. destruct E as [[_ [e He]] | [ir [a [u [Hr Hd]]]]]; [discriminate|].
      eexists _, [Tested ir a u]. split; [reflexivity|]. split; [exact Hr|].
      left. now exists ir, a, u.
    - unfold autoTestCatch, bind. rewrite Date_now_run, modifyHeap_run, sleep_run.
      destruct E as [[Hr _] | [ir [a [u [Hr Hd]]]]].
      + eexists _, [Errored _ e _]. split; [reflexivity|].
        cbn [slept withHeap ticked heap pushResult results]. rewrite Hr.
        split; [reflexivity|]. right. left. eauto.
      + eexists _, [Tested ir a u; Errored _ e _]. split; [reflexivity|].
        cbn [slept withHeap ticked heap pushResult results]. rewrite Hr, <- app_assoc.
        split; [reflexivity|]. right. right. exists ir, a, u. eauto. }
  split; [exact One|].
  intros files. induction files as [|cf rest IH]; intros w.
  - exists w, []. rewrite autoTestLoop_nil, app_nil_r. simpl. auto.
  - destruct (One cf w) as [w1 [a1 [E1 [R1 S1]]]].
    destruct (IH w1) as [w2 [a2 [E2 [R2 L2]]]].
    exists w2, (a1 ++ a2). rewrite (@autoTestLoop_cons cf rest w w1 E1).
    split; [exact E2|]. split; [rewrite R2, R1; now rewrite app_assoc|].
    rewrite length_app. cbn [length].
    assert (1 <= length a1 <= 2).
    { destruct S1 as [[? [? [? [-> _]]]] | [[? [? ->]] | [? [? [? [? [? [-> _]]]]]]]];
        simpl; lia. }
    lia.
Qed.

(** ** The file dispatcher *)

Section ProcessFileProperties.

Variable URL_hostname : string -> option string.
Variable path_basename : string -> string.
Variable path_relative : string -> string -> string.

(** X11. [processFile] never throws and counts every file once in
    [totalFiles]. A file whose lower-cased name does not end in [.txt]
    leaves everything else as it was. A name that contains [cookies] and ends
    in [.txt] is handled as a cookie file only, whatever else it contains,
    and [cookieFiles] grows exactly when [processCookieFile] returns; the
    other counters stay. In every case no counter decreases and the four
    counters of the kinds grow by one at most together. *)
Theorem X11_processFile_counts_each_file_once
    (counts : FileCounts) (filePath rootDir : string) (w : World) :
  let fileName := JS.toLowerCase (path_basename filePath) in
  exists counts' w',
    processFile URL_hostname path_basename path_relative counts filePath rootDir w
    = (Ok counts', w')
    /\ totalFiles counts' = S (totalFiles counts)
    /\ cookieFiles counts <= cookieFiles counts'
    /\ historyFiles counts <= historyFiles counts'
    /\ passwordFiles counts <= passwordFiles counts'
    /\ autofillFiles counts <= autofillFiles counts'
    /\ kindFiles counts' <= S (kindFiles counts)
    /\ (endsWith fileName ".txt" = false -> w' = w /\ kindFiles counts' = kindFiles counts)
    /\ (JS.includes fileName "cookies" = true -> endsWith fileName ".txt" = true ->
        w' = snd (processCookieFile filePath (path_relative rootDir filePath) w)
        /\ historyFiles counts' = historyFiles counts
        /\ passwordFiles counts' = passwordFiles counts
        /\ autofillFiles counts' = autofillFiles counts
        /\ (cookieFiles counts' = S (cookieFiles counts)
            <-> exists w1, processCookieFile filePath (path_relative rootDir filePath) w
                           = (Ok tt, w1))).
Proof.
  intros fileName. unfold processFile. fold fileName.
  set (rel := path_relative rootDir filePath).
  unfold tryCatch, bind, kindFiles.
  destruct (endsWith fileName ".txt") eqn:Etxt; rewrite ?andb_false_r, ?andb_true_r.
  - destruct (JS.includes fileName "cookies") eqn:Ec.
    { destruct (processCookieFile filePath rel w) as [[[]|e] w1] eqn:E;
        unfold ret; eexists _, _; (split; [reflexivity|]); cbn;
        repeat (split; [lia || discriminate|]); intros _ _;
        repeat (split; [reflexivity|]); split.
      - intros _. now exists w1.
      - reflexivity.
      - lia.
      - intros [w2 Hw]. discriminate. }
    destruct (JS.includes fileName "history").
    { destruct (processHistoryFile URL_hostname filePath rel w) as [[[]|e] w1];
        unfold ret; eexists _, _; (split; [reflexivity|]); cbn;
        repeat (split; [lia || discriminate|]); discriminate. }
    destruct (JS.includes fileName "password").
    { destruct (processPasswordFile URL_hostname filePath rel w) as [[[]|e] w1];
        unfold ret; eexists _, _; (split; [reflexivity|]); cbn;
        repeat (split; [lia || discriminate|]); discriminate. }
    destruct (JS.includes fileName "autofill").
    { destruct (processAutofillFile URL_hostname filePath rel w) as [[[]|e] w1];
        unfold ret; eexists _, _; (split; [reflexivity|]); cbn;
        repeat (split; [lia || discriminate|]); discriminate. }
    unfold ret; eexists _, _; (split; [reflexivity|]); cbn;
      repeat (split; [lia || discriminate|]); discriminate.
  - unfold ret; eexists _, _; (split; [reflexivity|]); cbn.
    repeat (split; [lia|]). split; [intros _; split; [reflexivity | lia]|].
    discriminate.
Qed.

End ProcessFileProperties.

(** ** The names of the prepared files *)

Lemma length_append (a b : string) :
  String.length (a ++ b) = String.length a + String.length b.
Proof. induction a as [|c a IH]; simpl; [reflexivity | now rewrite IH]. Qed.

Lemma substring_append_all (a b : string) :
  String.substring 0 (String.length a) (a ++ b) = a.
Proof. induction a as [|c a IH]; simpl; [now destruct b | now rewrite IH]. Qed.

Lemma substring_append_rest (a b : string) :
  String.substring (String.length a) (String.length b) (a ++ b) = b.
Proof.
  induction a as [|c a IH]; simpl; [|exact IH].
  induction b as [|c b IH]; simpl; [reflexivity | now rewrite IH].
Qed.

Lemma charCodeAt_append_right (a b : string) (k : nat) :
  charCodeAt (a ++ b) (k + String.length a) = charCodeAt b k.
Proof. unfold charCodeAt. now rewrite <- append_correct2. Qed.

Lemma charCodeAt_without (c : ascii) (a b : string) (i : nat) :
  without c a = true -> i < String.length a ->
  Ascii.eqb (charCodeAt (a ++ b) i) c = false.
Proof.
  unfold charCodeAt. intros Hw Hi. rewrite <- (@append_correct1 a b i Hi).
  revert i Hi. unfold without, chars in Hw.
  induction a as [|x a IH]; intros i Hi; [simpl in Hi; lia|].
  simpl in Hw. apply andb_prop in Hw. destruct Hw as [Hx Ha].
  destruct i as [|i]; simpl.
  - now apply negb_true_iff in Hx.
  - apply IH; [exact Ha | simpl in Hi; lia].
Qed.

Lemma basenameSuffixLoop_rest (d suffix : string) (e f : Z) (n : nat) :
  without "/" d = true -> n <= String.length d -> f <> (-1)%Z ->
  basenameSuffixLoop (d ++ suffix) suffix n false (-1) e f = (0%Z, e, f).
Proof.
  intros Hd Hn Hf. induction n as [|i IH]; [reflexivity|].
  cbn [basenameSuffixLoop].
  rewrite (@charCodeAt_without "/" d suffix i Hd) by lia.
  replace (f =? -1)%Z with false by (symmetry; now apply Z.eqb_neq).
  cbn. apply IH. lia.
Qed.

Lemma basenameSuffixLoop_match (path suffix : string) (i : nat) (m : bool) (x e f : Z) :
  Ascii.eqb (charCodeAt path i) "/" = false ->
  (0 <=? x)%Z = true ->
  Ascii.eqb (charCodeAt path i) (charCodeAt suffix (Z.to_nat x)) = true ->
  basenameSuffixLoop path suffix (S i) m x e f
  = basenameSuffixLoop path suffix i (if (f =? -1)%Z then false else m) (x - 1)%Z
      (if (x - 1 =? -1)%Z then Z.of_nat i else e)
      (if (f =? -1)%Z then (Z.of_nat i + 1)%Z else f).
Proof. intros H1 H2 H3. cbn [basenameSuffixLoop]. rewrite H1, H2, H3. reflexivity. Qed.

Lemma basenameTxt_of_txt (d : string) :
  d <> EmptyString -> without "/" d = true -> basenameTxt (d ++ ".txt") = d.
Proof.
  intros Hne Hd. unfold basenameTxt, basename.
  assert (Hlen : 0 < String.length d) by (destruct d; [contradiction | simpl; lia]).
  rewrite length_append. change (String.length ".txt") with 4.
  replace (4 <=? String.length d + 4) with true by (symmetry; apply Nat.leb_le; lia).
  cbn [Nat.ltb Nat.leb andb].
  replace (String.eqb ".txt" (d ++ ".txt")) with false.
  2:{ symmetry. apply String.eqb_neq. intros H. apply (f_equal String.length) in H.
      rewrite length_append in H. simpl in H. lia. }
  replace (String.length d + 4) with (S (3 + String.length d)) by lia.
  change (Z.of_nat 4 - 1)%Z with 3%Z.
  rewrite basenameSuffixLoop_match
    by (try rewrite (charCodeAt_append_right d ".txt" 3); reflexivity).
  change (-1 =? -1)%Z with true. change (3 - 1 =? -1)%Z with false.
  change (3 - 1)%Z with 2%Z. cbv iota.
  remember (Z.of_nat (3 + String.length d) + 1)%Z as f eqn:Ef.
  assert (Hf : (f =? -1)%Z = false) by (apply Z.eqb_neq; lia).
  change (3 + String.length d) with (S (2 + String.length d)).
  rewrite basenameSuffixLoop_match
    by (try rewrite (charCodeAt_append_right d ".txt" 2); reflexivity).
  rewrite Hf. change (2 - 1 =? -1)%Z with false. change (2 - 1)%Z with 1%Z. cbv iota.
  change (2 + String.length d) with (S (1 + String.length d)).
  rewrite basenameSuffixLoop_match
    by (try rewrite (charCodeAt_append_right d ".txt" 1); reflexivity).
  rewrite Hf. change (1 - 1 =? -1)%Z with false. change (1 - 1)%Z with 0%Z. cbv iota.
  change (1 + String.length d) with (S (0 + String.length d)).
  rewrite basenameSuffixLoop_match
    by (try rewrite (charCodeAt_append_right d ".txt" 0); reflexivity).
  rewrite Hf. change (0 - 1 =? -1)%Z with true. change (0 - 1)%Z with (-1)%Z. cbv iota.
  change (0 + String.length d) with (String.length d).
  rewrite (@basenameSuffixLoop_rest d ".txt" _ _ (String.length d) Hd (le_n _))
    by lia.
  replace (0 =? Z.of_nat (String.length d))%Z with false
    by (symmetry; apply Z.eqb_neq; lia).
  replace (Z.of_nat (String.length d) =? -1)%Z with false
    by (symmetry; apply Z.eqb_neq; lia).
  unfold slice.
  replace (Z.of_nat (String.length d) <=? 0)%Z with false
    by (symmetry; apply Z.leb_gt; lia).
  rewrite Z.sub_0_r, Nat2Z.id. apply substring_append_all.
Qed.

Example basename_cases :
  basenameTxt "example_com.txt" = "example_com"
  /\ basenameTxt ".txt" = ""
  /\ basenameTxt "a/b.txt" = "b"
  /\ basenameTxt "dir/.txt" = ".txt"
  /\ basenameTxt "notes.md" = "notes.md"
  /\ basenameTxt "a/b" = "b"
  /\ basenameTxt "txt" = "txt"
  /\ basenameTxt "a/b.txt/" = "b"
  /\ basenameTxt "atxt" = "atxt"
  /\ basenameTxt "" = "".
Proof. vm_compute. repeat split. Qed.

Lemma safeDomainOf_without_bracket (s : string) :
  without "]" s = true -> safeDomainOf s = s.
Proof.
  unfold without, chars. induction s as [|c1 t IH]; intros H; [reflexivity|].
  simpl in H. apply andb_prop in H. destruct H as [_ Ht].
  specialize (IH Ht).
  destruct t as [|c2 [|c3 [|c4 r]]]; try (cbn [safeDomainOf] in *; now rewrite ?IH).
  change (safeDomainOf (String c1 (String c2 (String c3 (String c4 r)))))
    with (if negb (JS.isWordDotDash c1) && negb (Ascii.eqb c1 "[") && negb (Ascii.eqb c1 "^")
             && negb (JS.isWordDotDash c2) && Ascii.eqb c3 "-" && Ascii.eqb c4 "]"
          then String "_" (safeDomainOf r)
          else String c1 (safeDomainOf (String c2 (String c3 (String c4 r))))).
  simpl in Ht. apply andb_prop in Ht. destruct Ht as [_ Ht].
  apply andb_prop in Ht. destruct Ht as [_ Ht].
  apply andb_prop in Ht. destruct Ht as [H4 _].
  apply negb_true_iff in H4. rewrite H4, andb_false_r. now rewrite IH.
Qed.

Lemma replaceAllChar_without (a b : ascii) (s : string) :
  without a s = true -> replaceAllChar a b s = s.
Proof.
  unfold without, chars. induction s as [|c s IH]; simpl; intros H; [reflexivity|].
  apply andb_prop in H. destruct H as [Hc Hs]. apply negb_true_iff in Hc.
  now rewrite Hc, IH.
Qed.

Lemma replaceAllChar_removes (a b : ascii) (s : string) :
  a <> b -> without a (replaceAllChar a b s) = true.
Proof.
  intros Hab. unfold without, chars. induction s as [|c s IH]; simpl; [reflexivity|].
  rewrite IH, andb_true_r. destruct (Ascii.eqb c a) eqn:E.
  - apply negb_true_iff, Ascii.eqb_neq. congruence.
  - now rewrite E.
Qed.

(** X12. The name of a prepared file gives the domain back: for a domain
    that is not empty and has no slash, no underscore and no closing bracket
    (every host name is such), the sanitizer of [saveWorkableData] leaves the
    domain as it is and the testing loop recovers it from the file name
    [<domain>.txt] with [path.basename]. The domain the loop derives from any
    file name has no underscore, so a domain key with an underscore is never
    recovered. *)
Theorem X12_prepared_file_name_gives_the_domain_back
    (d path : string)
    (Hnonempty : d <> EmptyString)
    (Hslash : without "/" d = true)
    (Hbracket : without "]" d = true)
    (Hunderscore : without "_" d = true) :
  safeDomainOf d = d
  /\ domainOfFile (mkCookieFile (safeDomainOf d ++ ".txt") path) = d
  /\ forall cookieFile, without "_" (domainOfFile cookieFile) = true.
Proof.
  split; [now apply safeDomainOf_without_bracket|]. split.
  - unfold domainOfFile. cbn [cf_file].
    rewrite (safeDomainOf_without_bracket d Hbracket),
      (basenameTxt_of_txt Hnonempty Hslash).
    now apply replaceAllChar_without.
  - intros cookieFile. apply replaceAllChar_removes. discriminate.
Qed.

Lemma X12_prepared_file_name_witness :
  safeDomainOf "mail.example-site.com" = "mail.example-site.com"
  /\ domainOfFile (mkCookieFile (safeDomainOf "mail.example-site.com" ++ ".txt")
                                "prepared_cookies/mail.example-site.com.txt")
     = "mail.example-site.com"
  /\ forall cookieFile, without "_" (domainOfFile cookieFile) = true.
Proof.
  apply (@X12_prepared_file_name_gives_the_domain_back "mail.example-site.com"
           "prepared_cookies/mail.example-site.com.txt").
  - discriminate.
  - reflexivity.
  - reflexivity.
  - reflexivity.
Defined.

(** A file name with directories in front of it gives the domain of its last
    component, and the file [.txt] gives the empty domain. *)
Example domain_of_other_file_names :
  domainOfFile (mkCookieFile "a/b_c.txt" "p") = "b.c"
  /\ domainOfFile (mkCookieFile ".txt" "p") = "".
Proof. vm_compute. split; reflexivity. Qed.

Example underscore_domain_is_not_recovered :
  domainOfFile (mkCookieFile (safeDomainOf "my_shop.example.com" ++ ".txt") "p")
  = "my.shop.example.com".
Proof. reflexivity. Qed.

(** ** The prepared cookie files *)

Lemma append_assoc (a b c : string) : ((a ++ b) ++ c = a ++ (b ++ c))%string.
Proof. induction a as [|x a IH]; simpl; [reflexivity | now rewrite IH]. Qed.

Lemma without_append (c : ascii) (a b : string) :
  without c (a ++ b)%string = without c a && without c b.
Proof.
  unfold without, chars. induction a as [|x a IH]; simpl; [reflexivity|].
  now rewrite IH, andb_assoc.
Qed.

Lemma split_without (sep : ascii) (s : string) :
  without sep s = true -> JS.split sep s = [s].
Proof.
  unfold without, chars. induction s as [|x s IH]; simpl; intros H; [reflexivity|].
  apply andb_prop in H. destruct H as [Hx Hs]. apply negb_true_iff in Hx.
  now rewrite Hx, (IH Hs).
Qed.

Lemma split_nonempty (sep : ascii) (s : string) : JS.split sep s <> [].
Proof.
  induction s as [|x s IH]; simpl; [discriminate|].
  destruct (Ascii.eqb x sep); [discriminate|]. destruct (JS.split sep s); discriminate.
Qed.

Lemma split_append_sep (sep : ascii) (a b : string) :
  JS.split sep (a ++ String sep b)%string = JS.split sep a ++ JS.split sep b.
Proof.
  induction a as [|x a IH]; simpl.
  - now rewrite Ascii.eqb_refl.
  - destruct (Ascii.eqb x sep); [now rewrite IH|].
    rewrite IH. pose proof (split_nonempty sep a) as Hne.
    destruct (JS.split sep a); [contradiction | reflexivity].
Qed.

Lemma split_pieces_without (sep : ascii) (s x : string) :
  In x (JS.split sep s) -> without sep x = true.
Proof.
  revert x. induction s as [|c s IH]; simpl; intros x H.
  - destruct H as [<- | []]. reflexivity.
  - destruct (Ascii.eqb c sep) eqn:E.
    + destruct H as [<- | H]; [reflexivity | now apply IH].
    + pose proof (split_nonempty sep s) as Hne.
      destruct (JS.split sep s) as [|h t]; [contradiction|].
      destruct H as [<- | H].
      * unfold without, chars. simpl. rewrite E. simpl.
        apply (IH h). now left.
      * apply IH. now right.
Qed.

Lemma cookieLines_dataLine (content c : string) :
  In c (cookieLines content) -> dataLine c = true.
Proof.
  unfold cookieLines, dataLine. intros H. apply filter_In in H. destruct H as [Hin Hf].
  rewrite (split_pieces_without _ _ _ Hin). exact Hf.
Qed.

Lemma join_cons (sep x y : string) (rest : list string) :
  join sep (x :: y :: rest) = (x ++ sep ++ join sep (y :: rest))%string.
Proof. reflexivity. Qed.

Lemma split_join (xs : list string) :
  (forall x, In x xs -> without JS.LF x = true) ->
  JS.split JS.LF (join nl xs) = linesOrBlank xs.
Proof.
  induction xs as [|x [|y rest] IH]; intros H.
  - reflexivity.
  - simpl. apply split_without, H. now left.
  - rewrite join_cons. change (nl ++ join nl (y :: rest))%string
      with (String JS.LF (join nl (y :: rest))).
    rewrite split_append_sep, IH by (intros z Hz; apply H; now right).
    rewrite split_without by (apply H; now left). reflexivity.
Qed.

Lemma split_join_lines (xs : list string) :
  xs <> [] ->
  JS.split JS.LF (join nl xs) = flat_map (JS.split JS.LF) xs.
Proof.
  induction xs as [|x [|y rest] IH]; intros H.
  - contradiction.
  - simpl. now rewrite app_nil_r.
  - rewrite join_cons. change (nl ++ join nl (y :: rest))%string
      with (String JS.LF (join nl (y :: rest))).
    rewrite split_append_sep, IH by discriminate. reflexivity.
Qed.

Lemma without_uint (c : ascii) (d : Decimal.uint) :
  (nat_of_ascii c <? 48) = true -> without c (NilEmpty.string_of_uint d) = true.
Proof.
  intros Hc.
  assert (D : forall x, (48 <=? nat_of_ascii x) = true -> Ascii.eqb x c = false).
  { intros x Hx. apply Ascii.eqb_neq. intros ->.
    apply Nat.ltb_lt in Hc. apply Nat.leb_le in Hx. lia. }
  unfold without, chars.
  induction d; cbn [NilEmpty.string_of_uint list_ascii_of_string forallb];
    rewrite ?IHd, ?D; reflexivity.
Qed.

Lemma without_numberToString (c : ascii) (z : Z) :
  (nat_of_ascii c <? 45) = true -> without c (numberToString z) = true.
Proof.
  intros Hc.
  assert (Hc' : (nat_of_ascii c <? 48) = true).
  { apply Nat.ltb_lt. apply Nat.ltb_lt in Hc. lia. }
  assert (U : forall d, without c (NilZero.string_of_uint d) = true).
  { intros d. destruct d; try apply (without_uint _ _ Hc').
    unfold without, chars. cbn [NilZero.string_of_uint list_ascii_of_string forallb].
    rewrite andb_true_r. apply negb_true_iff, Ascii.eqb_neq.
    intros <-. discriminate. }
  unfold numberToString. destruct (Z.to_int z) as [d|d]; simpl; [apply U|].
  change (without c (String "-" (NilZero.string_of_uint d)))
    with (negb (Ascii.eqb "-" c) && without c (NilZero.string_of_uint d)).
  rewrite U, andb_true_r. apply negb_true_iff, Ascii.eqb_neq.
  intros <-. discriminate.
Qed.

Lemma without_LF_number (z : Z) : without JS.LF (numberToString z) = true.
Proof. now apply without_numberToString. Qed.

Lemma without_LF_endpointLine (ep : HistoryEntry) :
  without JS.LF (he_url ep) = true -> without JS.LF (endpointLine ep) = true.
Proof.
  intros H. unfold endpointLine.
  rewrite !without_append, H, without_LF_number. reflexivity.
Qed.

(** The prepared file as the [join] of its lines. *)
Lemma preparedContent_join (domainData : DomainData) (generated : string) :
  preparedContent domainData generated
  = join nl (headerLines domainData generated
             ++ [join nl (map endpointLine (authenticatedEndpoints (analysis domainData)));
                 "#"; ""; join nl (allCookiesOf domainData); ""]).
Proof.
  unfold preparedContent, preparedHeader, headerLines. cbn [app].
  rewrite !join_cons. cbn [join].
  rewrite !append_assoc. reflexivity.
Qed.

Lemma preparedContent_lines (domainData : DomainData) (generated : string) :
  without JS.LF (dd_domain domainData) = true ->
  without JS.LF generated = true ->
  (forall ep, In ep (authenticatedEndpoints (analysis domainData)) ->
              without JS.LF (he_url ep) = true) ->
  (forall c, In c (allCookiesOf domainData) -> without JS.LF c = true) ->
  JS.split JS.LF (preparedContent domainData generated)
  = headerLines domainData generated
    ++ linesOrBlank (map endpointLine (authenticatedEndpoints (analysis domainData)))
    ++ ["#"; ""] ++ linesOrBlank (allCookiesOf domainData) ++ [""].
Proof.
  intros Hd Hg He Hc. rewrite preparedContent_join.
  rewrite split_join_lines by (unfold headerLines; discriminate).
  rewrite flat_map_app.
  assert (Hh : flat_map (JS.split JS.LF) (headerLines domainData generated)
               = headerLines domainData generated).
  { unfold headerLines. cbn [flat_map].
    rewrite !split_without;
      rewrite ?without_append, ?Hd, ?Hg, ?without_LF_number; try reflexivity.
    destruct (highValue _); reflexivity. }
  rewrite Hh. f_equal. cbn [flat_map].
  rewrite !split_join.
  - reflexivity.
  - exact Hc.
  - intros x Hx. apply in_map_iff in Hx. destruct Hx as [ep [<- Hep]].
    now apply without_LF_endpointLine, He.
Qed.

Lemma filter_none {A} (f : A -> bool) (l : list A) :
  (forall x, In x l -> f x = false) -> filter f l = [].
Proof.
  induction l as [|x l IH]; intros H; [reflexivity|]. simpl.
  rewrite (H x) by now left. apply IH. intros y Hy. apply H. now right.
Qed.

Lemma filter_all {A} (f : A -> bool) (l : list A) :
  (forall x, In x l -> f x = true) -> filter f l = l.
Proof.
  induction l as [|x l IH]; intros H; [reflexivity|]. simpl.
  rewrite (H x) by now left. f_equal. apply IH. intros y Hy. apply H. now right.
Qed.

Lemma headerLines_are_comments (domainData : DomainData) (generated x : string) :
  In x (headerLines domainData generated) -> JS.startsWith x "#" = true.
Proof.
  unfold headerLines. intros H.
  repeat (destruct H as [<- | H]; [reflexivity|]). destruct H.
Qed.

Lemma headerLines_are_not_endpoints (domainData : DomainData) (generated x : string) :
  In x (headerLines domainData generated) -> JS.startsWith x "# - " = false.
Proof.
  unfold headerLines. intros H.
  repeat (destruct H as [<- | H]; [reflexivity|]). destruct H.
Qed.

Lemma endpointLine_is_comment (ep : HistoryEntry) :
  JS.startsWith (endpointLine ep) "#" = true.
Proof. reflexivity. Qed.

Lemma dataLine_kept (c : string) :
  dataLine c = true ->
  without JS.LF c = true
  /\ JS.truthy (JS.trim c) && negb (JS.startsWith c "#") = true
  /\ JS.startsWith c "# - " = false.
Proof.
  unfold dataLine. intros H. apply andb_prop in H. destruct H as [H H3].
  apply andb_prop in H. destruct H as [H1 H2].
  split; [exact H1|]. split; [now rewrite H2, H3|].
  apply negb_true_iff in H3. unfold JS.startsWith in *.
  destruct (String.prefix "# - " c) eqn:E; [|reflexivity].
  apply prefix_app in E. destruct E as [b ->]. discriminate.
Qed.

(** X13. A prepared file gives back exactly the cookie lines that were
    stored in it: none of its header lines is read as a cookie, whatever the
    domain, the endpoints and the counters are, and the injection-time pass
    over the file validates the stored lines, in their order, against one
    reading of the clock. This is for a domain, a time stamp and endpoint
    URLs without a line feed, and for stored cookies that are lines the filter
    of the discovery pass keeps, as the lines it stores are
    ([cookieLines_dataLine]). *)
Theorem X13_prepared_file_gives_the_stored_cookies_back
    (domainData : DomainData) (generated cookiePath domain : string) (mtime : Z) (w : World)
    (Hdomain : without JS.LF (dd_domain domainData) = true)
    (Hgenerated : without JS.LF generated = true)
    (Hendpoints : forall ep, In ep (authenticatedEndpoints (analysis domainData)) ->
                             without JS.LF (he_url ep) = true)
    (Hcookies : forall c, In c (allCookiesOf domainData) -> dataLine c = true)
    (Hfile : files w cookiePath = Some (preparedContent domainData generated, mtime)) :
  cookieLines (preparedContent domainData generated) = allCookiesOf domainData
  /\ readAndValidateCookies cookiePath domain w
     = (Ok (fold_left (fun acc line => validateLine (now_ms (ticked w) / 1000) line acc)
                      (allCookiesOf domainData) []),
        ticked w).
Proof.
  assert (Hlines : cookieLines (preparedContent domainData generated)
                   = allCookiesOf domainData).
  { unfold cookieLines.
    rewrite preparedContent_lines;
      [|exact Hdomain | exact Hgenerated | exact Hendpoints
       |intros c Hc; exact (proj1 (@dataLine_kept c (Hcookies c Hc)))].
    rewrite !filter_app.
    rewrite (@filter_none _ _ (headerLines domainData generated)).
    2:{ intros x Hx. rewrite (@headerLines_are_comments _ _ _ Hx). apply andb_false_r. }
    rewrite (@filter_none _ _ (linesOrBlank (map endpointLine _))).
    2:{ intros x Hx. destruct (authenticatedEndpoints (analysis domainData)) as [|ep eps].
        - destruct Hx as [<- | []]. reflexivity.
        - cbn [linesOrBlank] in Hx. apply in_map_iff in Hx. destruct Hx as [e [<- _]].
          rewrite endpointLine_is_comment. apply andb_false_r. }
    cbn [app]. change (filter _ ["#"; ""]) with (@nil string).
    change (filter _ [""]) with (@nil string). rewrite app_nil_r. cbn [app].
    destruct (allCookiesOf domainData) as [|c cs] eqn:E; [reflexivity|].
    cbn [linesOrBlank]. apply filter_all. intros x Hx.
    exact (proj1 (proj2 (@dataLine_kept x (Hcookies x Hx)))). }
  split; [exact Hlines|].
  rewrite (@readAndValidateCookies_single_now cookiePath domain _ mtime w Hfile).
  now rewrite Hlines.
Qed.

Lemma X13_prepared_file_witness :
  let domainData :=
    mkDomainData "bank.example"
      [mkCookieGroup "cookies.txt"
         [cookieLine ".bank.example" "TRUE" "/" "FALSE" "0" "sid" "abc"] 0%Z] [] [] []
      (mkAnalysis true false false false 1 0 0 0 [] false 40%Z) in
  cookieLines (preparedContent domainData "2024-01-01T00:00:00.000Z")
  = [cookieLine ".bank.example" "TRUE" "/" "FALSE" "0" "sid" "abc"].
Proof.
  intros domainData.
  set (generated := "2024-01-01T00:00:00.000Z").
  set (w := steadyWorld 0 (oneFile "prepared_cookies/bank.example.txt"
                                   (preparedContent domainData generated)) 0).
  assert (Hdomain : without JS.LF (dd_domain domainData) = true) by reflexivity.
  assert (Hgenerated : without JS.LF generated = true) by reflexivity.
  assert (Hendpoints : forall ep, In ep (authenticatedEndpoints (analysis domainData)) ->
                                  without JS.LF (he_url ep) = true)
    by (intros ep []).
  assert (Hcookies : forall c, In c (allCookiesOf domainData) -> dataLine c = true)
    by (intros c [<- | []]; reflexivity).
  assert (Hfile : files w "prepared_cookies/bank.example.txt"
                  = Some (preparedContent domainData generated, 0%Z)) by reflexivity.
  exact (proj1 (@X13_prepared_file_gives_the_stored_cookies_back domainData generated
                  "prepared_cookies/bank.example.txt" "bank.example" 0%Z w
                  Hdomain Hgenerated Hendpoints Hcookies Hfile)).
Defined.

Lemma takeWhile_append_stop (f : ascii -> bool) (a b : string) (c : ascii) :
  f c = false -> takeWhile f (a ++ String c b)%string = takeWhile f a.
Proof.
  intros Hc. induction a as [|x a IH]; simpl; [now rewrite Hc|].
  destruct (f x); [now rewrite IH | reflexivity].
Qed.

Lemma takeWhile_all (f : ascii -> bool) (s : string) :
  forallb f (chars s) = true -> takeWhile f s = s.
Proof.
  unfold chars. induction s as [|x s IH]; simpl; intros H; [reflexivity|].
  apply andb_prop in H. destruct H as [Hx Hs]. now rewrite Hx, IH.
Qed.

(** The match of the URL pattern in a line of [Best Endpoints]. *)
Lemma matchUrl_endpointLine (scheme body tail : string) :
  scheme = "http" \/ scheme = "https" ->
  JS.truthy (takeWhile urlChar body) = true ->
  matchUrl ("# - " ++ (scheme ++ "://" ++ body) ++ String " " tail)%string
  = Some (scheme ++ "://" ++ takeWhile urlChar body)%string.
Proof.
  intros Hs Hb.
  assert (Ht : takeWhile urlChar (body ++ String " " tail)%string = takeWhile urlChar body)
    by (now apply takeWhile_append_stop).
  destruct Hs as [-> | ->].
  - cbn [append matchUrl matchUrlHere Ascii.eqb Bool.eqb andb].
    cbn [matchAfterScheme Ascii.eqb Bool.eqb andb].
    change (fun c : ascii => negb (JS.isWhiteSpace c) && negb (Ascii.eqb c ")"))
      with urlChar.
    change (negb (JS.isWordDotDash "/")) with true. cbn [andb].
    rewrite Ht, Hb. reflexivity.
  - cbn [append matchUrl matchUrlHere Ascii.eqb Bool.eqb andb].
    cbn [matchAfterScheme Ascii.eqb Bool.eqb andb].
    change (fun c : ascii => negb (JS.isWhiteSpace c) && negb (Ascii.eqb c ")"))
      with urlChar.
    change (negb (JS.isWordDotDash "/")) with true. cbn [andb].
    rewrite Ht, Hb. reflexivity.
Qed.

Lemma headerEndpoint_skip (l r : list string) :
  (forall x, In x l -> JS.startsWith x "# - " = false) ->
  headerEndpoint (l ++ r) = headerEndpoint r.
Proof.
  induction l as [|x l IH]; intros H; [reflexivity|].
  cbn [app headerEndpoint]. rewrite (H x) by now left. cbn [andb].
  apply IH. intros y Hy. apply H. now right.
Qed.

(** X14. The test URL of a prepared file. With no authenticated endpoint in
    the header the URL is the fall-back for the domain: no other line of the
    file is taken for an endpoint. Otherwise, when the URL of the first
    endpoint is [http://] or [https://] and a body, the test URL is that URL
    up to its first white space or closing parenthesis, so the URL itself
    when it has neither. The file is not changed and the clock not read. *)
Theorem X14_test_url_of_a_prepared_file
    (domainData : DomainData) (generated cookieFilePath domain : string) (mtime : Z)
    (w : World)
    (Hdomain : without JS.LF (dd_domain domainData) = true)
    (Hgenerated : without JS.LF generated = true)
    (Hendpoints : forall ep, In ep (authenticatedEndpoints (analysis domainData)) ->
                             without JS.LF (he_url ep) = true)
    (Hcookies : forall c, In c (allCookiesOf domainData) -> dataLine c = true)
    (Hfile : files w cookieFilePath = Some (preparedContent domainData generated, mtime)) :
  (authenticatedEndpoints (analysis domainData) = [] ->
   determineTestUrl cookieFilePath domain w = (Ok (fallbackUrl domain), w))
  /\ (forall ep rest scheme body,
        authenticatedEndpoints (analysis domainData) = ep :: rest ->
        he_url ep = (scheme ++ "://" ++ body)%string ->
        scheme = "http" \/ scheme = "https" ->
        JS.truthy (takeWhile urlChar body) = true ->
        determineTestUrl cookieFilePath domain w
        = (Ok (scheme ++ "://" ++ takeWhile urlChar body)%string, w)
        /\ (forallb urlChar (chars body) = true ->
            determineTestUrl cookieFilePath domain w = (Ok (he_url ep), w))).
Proof.
  assert (Hrun : determineTestUrl cookieFilePath domain w
                 = (Ok (match headerEndpoint
                                (linesOrBlank (map endpointLine
                                   (authenticatedEndpoints (analysis domainData)))
                                 ++ ["#"; ""] ++ linesOrBlank (allCookiesOf domainData)
                                 ++ [""]) with
                        | Some url => url
                        | None => fallbackUrl domain
                        end), w)).
  { unfold determineTestUrl, bind, readFileSync. rewrite Hfile.
    rewrite preparedContent_lines;
      [|exact Hdomain | exact Hgenerated | exact Hendpoints
       |intros c Hc; exact (proj1 (@dataLine_kept c (Hcookies c Hc)))].
    rewrite headerEndpoint_skip by apply headerLines_are_not_endpoints.
    destruct (headerEndpoint _); reflexivity. }
  split.
  - intros He. rewrite Hrun, He. cbn [map linesOrBlank].
    rewrite <- (app_nil_r ([""] ++ ["#"; ""] ++ linesOrBlank (allCookiesOf domainData)
                           ++ [""])).
    rewrite headerEndpoint_skip; [reflexivity|].
    intros x Hx. rewrite !in_app_iff in Hx.
    destruct Hx as [[<- | []] | [[<- | [<- | []]] | [Hx | [<- | []]]]]; try reflexivity.
    destruct (allCookiesOf domainData) as [|c cs] eqn:E.
    + destruct Hx as [<- | []]. reflexivity.
    + cbn [linesOrBlank] in Hx. exact (proj2 (proj2 (@dataLine_kept x (Hcookies x Hx)))).
  - intros ep rest scheme body He Hurl Hscheme Hbody.
    assert (Hgo : determineTestUrl cookieFilePath domain w
                  = (Ok (scheme ++ "://" ++ takeWhile urlChar body)%string, w)).
    { rewrite Hrun, He. cbn [map linesOrBlank app headerEndpoint].
      assert (Hstart : JS.startsWith (endpointLine ep) "# - " = true).
      { apply prefix_app. eexists. reflexivity. }
      assert (Hincl : JS.includes (endpointLine ep) "http" = true).
      { apply includes_app. unfold endpointLine. rewrite Hurl.
        destruct Hscheme as [-> | ->].
        - exists "# - "%string. eexists. reflexivity.
        - exists "# - "%string. eexists. reflexivity. }
      rewrite Hstart, Hincl. cbn [andb].
      unfold endpointLine. rewrite Hurl.
      change (" (visited " ++ numberToString (he_visitCount ep) ++ " times)")%string
        with (String " " ("(visited " ++ numberToString (he_visitCount ep) ++ " times)"))%string
        at 1.
      rewrite (@matchUrl_endpointLine scheme body _ Hscheme Hbody). reflexivity. }
    split; [exact Hgo|].
    intros Hall. rewrite Hgo, Hurl, (@takeWhile_all urlChar body Hall). reflexivity.
Qed.

Lemma X14_test_url_witness :
  let domainData :=
    mkDomainData "bank.example"
      [mkCookieGroup "cookies.txt"
         [cookieLine ".bank.example" "TRUE" "/" "FALSE" "0" "sid" "abc"] 0%Z]
      [mkGroup "history.txt"
         [mkHistoryEntry "https://bank.example/account" "Account" 7%Z] 0%Z] [] []
      (mkAnalysis true true false false 1 1 0 0
         [mkHistoryEntry "https://bank.example/account" "Account" 7%Z] false 90%Z) in
  let path := "prepared_cookies/bank.example.txt" in
  let w := steadyWorld 0 (oneFile path (preparedContent domainData "2024-01-01T00:00:00.000Z"))
                       0 in
  determineTestUrl path "bank.example" w = (Ok "https://bank.example/account", w).
Proof.
  intros domainData path w.
  set (generated := "2024-01-01T00:00:00.000Z").
  assert (Hdomain : without JS.LF (dd_domain domainData) = true) by reflexivity.
  assert (Hgenerated : without JS.LF generated = true) by reflexivity.
  assert (Hendpoints : forall ep, In ep (authenticatedEndpoints (analysis domainData)) ->
                                  without JS.LF (he_url ep) = true)
    by (intros ep [<- | []]; reflexivity).
  assert (Hcookies : forall c, In c (allCookiesOf domainData) -> dataLine c = true)
    by (intros c [<- | []]; reflexivity).
  assert (Hfile : files w path = Some (preparedContent domainData generated, 0%Z))
    by reflexivity.
  destruct (@X14_test_url_of_a_prepared_file domainData generated path "bank.example" 0%Z w
              Hdomain Hgenerated Hendpoints Hcookies Hfile) as [_ H].
  destruct (H (mkHistoryEntry "https://bank.example/account" "Account" 7%Z) []
              "https"%string "bank.example/account"%string
              eq_refl eq_refl (or_intror eq_refl) eq_refl) as [_ Hall].
  exact (Hall eq_refl).
Defined.

(** ** Saving the workable data *)

Lemma insertByScore_In (x y : DomainData) (l : list DomainData) :
  In y (insertByScore x l) <-> y = x \/ In y l.
Proof.
  induction l as [|z l IH]; simpl.
  - intuition.
  - destruct (_ <? _)%Z; simpl; [rewrite IH|]; intuition.
Qed.

Lemma sortByScoreDesc_In (y : DomainData) (l : list DomainData) :
  In y (sortByScoreDesc l) <-> In y l.
Proof.
  induction l as [|x l IH]; simpl; [reflexivity|].
  rewrite insertByScore_In, IH. intuition.
Qed.

Lemma insertByScore_sorted (x : DomainData) (l : list DomainData) :
  StronglySorted profileScoreGe l -> StronglySorted profileScoreGe (insertByScore x l).
Proof.
  induction l as [|y l IH]; intros Hs; simpl.
  - repeat constructor.
  - inversion Hs as [|? ? Hl Hy]; subst.
    destruct (_ <? _)%Z eqn:E.
    + constructor; [now apply IH|].
      apply Forall_forall. intros z Hz. apply insertByScore_In in Hz.
      destruct Hz as [-> | Hz].
      * unfold profileScoreGe. apply Z.ltb_lt in E. lia.
      * rewrite Forall_forall in Hy. now apply Hy.
    + constructor; [exact Hs|].
      apply Z.ltb_ge in E. constructor; [exact E|].
      rewrite Forall_forall in *. intros z Hz. specialize (Hy z Hz).
      unfold profileScoreGe in *. lia.
Qed.

Lemma insertByScore_perm (x : DomainData) (l : list DomainData) :
  Permutation (insertByScore x l) (x :: l).
Proof.
  induction l as [|y l IH]; simpl; [reflexivity|].
  destruct (_ <? _)%Z; [|reflexivity].
  rewrite IH. apply perm_swap.
Qed.

Lemma sortByScoreDesc_perm (l : list DomainData) :
  Permutation (sortByScoreDesc l) l.
Proof.
  induction l as [|x l IH]; simpl; [reflexivity|].
  rewrite insertByScore_perm. now constructor.
Qed.

Lemma sortByScoreDesc_sorted (l : list DomainData) :
  StronglySorted profileScoreGe (sortByScoreDesc l).
Proof.
  induction l as [|x l IH]; simpl; [constructor | now apply insertByScore_sorted].
Qed.

Lemma writeFileSync_run (path content : string) (w : World) :
  writeFileSync path content w =
    match failure (oracle w (ticks w)) with
    | Some msg => (Throw msg, ticked (emitted (EvWriteFile path) w))
    | None => (Ok tt, wrote path content (ticked (emitted (EvWriteFile path) w)))
    end.
Proof.
  unfold writeFileSync, bind. rewrite driver_run.
  destruct (failure (oracle w (ticks w))); reflexivity.
Qed.

Section SaveWorkableDataProperties.

Variable toISOString : Z -> string.
Variable JSON_stringify : AnalysisReport -> string.
Variable path_join : string -> string -> string.
Variable dirname : string.

(** No prepared file has the path of the report: the one ends in [.txt],
    the other in [.json]. *)
Hypothesis report_apart :
  forall name, path_join (path_join dirname "prepared_cookies") (name ++ ".txt")%string
               <> reportPath path_join dirname.

(** One iteration of the loop of [saveWorkableData], run. *)
Lemma saveDomain_run (domainData : DomainData) (n : nat) (saved : list SavedDomain)
    (w : World) :
  saveDomain toISOString path_join dirname domainData (n, saved) w =
    if hasStoredCookies domainData then
      let w1 := ticked (emitted (EvWriteFile (preparedPath path_join dirname (dd_domain domainData)))
                                (ticked w)) in
      match failure (oracle w (S (ticks w))) with
      | Some _ => (Ok (n, saved), w1)
      | None =>
          (Ok (S n, saved ++ [savedOf domainData]),
           wrote (preparedPath path_join dirname (dd_domain domainData))
                 (preparedContent domainData (toISOString (now_ms (ticked w)))) w1)
      end
    else (Ok (n, saved), w).
Proof.
  unfold saveDomain, hasStoredCookies.
  destruct (hasCookies (analysis domainData) && (0 <? totalCookies (analysis domainData)));
    [|reflexivity].
  cbn [andb]. unfold tryCatch, saveDomainTry.
  destruct (0 <? length (allCookiesOf domainData)); [|reflexivity].
  unfold bind. rewrite Date_now_run, writeFileSync_run.
  cbn [ticked oracle ticks]. destruct (failure (oracle w (S (ticks w)))); reflexivity.
Qed.

(** The loop of [saveWorkableData] from any state of its variables. *)
Lemma saveLoop_run (l : list DomainData) (saved : list SavedDomain) (w : World) :
  exists added w',
    forOf l (saveDomain toISOString path_join dirname) (length saved, saved) w
    = (Ok (length (saved ++ added), saved ++ added), w')
    /\ oracle w' = oracle w /\ heap w' = heap w
    /\ (forall sd, In sd added ->
          exists dd, In dd l /\ sd = savedOf dd /\ hasStoredCookies dd = true)
    /\ (StronglySorted profileScoreGe l -> StronglySorted scoreGe added)
    /\ (forall p, files w' p = files w p
                  \/ exists dd t mtime,
                       In dd l /\ p = preparedPath path_join dirname (dd_domain dd)
                       /\ files w' p = Some (preparedContent dd (toISOString t), mtime))
    /\ (forall sd, In sd added ->
          exists dd t mtime,
            In dd l
            /\ preparedPath path_join dirname (dd_domain dd)
               = preparedPath path_join dirname (sd_domain sd)
            /\ files w' (preparedPath path_join dirname (sd_domain sd))
               = Some (preparedContent dd (toISOString t), mtime))
    /\ (neverFails w -> added = map savedOf (filter hasStoredCookies l)).
Proof.
  revert saved w. induction l as [|dd rest IH]; intros saved w.
  - exists [], w. cbn [forOf]. rewrite app_nil_r. unfold ret.
    repeat split; try reflexivity.
    + intros sd [].
    + intros _. constructor.
    + intros p. now left.
    + intros sd [].
  - cbn [forOf]. unfold bind. rewrite saveDomain_run.
    destruct (hasStoredCookies dd) eqn:Hdd.
    2:{ destruct (IH saved w) as [added [w' [E [Ho [Hh [P1 [P2 [P4 [P3 P5]]]]]]]]].
        exists added, w'. split; [exact E|]. split; [exact Ho|]. split; [exact Hh|].
        split; [|split; [|split; [|split]]].
        - intros sd Hsd. destruct (P1 sd Hsd) as [d [Hd Hr]]. exists d. split; [now right | exact Hr].
        - intros Hs. inversion Hs; subst. now apply P2.
        - intros p. destruct (P4 p) as [Hp | [d [t [m [Hd Hr]]]]]; [now left|].
          right. exists d, t, m. split; [now right | exact Hr].
        - intros sd Hsd. destruct (P3 sd Hsd) as [d [t [m [Hd Hr]]]].
          exists d, t, m. split; [now right | exact Hr].
        - intros Hn. cbn [filter]. rewrite Hdd. now apply P5. }
    cbv zeta. destruct (failure (oracle w (S (ticks w)))) eqn:Hf.
    + set (w1 := ticked _).
      destruct (IH saved w1) as [added [w' [E [Ho [Hh [P1 [P2 [P4 [P3 P5]]]]]]]]].
      exists added, w'. split; [exact E|]. split; [exact Ho|]. split; [exact Hh|].
      split; [|split; [|split; [|split]]].
      * intros sd Hsd. destruct (P1 sd Hsd) as [d [Hd Hr]]. exists d. split; [now right | exact Hr].
      * intros Hs. inversion Hs; subst. now apply P2.
      * intros p. destruct (P4 p) as [Hp | [d [t [m [Hd Hr]]]]]; [now left|].
        right. exists d, t, m. split; [now right | exact Hr].
      * intros sd Hsd. destruct (P3 sd Hsd) as [d [t [m [Hd Hr]]]].
        exists d, t, m. split; [now right | exact Hr].
      * intros Hn. rewrite (Hn (S (ticks w))) in Hf. discriminate.
    + set (w1 := wrote _ _ _).
      assert (Hlen : S (length saved) = length (saved ++ [savedOf dd]))
        by (rewrite length_app; simpl; lia).
      rewrite Hlen.
      destruct (IH (saved ++ [savedOf dd]) w1)
        as [added [w' [E [Ho [Hh [P1 [P2 [P4 [P3 P5]]]]]]]]].
      exists (savedOf dd :: added), w'.
      replace (saved ++ savedOf dd :: added) with ((saved ++ [savedOf dd]) ++ added)
        by (now rewrite <- app_assoc).
      split; [exact E|]. split; [exact Ho|]. split; [exact Hh|].
      assert (Hfirst : exists d t m,
                 In d (dd :: rest)
                 /\ preparedPath path_join dirname (dd_domain d)
                    = preparedPath path_join dirname (dd_domain dd)
                 /\ files w' (preparedPath path_join dirname (dd_domain dd))
                    = Some (preparedContent d (toISOString t), m)).
      { destruct (P4 (preparedPath path_join dirname (dd_domain dd))) as [Hp | [d [t [m [Hd [Hp Hr]]]]]].
        - exists dd. eexists _, _. split; [now left|]. split; [reflexivity|].
          rewrite Hp. unfold w1, wrote. cbn [files]. rewrite String.eqb_refl. reflexivity.
        - exists d, t, m. split; [now right|]. split; [|exact Hr].
          symmetry. exact Hp. }
      split; [|split; [|split; [|split]]].
      * intros sd [<- | Hsd].
        -- exists dd. split; [now left|]. now split.
        -- destruct (P1 sd Hsd) as [d [Hd Hr]]. exists d. split; [now right | exact Hr].
      * intros Hs. inversion Hs as [|? ? Hrest Hall]; subst.
        constructor; [now apply P2|].
        apply Forall_forall. intros sd Hsd.
        destruct (P1 sd Hsd) as [d [Hd [-> _]]].
        rewrite Forall_forall in Hall. exact (Hall d Hd).
      * intros p. destruct (P4 p) as [Hp | [d [t [m [Hd Hr]]]]].
        -- unfold w1, wrote in Hp. cbn [files] in Hp.
           destruct (String.eqb p (preparedPath path_join dirname (dd_domain dd))) eqn:Ep.
           ++ right. apply String.eqb_eq in Ep. exists dd. eexists _, _.
              split; [now left|]. split; [exact Ep | exact Hp].
           ++ now left.
        -- right. exists d, t, m. split; [now right | exact Hr].
      * intros sd [<- | Hsd]; [exact Hfirst|].
        destruct (P3 sd Hsd) as [d [t [m [Hd Hr]]]].
        exists d, t, m. split; [now right | exact Hr].
      * intros Hn. cbn [filter]. rewrite Hdd. cbn [map]. f_equal. apply P5.
        intros k. exact (Hn k).
Qed.

Lemma mkdirs_run (dirs : list string) (w : World) :
  exists r w1,
    forEach dirs mkdirSync w = (r, w1)
    /\ files w1 = files w /\ oracle w1 = oracle w /\ heap w1 = heap w
    /\ match r with
       | Ok _ => True
       | Throw e => exists n, failure (oracle w n) = Some e
       end
    /\ (neverFails w -> r = Ok tt).
Proof.
  revert w. induction dirs as [|dir dirs IH]; intros w.
  - exists (Ok tt), w. cbn. unfold ret. repeat split; reflexivity.
  - cbn [forEach]. unfold mkdirSync, bind. rewrite tick_run.
    destruct (failure (oracle w (ticks w))) as [msg|] eqn:Hf.
    + exists (Throw msg), (ticked w). unfold throw.
      repeat split; try reflexivity.
      * now exists (ticks w).
      * intros Hn. rewrite (Hn (ticks w)) in Hf. discriminate.
    + unfold ret. destruct (IH (ticked w)) as [r [w1 [E [H1 [H2 [H3 [H4 H5]]]]]]].
      exists r, w1. split; [exact E|]. split; [exact H1|]. split; [exact H2|].
      split; [exact H3|]. split.
      * destruct r as [u|e]; [exact I|]. exact H4.
      * intros Hn. apply H5. exact Hn.
Qed.

Lemma filter_length_mono {A} (f g : A -> bool) (l : list A) :
  (forall x, f x = true -> g x = true) ->
  length (filter f l) <= length (filter g l) <= length l.
Proof.
  intros H. induction l as [|x l IH]; simpl; [lia|].
  destruct (f x) eqn:Ef; [rewrite (H x Ef); simpl; lia|].
  destruct (g x); simpl; lia.
Qed.

(** X15. What [saveWorkableData] leaves behind. When it returns, the saved
    domains are in descending order of score, each is a profile of the
    cross-reference map that has a stored cookie line, the file under its
    prepared path is the prepared file of a profile with that prepared path,
    and the report written last counts
    [immediateTest <= worthTesting <= totalPrepared], the last being the number
    of saved domains. An exception out of the function is that of a failing
    call of the runtime. The heap is as before in both cases. *)
Theorem X15_saveWorkableData_prepares_sorted_profiles
    (crossReferences : JS.Map DomainData) (w : World) :
  match saveWorkableData toISOString JSON_stringify path_join dirname crossReferences w with
  | (Ok savedDomains, w') =>
      StronglySorted scoreGe savedDomains
      /\ (forall sd, In sd savedDomains ->
            0 < sd_cookies sd
            /\ exists dd, In dd (map snd crossReferences) /\ sd = savedOf dd
                          /\ hasStoredCookies dd = true)
      /\ (forall sd, In sd savedDomains ->
            exists dd t mtime,
              In dd (map snd crossReferences)
              /\ preparedPath path_join dirname (dd_domain dd)
                 = preparedPath path_join dirname (sd_domain sd)
              /\ files w' (preparedPath path_join dirname (sd_domain sd))
                 = Some (preparedContent dd (toISOString t), mtime))
      /\ (exists report mtime,
            files w' (reportPath path_join dirname)
            = Some (JSON_stringify report, mtime)
            /\ ar_topDomains report = firstn 20 savedDomains
            /\ totalPrepared (ar_recommendations report) = length savedDomains
            /\ immediateTest (ar_recommendations report)
               <= worthTesting (ar_recommendations report)
               <= totalPrepared (ar_recommendations report))
      /\ heap w' = heap w
  | (Throw e, w') =>
      (exists n, failure (oracle w n) = Some e) /\ heap w' = heap w
  end.
Proof.
  unfold saveWorkableData. unfold bind at 1.
  destruct (mkdirs_run (map (path_join dirname) outputDirs) w)
    as [r [w1 [E1 [Hf1 [Ho1 [Hh1 [Hr1 _]]]]]]].
  rewrite E1. destruct r as [[]|e]; [|split; [exact Hr1 | exact Hh1]].
  unfold bind at 1.
  destruct (saveLoop_run (sortByScoreDesc (map snd crossReferences)) [] w1)
    as [added [w2 [E2 [Ho2 [Hh2 [P1 [P2 [_ [P3 _]]]]]]]]].
  cbn [app length] in E2. rewrite E2.
  unfold bind. rewrite Date_now_run, writeFileSync_run.
  cbn [ticked oracle ticks heap].
  destruct (failure (oracle w2 (S (ticks w2)))) as [msg|] eqn:Hf.
  - split; [|cbn; congruence].
    exists (S (ticks w2)). rewrite <- Ho1, <- Ho2. exact Hf.
  - unfold ret. split; [apply P2, sortByScoreDesc_sorted|].
    split; [|split; [|split]].
    + intros sd Hsd. destruct (P1 sd Hsd) as [dd [Hd [-> He]]].
      split.
      * unfold hasStoredCookies in He. apply andb_prop in He. destruct He as [_ He].
        apply Nat.ltb_lt in He. exact He.
      * exists dd. split; [exact (proj1 (@sortByScoreDesc_In dd _) Hd)|]. now split.
    + intros sd Hsd. destruct (P3 sd Hsd) as [dd [t [m [Hd [Hs Hfile]]]]].
      exists dd, t, m. split; [exact (proj1 (@sortByScoreDesc_In dd _) Hd)|]. split; [exact Hs|].
      cbn [wrote files].
      replace (String.eqb (preparedPath path_join dirname (sd_domain sd))
                          (path_join (path_join dirname "analysis")
                                     "discovery_analysis.json"))
        with false; [exact Hfile|].
      symmetry. apply String.eqb_neq. apply report_apart.
    + eexists _, _.
      split; [cbn [wrote files]; unfold reportPath; rewrite String.eqb_refl; reflexivity|].
      cbn [ar_topDomains ar_recommendations totalPrepared immediateTest worthTesting].
      split; [reflexivity|]. split; [reflexivity|].
      apply filter_length_mono. intros x Hx. apply Z.leb_le in Hx. apply Z.leb_le. lia.
    + cbn. congruence.
Qed.

(** X16. When no call of the runtime fails, [saveWorkableData] returns, and
    what it returns are the profiles that have a stored cookie line, taken in
    their order from the profiles of the cross-reference map rearranged in
    descending order of score. *)
Theorem X16_saveWorkableData_saves_every_profile_with_cookies
    (crossReferences : JS.Map DomainData) (w : World)
    (Hnever : neverFails w) :
  exists w',
    saveWorkableData toISOString JSON_stringify path_join dirname crossReferences w
    = (Ok (map savedOf (filter hasStoredCookies
                               (sortByScoreDesc (map snd crossReferences)))), w')
    /\ StronglySorted profileScoreGe (sortByScoreDesc (map snd crossReferences))
    /\ Permutation (sortByScoreDesc (map snd crossReferences)) (map snd crossReferences).
Proof.
  unfold saveWorkableData. unfold bind at 1.
  destruct (mkdirs_run (map (path_join dirname) outputDirs) w)
    as [r [w1 [E1 [Hf1 [Ho1 [Hh1 [_ Hr1]]]]]]].
  rewrite E1, (Hr1 Hnever).
  assert (Hn1 : neverFails w1) by (intros n; rewrite Ho1; apply Hnever).
  unfold bind at 1.
  destruct (saveLoop_run (sortByScoreDesc (map snd crossReferences)) [] w1)
    as [added [w2 [E2 [Ho2 [Hh2 [_ [_ [_ [_ P5]]]]]]]]].
  cbn [app length] in E2. rewrite E2.
  unfold bind. rewrite Date_now_run, writeFileSync_run.
  cbn [ticked oracle ticks heap].
  rewrite Ho2, (Hn1 (S (ticks w2))). unfold ret.
  eexists. split; [rewrite <- (P5 Hn1); reflexivity|].
  split; [apply sortByScoreDesc_sorted | apply sortByScoreDesc_perm].
Qed.

End SaveWorkableDataProperties.

Lemma X16_saveWorkableData_witness :
  let bank :=
    mkDomainData "bank.example"
      [mkCookieGroup "cookies.txt"
         [cookieLine ".bank.example" "TRUE" "/" "FALSE" "0" "sid" "abc"] 0%Z] [] [] []
      (mkAnalysis true false false false 1 0 0 0 [] false 40%Z) in
  let mail :=
    mkDomainData "mail.example"
      [mkCookieGroup "cookies.txt"
         [cookieLine ".mail.example" "TRUE" "/" "FALSE" "0" "tok" "def"] 0%Z] [] []
      [mkGroup "autofill.txt" [mkAutofillEntry "email" "a@b.c" "https://mail.example/"] 0%Z]
      (mkAnalysis true false false true 1 0 0 1 [] false 55%Z) in
  let news :=
    mkDomainData "news.example" [] [] [] []
      (mkAnalysis false true false false 0 3 0 0 [] false 20%Z) in
  exists w',
    saveWorkableData (fun _ => "2024-01-01T00:00:00.000Z") (fun _ => "{}")
      (fun dir name => (dir ++ "/" ++ name)%string) "/app"
      [("bank.example", bank); ("news.example", news); ("mail.example", mail)]
      (steadyWorld 0 (fun _ => None) 0)
    = (Ok [mkSavedDomain "mail.example" 55 1 0; mkSavedDomain "bank.example" 40 1 0], w').
Proof.
  intros bank mail news.
  assert (Hnever : neverFails (steadyWorld 0 (fun _ => None) 0)) by (intros n; reflexivity).
  destruct (@X16_saveWorkableData_saves_every_profile_with_cookies
              (fun _ => "2024-01-01T00:00:00.000Z") (fun _ => "{}")
              (fun dir name => (dir ++ "/" ++ name)%string) "/app"
              [("bank.example", bank); ("news.example", news); ("mail.example", mail)]
              (steadyWorld 0 (fun _ => None) 0) Hnever) as [w' [H _]].
  exists w'. exact H.
Defined.

Lemma X15_saveWorkableData_witness :
  let bank :=
    mkDomainData "bank.example"
      [mkCookieGroup "cookies.txt"
         [cookieLine ".bank.example" "TRUE" "/" "FALSE" "0" "sid" "abc"] 0%Z] [] [] []
      (mkAnalysis true false false false 1 0 0 0 [] false 40%Z) in
  let w := steadyWorld 0 (fun _ => None) 0 in
  match saveWorkableData (fun _ => "2024-01-01T00:00:00.000Z") (fun _ => "{}")
          (fun dir name => (dir ++ "/" ++ name)%string) "/app"
          [("bank.example", bank)] w with
  | (Ok savedDomains, w') => StronglySorted scoreGe savedDomains /\ heap w' = heap w
  | (Throw e, _) => exists n, failure (oracle w n) = Some e
  end.
Proof.
  intros bank w.
  assert (Hapart : forall name,
             ((("/app" ++ "/" ++ "prepared_cookies") ++ "/" ++ (name ++ ".txt"))%string
              <> reportPath (fun dir name => (dir ++ "/" ++ name)%string) "/app"))
    by (intros name H; cbn in H; discriminate H).
  pose proof (@X15_saveWorkableData_prepares_sorted_profiles
                (fun _ => "2024-01-01T00:00:00.000Z") (fun _ => "{}")
                (fun dir name => (dir ++ "/" ++ name)%string) "/app" Hapart
                [("bank.example", bank)] w) as H.
  destruct (saveWorkableData _ _ _ _ _ w) as [[savedDomains | e] w'].
  - destruct H as [Hs [_ [_ [_ Hh]]]]. split; [exact Hs | exact Hh].
  - exact (proj1 H).
Defined.

Lemma length_fold_app {G} (items : G -> list string) (groups : list G) (acc : list string) :
  length (fold_left (fun all g => all ++ items g) groups acc)
  = fold_left (fun sum g => sum + length (items g)) groups (length acc).
Proof.
  revert acc. induction groups as [|g groups IH]; intros acc; simpl; [reflexivity|].
  now rewrite IH, length_app.
Qed.

(** X17. For a profile computed by [analyzeDiscoveredData], [totalCookies]
    is the number of cookie lines that [saveWorkableData] writes to the
    prepared file, and the three guards of the loop ([hasCookies],
    [totalCookies > 0], [allCookies.length > 0]) hold together exactly when
    [totalCookies] is positive. *)
Theorem X17_the_guards_of_the_save_loop_amount_to_one
    (d : DiscoveredData) (domain : string) (p : DomainData)
    (Hget : JS.get (analyzeDiscoveredData d) domain = Some p) :
  totalCookies (analysis p) = length (allCookiesOf p)
  /\ hasStoredCookies p = (0 <? totalCookies (analysis p)).
Proof.
  apply analyzeDiscoveredData_get in Hget. subst p.
  assert (Ht : totalCookies (analysis (analyzeDomain d domain))
               = length (allCookiesOf (analyzeDomain d domain))).
  { unfold analyzeDomain, allCookiesOf. cbn [analysis totalCookies dd_cookies].
    rewrite length_fold_app. unfold totalOf.
    destruct (JS.getOrEmpty (cookies d) domain); reflexivity. }
  split; [exact Ht|].
  unfold hasStoredCookies. rewrite <- Ht.
  destruct (0 <? totalCookies (analysis (analyzeDomain d domain))) eqn:Hpos;
    [|now rewrite !andb_false_r].
  rewrite !andb_true_r. clear Ht.
  unfold analyzeDomain in *. cbn [analysis totalCookies hasCookies] in *.
  unfold JS.getOrEmpty, JS.has in *.
  destruct (JS.get (cookies d) domain); [reflexivity|]. discriminate.
Qed.

Lemma X17_guards_witness :
  let d := mkDiscovered
      [("bank.example",
        [mkCookieGroup "a/cookies.txt"
           [cookieLine ".bank.example" "TRUE" "/" "FALSE" "0" "sid" "abc"] 0%Z;
         mkCookieGroup "b/cookies.txt"
           [cookieLine ".bank.example" "TRUE" "/" "FALSE" "0" "tok" "def"] 0%Z])]
      [] [] [] in
  let p := analyzeDomain d "bank.example" in
  totalCookies (analysis p) = length (allCookiesOf p)
  /\ hasStoredCookies p = (0 <? totalCookies (analysis p)).
Proof.
  intros d p.
  assert (Hget : JS.get (analyzeDiscoveredData d) "bank.example" = Some p)
    by (vm_compute; reflexivity).
  exact (@X17_the_guards_of_the_save_loop_amount_to_one d "bank.example" p Hget).
Defined.

(** ** The older script: parser, setter, login check and retries *)

(** X18. The older filter against the filters of the v3 checker, on a line
    of seven fields whose expiry field reads the same with and without a
    radix. [isCookieExpired] always answers. An expiry that is not a number is
    "not expired" for it and rejected by the v3 filters. For a numeric expiry
    the two agree, but for the one second in which the expiry equals the
    clock. [isCookieExpired] reads the clock except for the expiry 0. *)
Theorem X18_the_older_filter_against_the_v3_filters
    (line : string) (w : World)
    (Hfields : 7 <= length (JS.split JS.TAB line))
    (Hradix : JS.parseInt (JS.at_ (JS.split JS.TAB line) 4) 0
              = JS.parseInt (JS.at_ (JS.split JS.TAB line) 4) 10) :
  let now := (now_ms (ticked w) / 1000)%Z in
  let kept := expiryValid (JS.parseInt (JS.at_ (JS.split JS.TAB line) 4) 10) now in
  exists expired w',
    isCookieExpired line w = (Ok expired, w')
    /\ match JS.parseInt (JS.at_ (JS.split JS.TAB line) 4) 0 with
       | JS.NaN => expired = false /\ kept = false /\ w' = ticked w
       | JS.Int x =>
           (negb expired = kept <-> (x <> now \/ x = 0%Z))
           /\ (x = 0%Z -> w' = w) /\ (x <> 0%Z -> w' = ticked w)
       end.
Proof.
  intros now kept. unfold kept. rewrite <- Hradix.
  destruct (JS.parseInt (JS.at_ (JS.split JS.TAB line) 4) 0) as [|x] eqn:E.
  - exists false, (ticked w). split; [|auto].
    unfold isCookieExpired.
    replace (length (JS.split JS.TAB line) <? 7) with false
      by (symmetry; apply Nat.ltb_ge; exact Hfields).
    rewrite E. reflexivity.
  - rewrite (@isCookieExpired_number line w x Hfields E).
    destruct (x =? 0)%Z eqn:E0.
    + apply Z.eqb_eq in E0. subst x. exists false, w. split; [reflexivity|].
      split; [|split; [reflexivity | congruence]].
      split; [auto|]. intros _. unfold expiryValid, JS.gt, JS.strictEq.
      rewrite Z.eqb_refl, orb_true_r. reflexivity.
    + apply Z.eqb_neq in E0. eexists _, _. split; [reflexivity|].
      split; [|split; [congruence | reflexivity]].
      fold now. unfold expiryValid, JS.gt, JS.strictEq.
      replace (x =? 0)%Z with false by (symmetry; now apply Z.eqb_neq).
      rewrite orb_false_r.
      destruct (x <? now)%Z eqn:E1, (now <? x)%Z eqn:E2; simpl;
        rewrite ?Z.ltb_lt, ?Z.ltb_ge in *; split; intros H; try lia; try discriminate.
Qed.

Lemma X18_older_filter_witness :
  let line := cookieLine ".example.com" "TRUE" "/" "FALSE" "1700000000" "sid" "abc" in
  exists expired w',
    isCookieExpired line (steadyWorld 0 (fun _ => None) 1600000000000) = (Ok expired, w')
    /\ (negb expired = true <-> (1700000000 <> 1600000000 \/ 1700000000 = 0)%Z).
Proof.
  intros line.
  assert (Hfields : 7 <= length (JS.split JS.TAB line)) by (vm_compute; lia).
  assert (Hradix : JS.parseInt (JS.at_ (JS.split JS.TAB line) 4) 0
                   = JS.parseInt (JS.at_ (JS.split JS.TAB line) 4) 10) by reflexivity.
  destruct (@X18_the_older_filter_against_the_v3_filters line
              (steadyWorld 0 (fun _ => None) 1600000000000) Hfields Hradix)
    as [expired [w' [H1 H2]]].
  exists expired, w'. split; [exact H1|].
  exact (proj1 H2).
Defined.

Example hexadecimal_expiry_is_read_differently :
  JS.parseInt "0x10" 0 = JS.Int 16 /\ JS.parseInt "0x10" 10 = JS.Int 0.
Proof. split; reflexivity. Qed.

Lemma isCookieExpired_returns (line : string) (w : World) :
  exists expired w', isCookieExpired line w = (Ok expired, w').
Proof.
  unfold isCookieExpired. destruct (_ <? 7); [unfold ret; eauto|].
  destruct (JS.strictNeq _ _); [|unfold ret; eauto].
  unfold bind. rewrite nowSeconds_run. unfold ret. eauto.
Qed.

(** The body of the loop of [parseNetscapeCookies] returns, having filed
    the line under its key or left the map as it was. *)
Lemma netscapeLine_cases (line : string) (dm : JS.Map (list string)) (v e : nat) (w : World) :
  exists dm' v' e' w',
    netscapeLine line (dm, v, e) w = (Ok (dm', v', e'), w')
    /\ (dm' = dm
        \/ (sevenFields line = true /\ acceptableKey (netscapeKey line)
            /\ dm' = JS.push (JS.ensure dm (netscapeKey line)) (netscapeKey line) line)).
Proof.
  unfold netscapeLine, sevenFields, netscapeKey.
  set (parts := JS.split JS.TAB line). set (domain := replaceLeadingDot (JS.at_ parts 0)).
  destruct (length parts <? 7) eqn:E7; [unfold ret; eexists _, _, _, _; eauto|].
  destruct (JS.truthy domain) eqn:Et; cbn [negb orb andb]; [|unfold ret; eexists _, _, _, _; eauto].
  destruct (forallb printable (chars domain)) eqn:Ep; cbn [negb];
    [|unfold ret; eexists _, _, _, _; eauto].
  destruct (253 <? String.length domain) eqn:El; cbn [orb];
    [unfold ret; eexists _, _, _, _; eauto|].
  destruct (JS.includes domain _); cbn [orb]; [unfold ret; eexists _, _, _, _; eauto|].
  unfold CONFIG_checkExpiration, bind.
  destruct (isCookieExpired_returns line w) as [expired [w' Ex]]. rewrite Ex.
  destruct expired; unfold ret; eexists _, _, _, _; (split; [reflexivity|]); [now left|].
  right. split; [apply Nat.leb_le; apply Nat.ltb_ge in E7; exact E7|].
  split; [|reflexivity].
  split; [intros H; rewrite H in Et; discriminate|].
  split; [exact Ep | apply Nat.ltb_ge in El; exact El].
Qed.

Lemma keys_ensure_NoDup {V} (m : JS.Map (list V)) (k : string) :
  NoDup (JS.keys m) -> NoDup (JS.keys (JS.ensure m k)).
Proof. unfold JS.ensure. destruct (JS.has m k); [auto | apply NoDup_keys_set]. Qed.

Lemma keys_push_NoDup {V} (m : JS.Map (list V)) (k : string) (x : V) :
  NoDup (JS.keys m) -> NoDup (JS.keys (JS.push m k x)).
Proof. unfold JS.push. destruct (JS.get m k); [apply NoDup_keys_set | auto]. Qed.

(** X19. The older parser files every line it keeps under a key it has
    checked: a key is never empty, is made of printable ASCII characters and is
    at most 253 characters long; the lines under a key are lines of the file
    with seven fields at least whose first field, less one leading dot, is the
    key; no key has an empty list and no key occurs twice. The parser returns
    whenever the file can be read. *)
Theorem X19_parseNetscapeCookies_checks_its_keys
    (filePath text : string) (mtime : Z) (w : World)
    (Hfile : files w filePath = Some (text, mtime)) :
  exists domainMap w',
    parseNetscapeCookies filePath w = (Ok domainMap, w')
    /\ heap w' = heap w
    /\ NoDup (JS.keys domainMap)
    /\ forall k ls, JS.get domainMap k = Some ls ->
         acceptableKey k /\ ls <> []
         /\ forall x, In x ls ->
              In x (netscapeLines text) /\ sevenFields x = true /\ netscapeKey x = k.
Proof.
  assert (G : forall lines dm v e w0 (P : string -> string -> Prop),
             NoDup (JS.keys dm) ->
             (forall k ls, JS.get dm k = Some ls ->
                           acceptableKey k /\ ls <> [] /\ forall x, In x ls -> P k x) ->
             (forall x, In x lines -> sevenFields x = true -> P (netscapeKey x) x) ->
             exists dm' v' e' w',
               forOf lines netscapeLine (dm, v, e) w0 = (Ok (dm', v', e'), w')
               /\ heap w' = heap w0 /\ NoDup (JS.keys dm')
               /\ forall k ls, JS.get dm' k = Some ls ->
                    acceptableKey k /\ ls <> [] /\ forall x, In x ls -> P k x).
  { induction lines as [|line rest IH]; intros dm v e w0 P Hnd Hdm Hl.
    - exists dm, v, e, w0. cbn. auto.
    - cbn [forOf]. unfold bind.
      destruct (netscapeLine_cases line dm v e w0) as [dm1 [v1 [e1 [w1 [E Hc]]]]].
      rewrite E.
      assert (Hh : heap w1 = heap w0).
      { revert E. unfold netscapeLine.
        destruct (_ <? 7); [unfold ret; congruence|].
        destruct (_ || _); [unfold ret; congruence|].
        destruct (_ || _); [unfold ret; congruence|].
        unfold CONFIG_checkExpiration, bind, isCookieExpired.
        destruct (_ <? 7); [unfold ret; cbn; congruence|].
        destruct (JS.strictNeq _ _).
        - unfold bind. rewrite nowSeconds_run. unfold ret.
          destruct (JS.lt _ _); intros H; injection H as _ _ _ <-; reflexivity.
        - unfold ret. cbn. congruence. }
      destruct (IH dm1 v1 e1 w1 P) as [dm' [v' [e' [w' [E' [Hh' [Hnd' Hdm']]]]]]].
      + destruct Hc as [-> | [_ [_ ->]]]; [exact Hnd|].
        now apply keys_push_NoDup, keys_ensure_NoDup.
      + destruct Hc as [-> | [H7 [Hk ->]]]; [exact Hdm|].
        intros k ls Hget.
        destruct (String.eqb_spec k (netscapeKey line)) as [-> | Hne].
        * rewrite (get_push_same _ _ _ (get_ensure_same dm (netscapeKey line))) in Hget.
          injection Hget as <-. split; [exact Hk|].
          split; [intros Hnil; apply app_eq_nil in Hnil; destruct Hnil; discriminate|].
          intros x Hx. apply in_app_or in Hx. destruct Hx as [Hx | [<- | []]].
          -- unfold JS.getOrEmpty in Hx.
             destruct (JS.get dm (netscapeKey line)) as [l|] eqn:El; [|destruct Hx].
             destruct (Hdm _ _ El) as [_ [_ Hp]]. now apply Hp.
          -- apply Hl; [now left | exact H7].
        * rewrite get_push_other, get_ensure_other in Hget by exact Hne.
          exact (Hdm k ls Hget).
      + intros x Hx. apply Hl. now right.
      + exists dm', v', e', w'. split; [exact E'|]. split; [congruence|]. now split. }
  unfold parseNetscapeCookies, bind, readFileSync. rewrite Hfile.
  change (filter _ (splitLines text)) with (netscapeLines text).
  destruct (G (netscapeLines text) [] 0 0 w
              (fun k x => In x (netscapeLines text) /\ sevenFields x = true
                          /\ netscapeKey x = k))
    as [dm' [v' [e' [w' [E [Hh [Hnd Hdm]]]]]]].
  - constructor.
  - intros k ls Hget. discriminate.
  - intros x Hx H7. auto.
  - match goal with
    | |- context [forOf ?l ?f ?a ?w0] => destruct (forOf l f a w0) as [r w1] eqn:E0
    end.
    assert (Er : (r, w1) = (Ok (dm', v', e'), w')) by exact (eq_trans (eq_sym E0) E).
    injection Er as -> ->. unfold ret. exists dm', w'. auto.
Qed.

Lemma X19_parseNetscapeCookies_witness :
  let text := ("# Netscape HTTP Cookie File" ++ String CR (String JS.LF
               (cookieLine ".Example.com" "TRUE" "/" "FALSE" "0" "sid" "abc"
                ++ String CR (String JS.LF EmptyString))))%string in
  exists domainMap w',
    parseNetscapeCookies "cookies.txt" (steadyWorld 0 (oneFile "cookies.txt" text) 0)
    = (Ok domainMap, w')
    /\ NoDup (JS.keys domainMap).
Proof.
  intros text.
  assert (Hfile : files (steadyWorld 0 (oneFile "cookies.txt" text) 0) "cookies.txt"
                  = Some (text, 0%Z)) by reflexivity.
  destruct (@X19_parseNetscapeCookies_checks_its_keys "cookies.txt" text 0%Z _ Hfile)
    as [domainMap [w' [H1 [_ [H2 _]]]]].
  exists domainMap, w'. split; [exact H1 | exact H2].
Defined.

Example parseNetscapeCookies_on_a_small_file :
  let text := ("# Netscape HTTP Cookie File" ++ String CR (String JS.LF
               (cookieLine ".Example.com" "TRUE" "/" "FALSE" "0" "sid" "abc"
                ++ String CR (String JS.LF
               (cookieLine (String (ascii_of_nat 233) "cole.example") "TRUE" "/" "FALSE" "0"
                           "sid" "abc" ++ String JS.LF EmptyString)))))%string in
  fst (parseNetscapeCookies "cookies.txt" (steadyWorld 0 (oneFile "cookies.txt" text) 0))
  = Ok [("Example.com",
         [cookieLine ".Example.com" "TRUE" "/" "FALSE" "0" "sid" "abc"])].
Proof. vm_compute. reflexivity. Qed.

Lemma prepareCookie_cases (line : string) (cookies : list PuppeteerCookie) (w : World) :
  (preparable line = false /\ prepareCookie line cookies w = (Ok cookies, w))
  \/ (preparable line = true
      /\ exists c, preparedCookie c
                   /\ prepareCookie line cookies w = (Ok (cookies ++ [c]), ticked w)).
Proof.
  unfold prepareCookie, preparable.
  destruct (length (JS.split JS.TAB line) <? 7) eqn:El.
  { left. split; [|reflexivity]. apply Nat.ltb_lt in El.
    replace (7 <=? _) with false by (symmetry; apply Nat.leb_gt; lia). reflexivity. }
  apply Nat.ltb_ge in El.
  replace (7 <=? _) with true by (symmetry; apply Nat.leb_le; lia).
  destruct (JS.truthy (JS.trim (JS.at_ _ 5))) eqn:En; cbn [negb orb andb];
    [|left; split; reflexivity].
  destruct (JS.truthy (JS.trim (JS.at_ _ 6))) eqn:Ev; cbn [negb];
    [|left; split; reflexivity].
  right. split; [reflexivity|].
  eexists. split; [|unfold tryCatch, bind; rewrite Date_now_run; reflexivity].
  unfold preparedCookie. cbn [pc_name pc_value pc_httpOnly].
  split; [intros H; rewrite H in En; discriminate|].
  split; [intros H; rewrite H in Ev; discriminate | reflexivity].
Qed.

Lemma prepareLoop_run (lines : list string) (acc : list PuppeteerCookie) (w : World) :
  exists cookies w1,
    forOf lines prepareCookie acc w = (Ok cookies, w1)
    /\ trace w1 = trace w /\ oracle w1 = oracle w /\ heap w1 = heap w
    /\ length cookies = length acc + length (filter preparable lines)
    /\ ticks w1 = length (filter preparable lines) + ticks w
    /\ (Forall preparedCookie acc -> Forall preparedCookie cookies).
Proof.
  revert acc w. induction lines as [|line rest IH]; intros acc w.
  - exists acc, w. cbn. unfold ret. repeat split; auto; lia.
  - cbn [forOf filter]. unfold bind.
    destruct (prepareCookie_cases line acc w) as [[Hp E] | [Hp [c [Hc E]]]];
      rewrite E, Hp.
    + destruct (IH acc w) as [cookies [w1 [E1 [Ht [Ho [Hh [Hl [Hk Hf]]]]]]]].
      exists cookies, w1. split; [exact E1|]. repeat split; auto.
    + destruct (IH (acc ++ [c]) (ticked w))
        as [cookies [w1 [E1 [Ht [Ho [Hh [Hl [Hk Hf]]]]]]]].
      exists cookies, w1. split; [exact E1|]. rewrite length_app in Hl.
      cbn [length ticked ticks] in *.
      repeat split; auto; try lia.
      intros Ha. apply Hf. apply Forall_app. split; [exact Ha | now constructor].
Qed.

Lemma injectBatches_run (fuel : nat) :
  forall (rest : list PuppeteerCookie) (v : nat) (w : World),
    length rest <= fuel ->
    let plan := batchPlan (oracle w) fuel (length rest) (ticks w) in
    exists w' new,
      injectBatches fuel rest v w = (Ok (v + cookiesThrough plan), w')
      /\ trace w' = new ++ trace w
      /\ map snd new = batchEvents (map fst plan)
      /\ Forall (fun k => 1 <= k <= batchSize) (map fst plan)
      /\ list_sum (map fst plan) = length rest
      /\ oracle w' = oracle w /\ heap w' = heap w.
Proof.
  induction fuel as [|fuel IH]; intros rest v w Hfuel.
  - destruct rest; [|simpl in Hfuel; lia].
    exists w, []. cbn. unfold ret. rewrite Nat.add_0_r. repeat split; auto.
  - destruct rest as [|c rest'].
    + exists w, []. cbn. unfold ret. rewrite Nat.add_0_r. repeat split; auto.
    + set (rest := c :: rest') in *.
      assert (Hk : 1 <= length (firstn batchSize rest) <= batchSize).
      { rewrite length_firstn. unfold batchSize, rest. cbn [length]. lia. }
      assert (Hsize : length (firstn batchSize rest) = Nat.min batchSize (length rest))
        by apply length_firstn.
      assert (Hrest : length (skipn batchSize rest) = length rest - batchSize)
        by apply length_skipn.
      assert (Hsum : length (firstn batchSize rest) + length (skipn batchSize rest)
                     = length rest).
      { rewrite <- length_app, firstn_skipn. reflexivity. }
      assert (Hlater : length (skipn batchSize rest) <= fuel) by lia.
      assert (Hplan : forall o t,
                batchPlan o (S fuel) (length rest) t
                = (length (firstn batchSize rest), returnsAt o (1 + t))
                  :: batchPlan o fuel (length (skipn batchSize rest))
                       (if returnsAt o (1 + t)
                        then (if 0 <? length (skipn batchSize rest) then 4 + t else 3 + t)
                        else 2 + t)).
      { intros o t. cbn [batchPlan]. rewrite Hsize, Hrest.
        unfold rest at 1. cbn [length Nat.eqb]. reflexivity. }
      cbv zeta. rewrite Hplan. clear Hplan.
      change (injectBatches (S fuel) rest v w)
        with (bind (tryCatch
                (_injectionStart <- Date_now ;;
                 driver (EvSetCookie (length (firstn batchSize rest))) ;;;
                 _injectionEnd <- Date_now ;;
                 (if 0 <? length (skipn batchSize rest) then sleep 100 else ret tt) ;;;
                 ret (v + length (firstn batchSize rest)))
                (fun _ => ret v))
               (fun v' => injectBatches fuel (skipn batchSize rest) v') w).
      unfold bind at 1. unfold tryCatch, bind. rewrite Date_now_run, driver_run.
      cbn [ticked oracle ticks]. unfold returnsAt. cbn [Nat.add].
      destruct (failure (oracle w (S (ticks w)))) as [msg|] eqn:Hf.
      * unfold ret.
        match goal with |- context [injectBatches fuel _ v ?w1] =>
          destruct (IH (skipn batchSize rest) v w1 Hlater)
            as [w' [new [E [Ht [Hm [Hs [Hl [Ho Hh]]]]]]]]
        end.
        cbn [emitted ticked oracle ticks] in *.
        exists w',
               (new ++ [(now_ms (ticked w), EvSetCookie (length (firstn batchSize rest)))]).
        split; [rewrite E; reflexivity|].
        split; [rewrite Ht, <- app_assoc; reflexivity|].
        split; [rewrite map_app, Hm; unfold batchEvents; cbn [map fst rev]; reflexivity|].
        split; [constructor; [exact Hk | exact Hs]|].
        split; [cbn [map fst]; unfold list_sum in *; cbn [fold_right]; lia|].
        split; [exact Ho | exact Hh].
      * rewrite Date_now_run.
        destruct (0 <? length (skipn batchSize rest));
          [rewrite sleep_run|]; unfold ret;
          match goal with |- context [injectBatches fuel _ _ ?w1] =>
            destruct (IH (skipn batchSize rest) (v + length (firstn batchSize rest)) w1 Hlater)
              as [w' [new [E [Ht [Hm [Hs [Hl [Ho Hh]]]]]]]]
          end;
          cbn [emitted ticked slept oracle ticks] in *;
          (exists w',
                  (new ++ [(now_ms (ticked w),
                            EvSetCookie (length (firstn batchSize rest)))]));
          (split; [rewrite E; unfold cookiesThrough, list_sum;
                   cbn [filter snd map fst fold_right]; f_equal; f_equal; lia|]);
          (split; [rewrite Ht, <- app_assoc; reflexivity|]);
          (split; [rewrite map_app, Hm; unfold batchEvents; cbn [map fst rev]; reflexivity|]);
          (split; [constructor; [exact Hk | exact Hs]|]);
          (split; [cbn [map fst]; unfold list_sum in *; cbn [fold_right]; lia|]);
          (split; [exact Ho | exact Hh]).
Qed.

Lemma cookiesThrough_all (outcomes : list (nat * bool)) :
  Forall (fun o => snd o = true) outcomes ->
  cookiesThrough outcomes = list_sum (map fst outcomes).
Proof.
  unfold cookiesThrough. induction 1 as [|[k b] l Hb _ IH]; [reflexivity|].
  cbn [snd] in Hb. subst b. cbn [filter snd map fst]. unfold list_sum in *.
  cbn [fold_right]. now rewrite IH.
Qed.

Lemma cookiesThrough_none (outcomes : list (nat * bool)) :
  Forall (fun o => snd o = false) outcomes -> cookiesThrough outcomes = 0.
Proof.
  unfold cookiesThrough. induction 1 as [|[k b] l Hb _ IH]; [reflexivity|].
  cbn [snd] in Hb. subst b. cbn [filter snd]. exact IH.
Qed.

Lemma cookiesThrough_le (outcomes : list (nat * bool)) :
  cookiesThrough outcomes <= list_sum (map fst outcomes).
Proof.
  unfold cookiesThrough. induction outcomes as [|[k b] l IH]; [reflexivity|].
  cbn [filter snd map fst]. unfold list_sum in *.
  destruct b; cbn [map fst fold_right]; lia.
Qed.

Lemma batchPlan_outcomes (oracle : nat -> Step) (b : bool) :
  (forall k, returnsAt oracle k = b) ->
  forall fuel count tick, Forall (fun o => snd o = b) (batchPlan oracle fuel count tick).
Proof.
  intros Hb. induction fuel as [|fuel IH]; intros count tick; [constructor|].
  cbn [batchPlan]. destruct (count =? 0); [constructor|].
  constructor; [apply Hb | apply IH].
Qed.

Lemma split_cookieLine (d h p s e n v : string) :
  forallb (without JS.TAB) [d; h; p; s; e; n; v] = true ->
  JS.split JS.TAB (cookieLine d h p s e n v) = [d; h; p; s; e; n; v].
Proof.
  cbn [forallb]. intros H.
  repeat (apply andb_prop in H; let Hx := fresh "Hx" in destruct H as [Hx H]).
  unfold cookieLine. rewrite !split_append_sep.
  rewrite !split_without by assumption. reflexivity.
Qed.

(** X20. The cookie setter of the older script, called without a logger.
    It never throws. It prepares one cookie from every line with seven fields
    at least and a name and a value that are not blank, and from no other
    line: the expiry of a line plays no part in that, so a line long expired
    is prepared like any other. The prepared cookies have a name and a value
    that are not empty. They go to the browser in batches of fifteen at most,
    every cookie in one batch, one call of [page.setCookie] for a batch; the
    number returned is that of the cookies in the batches whose call returned,
    the environment deciding call by call: all the prepared cookies when no
    call fails, none when every call fails. *)
Theorem X20_setCookiesWithTiming_sends_every_prepared_cookie_once
    (domain : string) (cookiesLines : list string) (w : World) :
  let prepared := length (filter preparable cookiesLines) in
  let plan := batchPlan (oracle w) prepared prepared (prepared + ticks w) in
  exists cookies w1 w' new,
    forOf cookiesLines prepareCookie [] w = (Ok cookies, w1)
    /\ Forall preparedCookie cookies
    /\ length cookies = prepared
    /\ length cookies <= length cookiesLines
    /\ (forall d h p s e n v,
           forallb (without JS.TAB) [d; h; p; s; e; n; v] = true ->
           preparable (cookieLine d h p s e n v)
           = JS.truthy (JS.trim n) && JS.truthy (JS.trim v))
    /\ setCookiesWithTiming domain cookiesLines w = (Ok (cookiesThrough plan), w')
    /\ trace w' = new ++ trace w
    /\ map snd new = batchEvents (map fst plan)
    /\ Forall (fun k => 1 <= k <= batchSize) (map fst plan)
    /\ list_sum (map fst plan) = length cookies
    /\ cookiesThrough plan <= length cookies
    /\ heap w' = heap w
    /\ (neverFails w -> cookiesThrough plan = length cookies)
    /\ ((forall k, failure (oracle w k) <> None) -> cookiesThrough plan = 0).
Proof.
  cbv zeta.
  destruct (prepareLoop_run cookiesLines [] w)
    as [cookies [w1 [E1 [Ht1 [Ho1 [Hh1 [Hl1 [Hk1 Hf1]]]]]]]].
  cbn [length Nat.add] in Hl1.
  destruct (@injectBatches_run (length cookies) cookies 0 w1 (le_n _))
    as [w' [new [E [Ht [Hm [Hs [Hl [Ho Hh]]]]]]]].
  rewrite Ho1, Hk1, Hl1 in *. cbn [Nat.add] in E.
  set (prepared := length (filter preparable cookiesLines)) in *.
  set (plan := batchPlan (oracle w) prepared prepared (prepared + ticks w)) in *.
  exists cookies, w1, w', new.
  split; [exact E1|]. split; [apply Hf1; constructor|].
  split; [exact Hl1|].
  split; [rewrite Hl1; apply filter_length_le|].
  split.
  { intros d h p s e n v Hfields. unfold preparable.
    rewrite (split_cookieLine _ _ _ _ _ _ _ Hfields). reflexivity. }
  split; [unfold setCookiesWithTiming, bind; rewrite E1, Hl1; exact E|].
  split; [rewrite Ht, Ht1; reflexivity|].
  split; [exact Hm|]. split; [exact Hs|]. rewrite Hl1. split; [exact Hl|].
  split; [rewrite <- Hl; apply cookiesThrough_le|].
  split; [congruence|].
  split.
  - intros Hnever. rewrite <- Hl. apply cookiesThrough_all, batchPlan_outcomes.
    intros k. unfold returnsAt. now rewrite (Hnever k).
  - intros Hall. apply cookiesThrough_none, batchPlan_outcomes.
    intros k. unfold returnsAt. specialize (Hall k).
    destruct (failure (oracle w k)); [reflexivity | contradiction].
Qed.

Example batches_of_thirty_one_cookies :
  let line := cookieLine ".example.com" "TRUE" "/" "FALSE" "0" "sid" "abc" in
  let r := setCookiesWithTiming "example.com" (repeat line 31)
                                (steadyWorld 0 (fun _ => None) 0) in
  fst r = Ok 31
  /\ map snd (trace (snd r)) = [EvSetCookie 1; EvSetCookie 15; EvSetCookie 15].
Proof. vm_compute. split; reflexivity. Qed.

(** Thirty-one lines long expired, the second call of [page.setCookie]
    failing: the three batches are sent and sixteen cookies counted. *)
Example batches_with_a_failed_call :
  let line := cookieLine ".example.com" "TRUE" "/" "FALSE" "1000" "sid" "abc" in
  let oracle := fun k => if k =? 36 then mkStep 0 (Some "Protocol error") EmptyString
                         else mkStep 0 None EmptyString in
  let w := mkWorld oracle (fun _ => None) 1700000000000 0 [] emptyHeap in
  let r := setCookiesWithTiming "example.com" (repeat line 31) w in
  fst r = Ok 16
  /\ map snd (trace (snd r)) = [EvSetCookie 1; EvSetCookie 15; EvSetCookie 15]
  /\ batchPlan oracle 31 31 31 = [(15, true); (15, false); (1, true)].
Proof. vm_compute. repeat split; reflexivity. Qed.

Lemma sortByMtimeDesc_head (files : list DomainFile) :
  files <> [] ->
  exists f rest pre post,
    sortByMtimeDesc files = f :: rest
    /\ files = pre ++ f :: post
    /\ (forall g, In g pre -> (df_mtime g < df_mtime f)%Z)
    /\ (forall g, In g post -> (df_mtime g <= df_mtime f)%Z).
Proof.
  induction files as [|x l IH]; intros Hne; [contradiction|].
  destruct l as [|y l'].
  - exists x, [], [], []. cbn. repeat split; auto; intros g [].
  - destruct IH as [f [rest [pre [post [Es [El [Hpre Hpost]]]]]]]; [discriminate|].
    change (sortByMtimeDesc (x :: y :: l'))
      with (insertByMtime x (sortByMtimeDesc (y :: l'))).
    rewrite Es. cbn [insertByMtime].
    destruct (df_mtime x <? df_mtime f)%Z eqn:E.
    + apply Z.ltb_lt in E. exists f, (insertByMtime x rest), (x :: pre), post.
      split; [reflexivity|]. split; [rewrite El; reflexivity|].
      split; [|exact Hpost].
      intros g [<- | Hg]; [exact E | now apply Hpre].
    + apply Z.ltb_ge in E. exists x, (f :: rest), [], (y :: l').
      split; [reflexivity|]. split; [reflexivity|].
      split; [intros g []|].
      intros g Hg. rewrite El in Hg. apply in_app_or in Hg.
      destruct Hg as [Hg | [<- | Hg]].
      * specialize (Hpre g Hg). lia.
      * exact E.
      * specialize (Hpost g Hg). lia.
Qed.

Lemma get_not_in_keys {V} (m : JS.Map V) (k : string) :
  ~ In k (JS.keys m) -> JS.get m k = None.
Proof.
  unfold JS.keys. induction m as [|[k' v] m IH]; simpl; intros H; [reflexivity|].
  destruct (String.eqb_spec k' k) as [-> | Hne]; [tauto|]. apply IH. tauto.
Qed.

Lemma dedupe_fold {V W} (h : V -> W) (entries : JS.Map V) :
  forall acc : JS.Map W,
    NoDup (JS.keys entries) ->
    (forall k, In k (JS.keys entries) -> JS.has acc k = false) ->
    let out := fold_left (fun deduped entry =>
                            let '(domain, files) := entry in
                            JS.set deduped domain (h files)) entries acc in
    JS.keys out = JS.keys acc ++ JS.keys entries
    /\ forall k, JS.get out k = match JS.get entries k with
                                | Some v => Some (h v)
                                | None => JS.get acc k
                                end.
Proof.
  induction entries as [|[k0 v0] rest IH]; intros acc Hnd Hfresh; cbn [fold_left].
  - split; [now rewrite app_nil_r | reflexivity].
  - cbn [JS.keys map fst] in Hnd. inversion Hnd as [|? ? Hk0 Hrest]; subst.
    destruct (IH (JS.set acc k0 (h v0)) Hrest) as [Hkeys Hget].
    + intros k Hk. unfold JS.has.
      rewrite get_set_other by (intros ->; contradiction).
      apply (Hfresh k). now right.
    + split.
      * rewrite Hkeys, keys_set, (Hfresh k0) by now left.
        rewrite <- app_assoc. reflexivity.
      * intros k. rewrite Hget. cbn [JS.get].
        destruct (String.eqb_spec k0 k) as [<- | Hne].
        -- rewrite (get_not_in_keys rest k0 Hk0). apply get_set_same.
        -- destruct (JS.get rest k); [reflexivity|].
           apply get_set_other. congruence.
Qed.

(** X21. [deduplicateDomains] keeps the domains, in their order, and picks
    for each the file with the latest modification time, the first of them in
    the list when several have it. *)
Theorem X21_deduplicateDomains_picks_the_newest_file
    (domainFiles : JS.Map (list DomainFile))
    (Hkeys : NoDup (JS.keys domainFiles)) :
  JS.keys (deduplicateDomains domainFiles) = JS.keys domainFiles
  /\ forall domain files,
       JS.get domainFiles domain = Some files -> files <> [] ->
       exists f pre post,
         JS.get (deduplicateDomains domainFiles) domain = Some (Some f)
         /\ files = pre ++ f :: post
         /\ (forall g, In g pre -> (df_mtime g < df_mtime f)%Z)
         /\ (forall g, In g post -> (df_mtime g <= df_mtime f)%Z).
Proof.
  destruct (@dedupe_fold _ _ (fun files => hd_error (sortByMtimeDesc files)) domainFiles []
              Hkeys (fun _ _ => eq_refl)) as [Hk Hg].
  split; [exact Hk|].
  intros domain files Hget Hne.
  destruct (sortByMtimeDesc_head Hne) as [f [rest [pre [post [Es [El [Hpre Hpost]]]]]]].
  exists f, pre, post. split; [|now split].
  unfold deduplicateDomains. rewrite Hg, Hget, Es. reflexivity.
Qed.

Lemma X21_deduplicateDomains_witness :
  let old := mkDomainFile "a/cookies.txt" 100 [] in
  let new1 := mkDomainFile "b/cookies.txt" 200 [] in
  let new2 := mkDomainFile "c/cookies.txt" 200 [] in
  exists f pre post,
    JS.get (deduplicateDomains [("example.com", [old; new1; new2])]) "example.com"
    = Some (Some f)
    /\ [old; new1; new2] = pre ++ f :: post
    /\ (forall g, In g pre -> (df_mtime g < df_mtime f)%Z)
    /\ (forall g, In g post -> (df_mtime g <= df_mtime f)%Z).
Proof.
  intros old new1 new2.
  assert (Hkeys : NoDup (JS.keys [("example.com", [old; new1; new2])]))
    by (constructor; [intros [] | constructor]).
  destruct (@X21_deduplicateDomains_picks_the_newest_file _ Hkeys) as [_ H].
  apply H; [reflexivity | discriminate].
Defined.

Example newest_file_of_three :
  let old := mkDomainFile "a/cookies.txt" 100 [] in
  let new1 := mkDomainFile "b/cookies.txt" 200 [] in
  let new2 := mkDomainFile "c/cookies.txt" 200 [] in
  JS.get (deduplicateDomains [("example.com", [old; new1; new2])]) "example.com"
  = Some (Some new1).
Proof. reflexivity. Qed.

Lemma includes_trans (s p q : string) :
  JS.includes s p = true -> JS.includes p q = true -> JS.includes s q = true.
Proof.
  rewrite !includes_app. intros [a [b ->]] [c [d ->]].
  exists (a ++ c)%string, (d ++ b)%string. now rewrite !append_assoc.
Qed.

(** X22. The verdict of [checkLoginStatus]. The page counts as logged in
    exactly when one of the three positive indicators holds, which is when the
    confidence is 20 at least; the login keywords take part in the confidence
    only. A page with the login keyword [create account] or [logout] counts as
    logged in, since [account] and [logout] are logged-in keywords. The
    confidence lies between 0 and 100, and the function never throws: when
    reading the page fails, the answer is "not logged in". *)
Theorem X22_checkLoginStatus_verdict (domain html : string) (w : World) :
  (exists i,
      ls_indicators (loginStatusOf domain html) = Some i
      /\ ls_loggedIn (loginStatusOf domain html)
         = li_domainSpecific i || li_loggedInKeywords i || li_userContent i
      /\ (JS.includes (JS.toLowerCase html) "create account" = true
          \/ JS.includes (JS.toLowerCase html) "logout" = true ->
          ls_loggedIn (loginStatusOf domain html) = true
          /\ li_noLoginKeywords i = false))
  /\ (ls_loggedIn (loginStatusOf domain html) = true
      <-> (20 <= ls_confidence (loginStatusOf domain html))%Z)
  /\ (0 <= ls_confidence (loginStatusOf domain html) <= 100)%Z
  /\ exists r w',
       checkLoginStatus domain w = (Ok r, w')
       /\ match failure (oracle w (ticks w)) with
          | Some _ => r = mkLoginStatus false 0 None
          | None => r = loginStatusOf domain (payload (oracle w (ticks w)))
          end.
Proof.
  split; [|split; [|split]].
  - eexists. split; [reflexivity|]. cbn [li_domainSpecific li_loggedInKeywords li_userContent
                                          li_noLoginKeywords].
    split.
    + unfold loginStatusOf. cbn [ls_loggedIn].
      set (ds := if JS.includes domain "google" then _ else _).
      set (kw := existsb _ LOGGED_IN_KEYWORDS).
      set (uc := existsb _ userIndicators).
      set (lk := existsb _ LOGIN_KEYWORDS).
      destruct ds, kw, uc, lk; reflexivity.
    + intros H.
      assert (Hin : existsb (fun kw => JS.includes (JS.toLowerCase html) kw)
                            LOGGED_IN_KEYWORDS = true).
      { apply existsb_exists. destruct H as [H | H].
        - exists "account"%string. split; [unfold LOGGED_IN_KEYWORDS; simpl; tauto|].
          apply (includes_trans _ _ _ H). reflexivity.
        - exists "logout"%string. split; [unfold LOGGED_IN_KEYWORDS; simpl; tauto | exact H]. }
      assert (Hlogin : existsb (fun kw => JS.includes (JS.toLowerCase html) kw)
                               LOGIN_KEYWORDS = true).
      { apply existsb_exists. destruct H as [H | H].
        - exists "create account"%string.
          split; [unfold LOGIN_KEYWORDS; simpl; tauto | exact H].
        - exists "logout"%string. split; [unfold LOGIN_KEYWORDS; simpl; tauto | exact H]. }
      unfold loginStatusOf. cbn [ls_loggedIn]. rewrite Hin, Hlogin.
      split; [|reflexivity]. rewrite orb_true_r. reflexivity.
  - unfold loginStatusOf. cbn [ls_loggedIn ls_confidence].
    set (ds := if JS.includes domain "google" then _ else _).
    set (kw := existsb _ LOGGED_IN_KEYWORDS).
    set (uc := existsb _ userIndicators).
    set (lk := existsb _ LOGIN_KEYWORDS).
    destruct ds, kw, uc, lk; cbn; split; intros H; try reflexivity; try lia; try discriminate.
  - unfold loginStatusOf. cbn [ls_confidence].
    set (ds := if JS.includes domain "google" then _ else _).
    set (kw := existsb _ LOGGED_IN_KEYWORDS).
    set (uc := existsb _ userIndicators).
    set (lk := existsb _ LOGIN_KEYWORDS).
    destruct ds, kw, uc, lk; cbn; lia.
  - unfold checkLoginStatus, tryCatch, bind. rewrite driver_run.
    destruct (failure (oracle w (ticks w))); unfold ret; eauto.
Qed.

Example a_login_page_counts_as_logged_in :
  let r := loginStatusOf "shop.example"
             "<html><body>Sign in or create account. Forgot password?</body></html>" in
  ls_loggedIn r = true /\ ls_confidence r = 30%Z.
Proof. vm_compute. split; reflexivity. Qed.

Lemma retryFrom_driver (e : Event) (maxRetries : nat) :
  forall (attempts i : nat) (lastError : string) (w : World),
    i + attempts = S maxRetries -> 0 < attempts ->
    exists k new r w',
      retryFrom (driver e) maxRetries i attempts lastError w = (r, w')
      /\ 1 <= k <= attempts
      /\ trace w' = new ++ trace w
      /\ map snd new = repeat e k
      /\ (now_ms w + 500 * (Z.of_nat k - 1) * (2 * Z.of_nat i + Z.of_nat k) <= now_ms w')%Z
      /\ oracle w' = oracle w
      /\ match r with
         | Ok _ => True
         | Throw msg => k = attempts /\ exists n, failure (oracle w n) = Some msg
         end
      /\ (neverFails w -> k = 1).
Proof.
  induction attempts as [|attempts IH]; intros i lastError w Hi Hpos; [lia|].
  cbn [retryFrom]. unfold tryCatch. rewrite driver_run.
  destruct (failure (oracle w (ticks w))) as [msg|] eqn:Hf.
  - unfold bind. destruct attempts as [|attempts'].
    + replace (i <? maxRetries) with false by (symmetry; apply Nat.ltb_ge; lia).
      unfold ret. cbn [retryFrom]. unfold throw.
      exists 1, [(now_ms w, e)], (Throw msg), (ticked (emitted e w)).
      split; [reflexivity|]. split; [lia|]. split; [reflexivity|]. split; [reflexivity|].
      split; [cbn; lia|]. split; [reflexivity|].
      split; [split; [reflexivity | now exists (ticks w)]|].
      intros Hn. rewrite (Hn (ticks w)) in Hf. discriminate.
    + replace (i <? maxRetries) with true by (symmetry; apply Nat.ltb_lt; lia).
      rewrite sleep_run.
      match goal with |- context [retryFrom _ _ _ _ _ ?w1] =>
        destruct (IH (S i) msg w1 ltac:(lia) ltac:(lia))
          as [k [new [r [w' [E [Hk [Ht [Hm [Hc [Ho [Hr Hn]]]]]]]]]]]
      end.
      exists (S k), (new ++ [(now_ms w, e)]), r, w'.
      split; [exact E|]. split; [lia|].
      split; [rewrite Ht, <- app_assoc; reflexivity|].
      split.
      { rewrite map_app, Hm. cbn [map snd app].
        change (repeat e k ++ [e] = repeat e (S k)).
        clear. induction k; simpl; [reflexivity | now rewrite IHk]. }
      split.
      { cbn [slept ticked emitted now_ms] in Hc.
        pose proof (N2Z.is_nonneg (lag (oracle w (ticks w)))).
        pose proof (N2Z.is_nonneg (lag (oracle w (S (ticks w))))).
        cbn [oracle ticks] in Hc. nia. }
      split; [exact Ho|]. split.
      { destruct r as [a|m]; [exact I|]. destruct Hr as [-> [n Hn']].
        split; [reflexivity|]. exists n. exact Hn'. }
      intros Hnever. rewrite (Hnever (ticks w)) in Hf. discriminate.
  - exists 1, [(now_ms w, e)], (Ok (payload (oracle w (ticks w)))), (ticked (emitted e w)).
    split; [reflexivity|]. split; [lia|]. split; [reflexivity|]. split; [reflexivity|].
    split; [cbn; pose proof (N2Z.is_nonneg (lag (oracle w (ticks w)))); lia|].
    split; [reflexivity|]. split; [exact I|]. reflexivity.
Qed.

(** X23. [retryOperation] around one call of the browser, as the older
    script uses it for [page.goto]. The call is made once at least and
    [maxRetries + 1] times at most; when it has been made [k] times, the
    wrapper has waited [1000 + 2000 + ... + 1000 (k - 1)] milliseconds at
    least. It throws only when all the [maxRetries + 1] attempts have been
    made, and then the error of a failed call; with no failure there is one
    attempt. *)
Theorem X23_retryOperation_attempts_and_waits
    (e : Event) (maxRetries : nat) (w : World) :
  exists k new r w',
    retryOperation (driver e) maxRetries w = (r, w')
    /\ 1 <= k <= S maxRetries
    /\ trace w' = new ++ trace w
    /\ map snd new = repeat e k
    /\ (now_ms w + 500 * (Z.of_nat k - 1) * Z.of_nat k <= now_ms w')%Z
    /\ match r with
       | Ok _ => True
       | Throw msg => k = S maxRetries /\ exists n, failure (oracle w n) = Some msg
       end
    /\ (neverFails w -> k = 1).
Proof.
  unfold retryOperation.
  destruct (@retryFrom_driver e maxRetries (S maxRetries) 0 "undefined" w
              ltac:(lia) ltac:(lia))
    as [k [new [r [w' [E [Hk [Ht [Hm [Hc [_ [Hr Hn]]]]]]]]]]].
  exists k, new, r, w'. split; [exact E|]. split; [exact Hk|]. split; [exact Ht|].
  split; [exact Hm|]. split; [|split; [exact Hr | exact Hn]].
  replace (2 * Z.of_nat 0 + Z.of_nat k)%Z with (Z.of_nat k) in Hc by lia. exact Hc.
Qed.

Example three_retries_of_a_failing_navigation :
  let w := mkWorld (fun _ => mkStep 0 (Some "net::ERR_TIMED_OUT") EmptyString)
                   (fun _ => None) 0 0 [] emptyHeap in
  let r := retryOperation (driver (EvGoto "https://example.com/")) 3 w in
  fst r = Throw "net::ERR_TIMED_OUT"
  /\ map fst (trace (snd r)) = [6000; 3000; 1000; 0]%Z.
Proof. vm_compute. split; reflexivity. Qed.

(** ** The store loops of the discovery parsers *)

Section StoreGroups.

Context {G L : Type}.
Variable on : (JS.Map (list G) -> JS.Map (list G)) -> Heap -> Heap.
Variable proj : Heap -> JS.Map (list G).
Variable mk : L -> Z -> G.
Hypothesis proj_on : forall f h, proj (on f h) = f (proj h).

(** The store loop adds one group under every key of the per-file map. *)
Lemma storeGroups_effect (filePath content : string) (mtime : Z) :
  forall (fileMap : JS.Map L) (w : World),
    files w filePath = Some (content, mtime) ->
    NoDup (JS.keys fileMap) ->
    exists h',
      storeGroups on mk filePath fileMap w = (Ok tt, heapSet h' w)
      /\ groupsAdded (fun items => mk items mtime) (proj (heap w)) (proj h') fileMap
      /\ forall (X : Type) (other : Heap -> X),
           (forall f h, other (on f h) = other h) -> other h' = other (heap w).
Proof.
  unfold storeGroups.
  induction fileMap as [|[k0 items0] rest IH]; intros w Hfile Hnd.
  - exists (heap w). split; [destruct w; reflexivity|].
    split; [intros k; reflexivity | intros X other _; reflexivity].
  - cbn [JS.keys map fst] in Hnd. inversion Hnd as [|? ? Hk0 Hrest]; subst.
    cbn [forEach]. unfold bind at 1. unfold bind at 1. rewrite modifyHeap_run.
    unfold bind at 1. unfold statSync_mtime at 1. cbn [withHeap files]. rewrite Hfile.
    rewrite modifyHeap_run.
    match goal with |- context [forEach rest ?body ?w1] =>
      destruct (IH w1 Hfile Hrest) as [h' [E [Hg Ho]]]
    end.
    exists h'. split; [exact E|].
    cbn [withHeap heap] in Hg, Ho. rewrite !proj_on in Hg.
    split.
    + intros k. rewrite (Hg k). cbn [JS.get].
      destruct (String.eqb_spec k0 k) as [<- | Hne].
      * rewrite (get_not_in_keys rest k0 Hk0).
        apply (get_push_same _ _ _ (get_ensure_same (proj (heap w)) k0)).
      * assert (Hk : k <> k0) by congruence.
        unfold JS.getOrEmpty.
        rewrite get_push_other, get_ensure_other by exact Hk. reflexivity.
    + intros X other Hother. rewrite (Ho X other Hother), !Hother. reflexivity.
Qed.

End StoreGroups.

Lemma cookieLoop_world (lines : list string) :
  forall (dc : JS.Map (list string)) (v e : nat) (w : World),
    NoDup (JS.keys dc) ->
    exists dc' v' e' w',
      forOf lines processCookieLine (dc, v, e) w = (Ok (dc', v', e'), w')
      /\ NoDup (JS.keys dc') /\ files w' = files w /\ heap w' = heap w.
Proof.
  induction lines as [|line rest IH]; intros dc v e w Hnd.
  - exists dc, v, e, w. cbn. auto.
  - cbn [forOf]. unfold bind.
    destruct (processCookieLine_cases line dc v e w) as [[_ E] | [_ [E | E]]]; rewrite E.
    + apply IH, Hnd.
    + destruct (IH (JS.push (JS.ensure dc (cookieDomain (JS.split JS.TAB line)))
                            (cookieDomain (JS.split JS.TAB line)) line) (S v) e (ticked w))
        as [dc' [v' [e' [w' [E' [H1 [H2 H3]]]]]]].
      * now apply keys_push_NoDup, keys_ensure_NoDup.
      * exists dc', v', e', w'. auto.
    + destruct (IH (JS.ensure dc (cookieDomain (JS.split JS.TAB line))) v (S e) (ticked w))
        as [dc' [v' [e' [w' [E' [H1 [H2 H3]]]]]]].
      * now apply keys_ensure_NoDup.
      * exists dc', v', e', w'. auto.
Qed.

(** X24. What [processCookieFile] leaves in the heap when the file can be
    read: it returns; under every domain of the per-file map, and under no
    other, the cookie map has one group more, with the relative path, the
    lines filed for the domain (none when all of them had expired) and the
    modification time of the file; the two counters of [stats] have grown by
    the counts of the loop; nothing else in the heap has changed. *)
Theorem X24_processCookieFile_adds_one_group_per_domain
    (filePath relativePath content : string) (mtime : Z) (w : World)
    (Hfile : files w filePath = Some (content, mtime)) :
  exists domainCookies validCount expiredCount w1 w',
    forOf (cookieLines content) processCookieLine ([], 0, 0) w
    = (Ok (domainCookies, validCount, expiredCount), w1)
    /\ processCookieFile filePath relativePath w = (Ok tt, w')
    /\ groupsAdded (fun items => mkCookieGroup relativePath items mtime)
         (cookies (discoveredData (heap w))) (cookies (discoveredData (heap w')))
         domainCookies
    /\ stats (heap w')
       = mkStats (validCookies (stats (heap w)) + validCount)
                 (expiredCookies (stats (heap w)) + expiredCount)
    /\ history (discoveredData (heap w')) = history (discoveredData (heap w))
    /\ passwords (discoveredData (heap w')) = passwords (discoveredData (heap w))
    /\ autofills (discoveredData (heap w')) = autofills (discoveredData (heap w))
    /\ injectionStats (heap w') = injectionStats (heap w)
    /\ analysisResults (heap w') = analysisResults (heap w)
    /\ results (heap w') = results (heap w).
Proof.
  destruct (@cookieLoop_world (cookieLines content) [] 0 0 w (NoDup_nil _))
    as [dc [v [e [w1 [E [Hnd [Hf Hh]]]]]]].
  assert (Hfile1 : files w1 filePath = Some (content, mtime)) by (rewrite Hf; exact Hfile).
  destruct (@storeGroups_effect _ _ onCookies (fun h => cookies (discoveredData h))
              (mkCookieGroup relativePath) (fun f h => eq_refl) filePath content mtime
              dc w1 Hfile1 Hnd) as [h' [Es [Hg Ho]]].
  exists dc, v, e, w1. eexists. split; [exact E|].
  split.
  { unfold processCookieFile, bind, readFileSync. rewrite Hfile.
    match goal with
    | |- context [forOf ?l ?f ?a ?w0] => destruct (forOf l f a w0) as [r0 w0'] eqn:E0
    end.
    assert (Er : (r0, w0') = (Ok (dc, v, e), w1)) by exact (eq_trans (eq_sym E0) E).
    injection Er as -> ->. rewrite Es, modifyHeap_run. reflexivity. }
  cbn [withHeap heapSet heap onStats stats discoveredData injectionStats analysisResults
       results].
  rewrite <- Hh.
  split; [exact Hg|].
  split; [rewrite (Ho _ stats (fun f h => eq_refl)); reflexivity|].
  split; [exact (Ho _ (fun h => history (discoveredData h)) (fun f h => eq_refl))|].
  split; [exact (Ho _ (fun h => passwords (discoveredData h)) (fun f h => eq_refl))|].
  split; [exact (Ho _ (fun h => autofills (discoveredData h)) (fun f h => eq_refl))|].
  split; [exact (Ho _ injectionStats (fun f h => eq_refl))|].
  split; [exact (Ho _ analysisResults (fun f h => eq_refl))|].
  exact (Ho _ results (fun f h => eq_refl)).
Qed.

Lemma X24_processCookieFile_witness :
  let line := cookieLine ".bank.example" "TRUE" "/" "FALSE" "0" "sid" "abc" in
  let w := steadyWorld 0 (oneFile "in/cookies.txt" line) 0 in
  exists w', processCookieFile "in/cookies.txt" "cookies.txt" w = (Ok tt, w')
             /\ stats (heap w') = mkStats 1 0.
Proof.
  intros line w.
  assert (Hfile : files w "in/cookies.txt" = Some (line, 0%Z)) by reflexivity.
  destruct (@X24_processCookieFile_adds_one_group_per_domain "in/cookies.txt" "cookies.txt"
              line 0%Z w Hfile)
    as [dc [v [e [w1 [w' [E [H1 [_ [H2 _]]]]]]]]].
  exists w'. split; [exact H1|].
  assert (Er : (Ok (dc, v, e), w1)
               = forOf (cookieLines line) processCookieLine ([], 0, 0) w)
    by (symmetry; exact E).
  vm_compute in Er. injection Er as -> -> -> _. exact H2.
Defined.

Section UrlFiles.

Variable URL_hostname : string -> option string.

Lemma processUrlLine_map {E} (minParts urlAt : nat) (mk : list string -> string -> E)
    (line : string) (m : JS.Map (list E)) (n : nat) :
  NoDup (JS.keys m) ->
  (forall k entries, JS.get m k = Some entries -> entries <> []) ->
  NoDup (JS.keys (fst (processUrlLine URL_hostname minParts urlAt mk line (m, n))))
  /\ forall k entries,
       JS.get (fst (processUrlLine URL_hostname minParts urlAt mk line (m, n))) k
       = Some entries -> entries <> [].
Proof.
  intros Hnd Hne. unfold processUrlLine.
  destruct (minParts <=? _); [|now split].
  destruct (JS.startsWith _ "http"); [|now split].
  destruct (urlDomain URL_hostname _) as [domain|]; [|now split].
  cbn [fst]. split; [now apply keys_push_NoDup, keys_ensure_NoDup|].
  intros k entries Hget. destruct (String.eqb_spec k domain) as [-> | Hk].
  - rewrite (get_push_same _ _ _ (get_ensure_same m domain)) in Hget.
    injection Hget as <-. intros H. apply app_eq_nil in H. destruct H; discriminate.
  - rewrite get_push_other, get_ensure_other in Hget by exact Hk. exact (Hne k entries Hget).
Qed.

Lemma urlLoop_map {E} (minParts urlAt : nat) (mk : list string -> string -> E)
    (lines : list string) :
  forall (acc : JS.Map (list E) * nat),
    NoDup (JS.keys (fst acc)) ->
    (forall k entries, JS.get (fst acc) k = Some entries -> entries <> []) ->
    let out := fold_left (fun acc line => processUrlLine URL_hostname minParts urlAt mk line acc)
                         lines acc in
    NoDup (JS.keys (fst out))
    /\ forall k entries, JS.get (fst out) k = Some entries -> entries <> [].
Proof.
  induction lines as [|line rest IH]; intros [m n] Hnd Hne; cbn [fold_left]; [now split|].
  cbn [fst] in Hnd, Hne.
  destruct (@processUrlLine_map E minParts urlAt mk line m n Hnd Hne) as [H1 H2].
  apply IH; assumption.
Qed.

Lemma processUrlFile_effect {E}
    (on : (JS.Map (list (Group E)) -> JS.Map (list (Group E))) -> Heap -> Heap)
    (proj : Heap -> JS.Map (list (Group E)))
    (proj_on : forall f h, proj (on f h) = f (proj h))
    (minParts urlAt : nat) (mk : list string -> string -> E) :
  urlFileEffect on proj (urlFileMap URL_hostname minParts urlAt mk)
                (processUrlFile URL_hostname on minParts urlAt mk).
Proof.
  intros filePath relativePath content mtime w Hfile.
  destruct (@urlLoop_map E minParts urlAt mk (nonBlankLines content) ([], 0)
              (NoDup_nil _) ltac:(intros k entries H; discriminate)) as [Hnd Hne].
  fold (urlFileMap URL_hostname minParts urlAt mk content) in Hnd, Hne.
  destruct (@storeGroups_effect _ _ on proj (mkGroup relativePath) proj_on filePath content
              mtime (urlFileMap URL_hostname minParts urlAt mk content) w Hfile Hnd)
    as [h' [Es [Hg Ho]]].
  exists (heapSet h' w). split.
  { unfold processUrlFile, bind, readFileSync. rewrite Hfile.
    revert Es. unfold urlFileMap.
    match goal with
    | |- context [fold_left ?f ?l ?a] => destruct (fold_left f l a) as [domainMap n]
    end.
    intros Es. exact Es. }
  cbn [heapSet heap oracle files now_ms trace].
  split; [exact Hg|]. split; [exact Hne|]. split; [exact Ho|]. auto.
Qed.

(** X25. What the parsers of history, password and autofill files leave in
    the heap when the file can be read. Each returns and reads no clock; the
    map of its kind has one group more, with the relative path and the
    modification time of the file, under every domain of the per-file map and
    under no other; a domain of the per-file map has one entry at least, so no
    group of these kinds is empty; the rest of the heap, the counters of
    [stats] among it, is as before. *)
Theorem X25_url_file_parsers_add_one_group_per_domain :
  urlFileEffect onHistory (fun h => history (discoveredData h))
                (urlFileMap URL_hostname 1 0 mkHistory)
                (processHistoryFile URL_hostname)
  /\ urlFileEffect onPasswords (fun h => passwords (discoveredData h))
                   (urlFileMap URL_hostname 3 0 mkPassword)
                   (processPasswordFile URL_hostname)
  /\ urlFileEffect onAutofills (fun h => autofills (discoveredData h))
                   (urlFileMap URL_hostname 3 2 mkAutofill)
                   (processAutofillFile URL_hostname).
Proof.
  split; [|split].
  - exact (@processUrlFile_effect _ onHistory _ (fun f h => eq_refl) 1 0 mkHistory).
  - exact (@processUrlFile_effect _ onPasswords _ (fun f h => eq_refl) 3 0 mkPassword).
  - exact (@processUrlFile_effect _ onAutofills _ (fun f h => eq_refl) 3 2 mkAutofill).
Qed.

End UrlFiles.

Example history_file_of_one_line :
  let line := ("https://bank.example/account" ++ String JS.TAB ("Account" ++ String JS.TAB "7"))%string in
  let w := steadyWorld 0 (oneFile "in/history.txt" line) 0 in
  let w' := snd (processHistoryFile (fun _ => Some "bank.example") "in/history.txt"
                                    "history.txt" w) in
  history (discoveredData (heap w'))
  = [("bank.example",
      [mkGroup "history.txt"
         [mkHistoryEntry "https://bank.example/account" "Account" 7%Z] 0%Z])]
  /\ stats (heap w') = stats (heap w).
Proof. vm_compute. split; reflexivity. Qed.

(** ** The directory walk *)

Lemma bind_ret_right {A} (c : M A) (w : World) : bind c (@ret A) w = c w.
Proof. unfold bind, ret. now destruct (c w) as [[a|e] w1]. Qed.

Lemma forOf_app {A S} (xs ys : list A) (body : A -> S -> M S) (s : S) (w : World) :
  forOf (xs ++ ys) body s w = bind (forOf xs body s) (forOf ys body) w.
Proof.
  revert s w. induction xs as [|x xs IH]; intros s w; [reflexivity|].
  cbn [app forOf]. unfold bind.
  destruct (body x s w) as [[s1|e] w1]; [apply IH | reflexivity].
Qed.

Section WalkDirectoryProperties.

Variable URL_hostname : string -> option string.
Variable path_basename : string -> string.
Variable path_relative : string -> string -> string.
Variable path_join : string -> string -> string.

Lemma processFile_returns (counts : FileCounts) (filePath rootDir : string) (w : World) :
  exists counts' w',
    processFile URL_hostname path_basename path_relative counts filePath rootDir w
    = (Ok counts', w')
    /\ totalFiles counts' = S (totalFiles counts)
    /\ kindFiles counts <= kindFiles counts' <= S (kindFiles counts).
Proof.
  unfold processFile, tryCatch, bind, kindFiles.
  destruct (JS.includes _ "cookies" && _).
  { destruct (processCookieFile _ _ w) as [[[]|e] w1];
      unfold ret; eexists _, _; (split; [reflexivity|]); cbn; lia. }
  destruct (JS.includes _ "history" && _).
  { destruct (processHistoryFile _ _ _ w) as [[[]|e] w1];
      unfold ret; eexists _, _; (split; [reflexivity|]); cbn; lia. }
  destruct (JS.includes _ "password" && _).
  { destruct (processPasswordFile _ _ _ w) as [[[]|e] w1];
      unfold ret; eexists _, _; (split; [reflexivity|]); cbn; lia. }
  destruct (JS.includes _ "autofill" && _).
  { destruct (processAutofillFile _ _ _ w) as [[[]|e] w1];
      unfold ret; eexists _, _; (split; [reflexivity|]); cbn; lia. }
  unfold ret; eexists _, _; (split; [reflexivity|]); cbn; lia.
Qed.

Lemma processPaths_returns (rootDir : string) (paths : list string) :
  forall counts w,
    exists counts' w',
      forOf paths (fun fullPath counts =>
               processFile URL_hostname path_basename path_relative counts fullPath
                           rootDir) counts w = (Ok counts', w')
      /\ totalFiles counts' = totalFiles counts + length paths
      /\ kindFiles counts <= kindFiles counts' <= kindFiles counts + length paths.
Proof.
  induction paths as [|p ps IH]; intros counts w.
  - exists counts, w. cbn. unfold ret. repeat split; lia.
  - cbn [forOf]. unfold bind.
    destruct (processFile_returns counts p rootDir w) as [c1 [w1 [E1 [T1 K1]]]].
    rewrite E1. destruct (IH c1 w1) as [c2 [w2 [E2 [T2 K2]]]].
    exists c2, w2. split; [exact E2|]. cbn [length]. lia.
Qed.

Lemma regularFiles_directory (name : string) (entries : list DirEntry) :
  regularFiles (Directory name entries) = regularFilesOf entries.
Proof.
  unfold regularFilesOf, list_sum. cbn [regularFiles].
  induction entries as [|e es IH]; [reflexivity|]. cbn [map fold_right]. now rewrite IH.
Qed.

Lemma regularPathsIn_directory (dir name : string) (entries : list DirEntry) :
  regularPathsIn path_join dir (Directory name entries)
  = regularPaths path_join (path_join dir name) entries.
Proof.
  unfold regularPaths. cbn [regularPathsIn].
  induction entries as [|e es IH]; [reflexivity|]. cbn [flat_map]. now rewrite IH.
Qed.

Lemma walkEntry_directory (rootDir currentDir name : string) (entries : list DirEntry) :
  forall counts w,
    walkEntry URL_hostname path_basename path_relative path_join rootDir currentDir
              (Directory name entries) counts w
    = forOf entries (walkEntry URL_hostname path_basename path_relative path_join
                               rootDir (path_join currentDir name)) counts w.
Proof.
  cbn [walkEntry]. induction entries as [|e es IH]; intros counts w; [reflexivity|].
  cbn [forOf]. unfold bind.
  destruct (walkEntry _ _ _ _ _ _ e counts w) as [[c'|err] w1]; [apply IH | reflexivity].
Qed.

Lemma walkEntries_paths (rootDir dir : string) (entries : list DirEntry) :
  Forall (fun entry => forall currentDir counts w,
            walkEntry URL_hostname path_basename path_relative path_join
                      rootDir currentDir entry counts w
            = forOf (regularPathsIn path_join currentDir entry) (fun fullPath counts =>
               processFile URL_hostname path_basename path_relative counts fullPath
                           rootDir)
                    counts w) entries ->
  forall counts w,
    forOf entries (walkEntry URL_hostname path_basename path_relative path_join
                             rootDir dir) counts w
    = forOf (regularPaths path_join dir entries) (fun fullPath counts =>
               processFile URL_hostname path_basename path_relative counts fullPath
                           rootDir) counts w.
Proof.
  unfold regularPaths.
  induction 1 as [|e es He _ IH]; intros counts w; [reflexivity|].
  cbn [forOf flat_map]. rewrite forOf_app. unfold bind. rewrite He.
  destruct (forOf (regularPathsIn path_join dir e) (fun fullPath counts =>
               processFile URL_hostname path_basename path_relative counts fullPath
                           rootDir) counts w)
    as [[c1|err] w1]; [apply IH | reflexivity].
Qed.

Lemma walkEntry_paths (rootDir : string) (entry : DirEntry) :
  forall currentDir counts w,
    walkEntry URL_hostname path_basename path_relative path_join
              rootDir currentDir entry counts w
    = forOf (regularPathsIn path_join currentDir entry) (fun fullPath counts =>
               processFile URL_hostname path_basename path_relative counts fullPath
                           rootDir) counts w.
Proof.
  induction entry as [name | name entries IH | name] using DirEntry_induction;
    intros currentDir counts w.
  - cbn [walkEntry regularPathsIn forOf]. symmetry. apply bind_ret_right.
  - rewrite regularPathsIn_directory, walkEntry_directory.
    now apply walkEntries_paths.
  - reflexivity.
Qed.

Lemma regularPathsIn_length (entry : DirEntry) :
  forall dir, length (regularPathsIn path_join dir entry) = regularFiles entry.
Proof.
  induction entry as [name | name entries IH | name] using DirEntry_induction;
    intros dir; [reflexivity | | reflexivity].
  rewrite regularPathsIn_directory, regularFiles_directory.
  unfold regularPaths, regularFilesOf, list_sum.
  induction IH as [|e es He _ IHes]; [reflexivity|].
  cbn [flat_map map fold_right]. rewrite length_app, He, IHes. reflexivity.
Qed.

Lemma regularPaths_length (dir : string) (entries : list DirEntry) :
  length (regularPaths path_join dir entries) = regularFilesOf entries.
Proof.
  unfold regularPaths, regularFilesOf, list_sum.
  induction entries as [|e es IH]; [reflexivity|].
  cbn [flat_map map fold_right]. now rewrite length_app, regularPathsIn_length, IH.
Qed.

(** X26. The directory walk hands every regular file of the tree to
    [processFile], once, under its full path and with the root the walk was
    started with: [walkDirectory] does what a loop of
    [processFile(fullPath, rootDir)] over the paths of the regular files does,
    these being taken depth first in the order of the listings, a file [name]
    of a directory [dir] having the path [path.join(dir, name)] and the
    entries of a directory [name] of [dir] being walked in
    [path.join(dir, name)]. There are as many paths as regular files in the
    tree. So, the directories being listed, the walk returns, [totalFiles]
    has grown by the number of regular files, at any depth, and the four
    counters of the kinds by that number at most together; an entry that is
    neither a file nor a directory counts for nothing. *)
Theorem X26_walkDirectory_counts_the_regular_files
    (currentDir rootDir : string) (entries : list DirEntry) (counts : FileCounts)
    (w : World) :
  walkDirectory URL_hostname path_basename path_relative path_join
                currentDir rootDir entries counts w
  = forOf (regularPaths path_join currentDir entries)
          (fun fullPath counts =>
             processFile URL_hostname path_basename path_relative counts fullPath rootDir)
          counts w
  /\ (forall name, regularPaths path_join currentDir [RegularFile name]
                   = [path_join currentDir name])
  /\ (forall name below,
         regularPaths path_join currentDir [Directory name below]
         = regularPaths path_join (path_join currentDir name) below)
  /\ (forall name, regularPaths path_join currentDir [OtherEntry name] = [])
  /\ (forall entries1 entries2,
         regularPaths path_join currentDir (entries1 ++ entries2)
         = regularPaths path_join currentDir entries1
           ++ regularPaths path_join currentDir entries2)
  /\ length (regularPaths path_join currentDir entries) = regularFilesOf entries
  /\ exists counts' w',
       walkDirectory URL_hostname path_basename path_relative path_join
                     currentDir rootDir entries counts w = (Ok counts', w')
       /\ totalFiles counts' = totalFiles counts + regularFilesOf entries
       /\ kindFiles counts <= kindFiles counts' <= kindFiles counts + regularFilesOf entries.
Proof.
  assert (Hpaths :
    walkDirectory URL_hostname path_basename path_relative path_join
                  currentDir rootDir entries counts w
    = forOf (regularPaths path_join currentDir entries) (fun fullPath counts =>
               processFile URL_hostname path_basename path_relative counts fullPath
                           rootDir) counts w).
  { unfold walkDirectory. apply walkEntries_paths.
    apply Forall_forall. intros entry _ dir c w0. apply walkEntry_paths. }
  split; [exact Hpaths|].
  split; [reflexivity|].
  split. { intros name below. unfold regularPaths at 1. cbn [flat_map].
           now rewrite app_nil_r, regularPathsIn_directory. }
  split; [reflexivity|].
  split. { intros e1 e2. unfold regularPaths. apply flat_map_app. }
  split; [apply regularPaths_length|].
  rewrite Hpaths, <- regularPaths_length with (dir := currentDir).
  apply processPaths_returns.
Qed.

End WalkDirectoryProperties.

Example walk_of_a_small_tree :
  let tree := [Directory "profile"
                 [RegularFile "Cookies.txt"; OtherEntry "socket";
                  Directory "sub" [RegularFile "notes.md"]];
               RegularFile "History.txt"] in
  let w := steadyWorld 0 (fun _ => None) 0 in
  let join := fun d n => (d ++ "/" ++ n)%string in
  fst (walkDirectory (fun _ => None) (fun p => p) (fun _ p => p) join
                     "/data" "/data" tree (mkFileCounts 0 0 0 0 0) w)
  = Ok (mkFileCounts 3 0 0 0 0)
  /\ regularFilesOf tree = 3
  /\ regularPaths join "/data" tree
     = ["/data/profile/Cookies.txt"; "/data/profile/sub/notes.md"; "/data/History.txt"].
Proof. vm_compute. repeat split; reflexivity. Qed.
